(** * Stellaris media extraction: a shallow embedding of Scripts/extract_media.py

    The script builds a manifest of texture assets from two JSON metadata
    files and fixed lists, converts every asset DDS -> PNG -> AVIF through
    external tools, crops three checkbox sprites and reports statistics.

    Modelling choices.
    - Python [str] values are [string]s holding their UTF-8 bytes; bytewise
      lexicographic order on UTF-8 is code point order, which is the order
      [sorted] uses on [str].
    - Python [int] is [Z].  Python [float] is not modelled: a metadata file
      with a number that has a fraction or an exponent, or with [NaN] or
      [Infinity], has no value of type [json].  Where such a number would
      be an icon name, [sorted] need not even return an ascending list
      ([NaN] compares false with everything); statements about the order of
      names are therefore made for lists of strings.
    - [pathlib], the file system, [shutil.which], [json.load] and
      [subprocess.run] are the interface [Platform]; the script is a
      function of it.  [is_dir] and [is_file] can raise, as pathlib's do.
    - [main] is modelled from the line after [args = parse_args()] and
      [logger = setup_logging(args.log_file)] (397-398) on, as a function
      of the parsed [Args].  [argparse] and [logging] are not modelled; a
      command line that [argparse] rejects ends the process with status 2
      before anything described here runs.  Neither are [fmt_size] and the
      wall-clock time, which only shape log text.
    - Code that can raise lives in an error monad ([result]) or, when it
      also touches the outside world, in a state-and-error monad ([M]) over
      the world, the logger's records and the trace of directory creations
      and tool invocations.
    - A logger call is recorded as level, message template and the values
      interpolated into it; rendering (joins, [strip], float formats) is the
      logging sink's business.  The log file itself is that sink and is not
      part of the modelled file system. *)

From Stdlib Require Import String Ascii List ZArith Lia Bool Permutation Sorted.
From Stdlib Require Import OrderedTypeEx FinFun.
From Stdlib Require Import DecimalString.
Import ListNotations.
Local Open Scope string_scope.
Local Open Scope Z_scope.
Local Set Warnings "-register-all".

(* ------------------------------------------------------------------ *)
(** ** Python values, exceptions and the pieces of the runtime used    *)
(* ------------------------------------------------------------------ *)

Inductive exn : Type :=
| FileNotFoundError
| OSError
| JSONDecodeError
| AttributeError
| KeyError
| TypeError.

Inductive result (A : Type) : Type :=
| Ok (a : A)
| Raise (e : exn).
Arguments Ok {A} a.
Arguments Raise {A} e.

Definition rbind {A B} (c : result A) (k : A -> result B) : result B :=
  match c with
  | Ok a => k a
  | Raise e => Raise e
  end.

Notation "x <-! c ;; k" := (rbind c (fun x => k))
  (at level 61, c at next level, right associativity).

(** What [json.load] returns, floats apart: [None], [bool], [int], [str],
    [list], [dict].  A [dict] is the list of its items in insertion order. *)
Inductive json : Type :=
| JNull
| JBool (b : bool)
| JInt (z : Z)
| JStr (s : string)
| JList (l : list json)
| JDict (items : list (string * json)).

(** The hashable values: what can be a member of a [set]. *)
Inductive pyval : Type :=
| VNone
| VBool (b : bool)
| VInt (z : Z)
| VStr (s : string).

Definition str_of_Z (z : Z) : string := NilZero.string_of_int (Z.to_int z).

(** [str(v)], as used by f-strings. *)
Definition py_str (v : pyval) : string :=
  match v with
  | VNone => "None"
  | VBool true => "True"
  | VBool false => "False"
  | VInt z => str_of_Z z
  | VStr s => s
  end.

(** Numeric view: [bool] is a subclass of [int]. *)
Definition py_num (v : pyval) : option Z :=
  match v with
  | VBool b => Some (if b then 1 else 0)
  | VInt z => Some z
  | _ => None
  end.

(** [a == b], which with equal hashes decides set membership. *)
Definition py_eqb (a b : pyval) : bool :=
  match a, b with
  | VNone, VNone => true
  | VStr s, VStr t => String.eqb s t
  | _, _ =>
      match py_num a, py_num b with
      | Some x, Some y => Z.eqb x y
      | _, _ => false
      end
  end.

(** [a < b]: defined between two strings and between two numbers. *)
Definition py_lt (a b : pyval) : result bool :=
  match a, b with
  | VStr s, VStr t => Ok (String.ltb s t)
  | _, _ =>
      match py_num a, py_num b with
      | Some x, Some y => Ok (Z.ltb x y)
      | _, _ => Raise TypeError
      end
  end.

(** A [set] is the list of its members in insertion order. *)
Definition set_mem (x : pyval) (s : list pyval) : bool := existsb (py_eqb x) s.

Definition set_add (x : pyval) (s : list pyval) : list pyval :=
  if set_mem x s then s else s ++ [x].

(** [s -= t] *)
Definition set_diff (s t : list pyval) : list pyval :=
  filter (fun x => negb (set_mem x t)) s.

(** [sorted(s)] for a set [s].  The members of a set are pairwise unequal,
    so every comparison sort returns the same list, and raises [TypeError]
    exactly when two members cannot be compared; insertion sort stands for
    it. *)
Fixpoint py_insert (x : pyval) (l : list pyval) : result (list pyval) :=
  match l with
  | [] => Ok [x]
  | y :: l' =>
      b <-! py_lt x y ;;
      if b then Ok (x :: y :: l')
      else r <-! py_insert x l' ;; Ok (y :: r)
  end.

Fixpoint py_sorted (l : list pyval) : result (list pyval) :=
  match l with
  | [] => Ok []
  | x :: l' => r <-! py_sorted l' ;; py_insert x r
  end.

Fixpoint dict_get (key : string) (items : list (string * json)) : option json :=
  match items with
  | [] => None
  | (k, v) :: rest => if String.eqb k key then Some v else dict_get key rest
  end.

(** [d.values()] *)
Definition py_values (d : json) : result (list json) :=
  match d with
  | JDict items => Ok (map snd items)
  | _ => Raise AttributeError
  end.

(** [x[key]] for a string key. *)
Definition py_getitem (x : json) (key : string) : result json :=
  match x with
  | JDict items =>
      match dict_get key items with
      | Some v => Ok v
      | None => Raise KeyError
      end
  | _ => Raise TypeError
  end.

(** [hash(x)] succeeds: the value may enter a set. *)
Definition py_hashable (x : json) : result pyval :=
  match x with
  | JNull => Ok VNone
  | JBool b => Ok (VBool b)
  | JInt z => Ok (VInt z)
  | JStr s => Ok (VStr s)
  | JList _ | JDict _ => Raise TypeError
  end.

Fixpoint is_substring (p s : string) : bool :=
  String.prefix p s ||
  match s with
  | EmptyString => false
  | String _ s' => is_substring p s'
  end.

Definition is_str (key : string) (x : json) : bool :=
  match x with
  | JStr s => String.eqb s key
  | _ => false
  end.

(** [key in x] for a string key: key of a dict, member of a list,
    substring of a string. *)
Definition py_contains (key : string) (x : json) : result bool :=
  match x with
  | JDict items => Ok (existsb (fun kv => String.eqb (fst kv) key) items)
  | JList l => Ok (existsb (is_str key) l)
  | JStr s => Ok (is_substring key s)
  | _ => Raise TypeError
  end.

(** [for y in x]: the members of a list, the keys of a dict, the characters
    of a string.  A string is walked byte by byte here; the only use below
    asks whether ["name"] occurs in the one-character string, which is false
    for a byte as for a code point. *)
Definition py_iter (x : json) : result (list json) :=
  match x with
  | JList l => Ok l
  | JDict items => Ok (map (fun kv => JStr (fst kv)) items)
  | JStr s => Ok (map (fun c => JStr (String c EmptyString)) (list_ascii_of_string s))
  | _ => Raise TypeError
  end.

(* ------------------------------------------------------------------ *)
(** ** Fixed asset lists                                               *)
(* ------------------------------------------------------------------ *)

Definition CATEGORY_ICONS : list string :=
  [ "archaeostudies"; "biology"; "computing"; "field_manipulation";
    "industry"; "materials"; "military_theory"; "new_worlds";
    "particles"; "propulsion"; "psionics"; "statecraft"; "voidcraft" ].

Definition BACKGROUND_TEXTURES : list (string * string) :=
  [ ("tech_bg_physics",     "gfx/interface/tech_view/tech_bg_physics.dds");
    ("tech_bg_society",     "gfx/interface/tech_view/tech_bg_society.dds");
    ("tech_bg_engineering", "gfx/interface/tech_view/tech_bg_engineering.dds");
    ("tech_bg_rare",        "gfx/interface/tech_view/tech_bg_rare.dds");
    ("tech_bg_dangerous",   "gfx/interface/tech_view/tech_bg_dangerous.dds") ].

Definition UI_TEXTURES : list (string * string) :=
  [ ("background_tutorial_detailed",
     "gfx/interface/tutorial_mission_window/background_tutorial_detailed.dds");
    ("extradimensional_blue_room",
     "gfx/portraits/city_sets/extradimensional_blue_room.dds") ].

Definition CHECKBOX_SPRITE : list (string * string) :=
  [ ("button_24_24_checkbox", "gfx/interface/buttons/button_24_24_checkbox.dds") ].

(** Checkbox crop regions: (x, y, width, height). *)
Definition CHECKBOX_REGIONS : list (string * (Z * Z * Z * Z)) :=
  [ ("checkbox_normal",  (11, 11, 26, 26));
    ("checkbox_pressed", (59, 11, 26, 26));
    ("checkbox_hover",   (107, 11, 26, 26)) ].

Definition SUBDIRS : list string :=
  [ "tech_icons"; "swap_icons"; "category_icons"; "backgrounds"; "ui"; "sprites" ].

(* ------------------------------------------------------------------ *)
(** ** Icon names read from the metadata (build_asset_manifest, 205-231) *)
(* ------------------------------------------------------------------ *)

(** [{t["icon"] for t in techs.values()}], accumulated into [acc]. *)
Fixpoint icon_set (ts : list json) (acc : list pyval) : result (list pyval) :=
  match ts with
  | [] => Ok acc
  | t :: rest =>
      v <-! py_getitem t "icon" ;;
      h <-! py_hashable v ;;
      icon_set rest (set_add h acc)
  end.

(** [tech_icons = sorted({t["icon"] for t in techs.values()})] *)
Definition tech_icon_names (techs : json) : result (list pyval) :=
  ts <-! py_values techs ;;
  s <-! icon_set ts [] ;;
  py_sorted s.

(** The inner loop [for swap in swap_list: if "name" in swap: add]. *)
Fixpoint swap_names_of (swaps_items : list json) (acc : list pyval)
  : result (list pyval) :=
  match swaps_items with
  | [] => Ok acc
  | swap :: rest =>
      b <-! py_contains "name" swap ;;
      if b then
        v <-! py_getitem swap "name" ;;
        h <-! py_hashable v ;;
        swap_names_of rest (set_add h acc)
      else swap_names_of rest acc
  end.

(** The outer loop [for swap_list in swaps.values()]. *)
Fixpoint swap_name_set (lists : list json) (acc : list pyval)
  : result (list pyval) :=
  match lists with
  | [] => Ok acc
  | swap_list :: rest =>
      items <-! py_iter swap_list ;;
      acc' <-! swap_names_of items acc ;;
      swap_name_set rest acc'
  end.

(** Lines 224-231: collect, drop the tech icons, sort. *)
Definition swap_icon_names (swaps : json) (tech_icons : list pyval)
  : result (list pyval) :=
  lists <-! py_values swaps ;;
  s <-! swap_name_set lists [] ;;
  py_sorted (set_diff s tech_icons).

(* ------------------------------------------------------------------ *)
(** ** The outside world                                               *)
(* ------------------------------------------------------------------ *)

(** How [subprocess.run(cmd, capture_output=True, text=True, timeout=t)]
    ends: a completed process with its return code and captured stderr,
    [subprocess.TimeoutExpired], or any other [Exception] with its text. *)
Inductive run_outcome : Type :=
| Completed (returncode : Z) (stderr : string)
| TimeoutExpired
| RunException (e : string).

Class Platform : Type := {
  (** [pathlib.Path], [p / s], [p.parent], [str(p)] *)
  Path : Type;
  joinpath : Path -> string -> Path;
  parent : Path -> Path;
  path_str : Path -> string;
  (** the file system and the tools behind it *)
  World : Type;
  (** [p.is_dir()], [p.is_file()]: [stat] and a test of the mode.  pathlib
      answers [False] when [stat] fails with ENOENT, ENOTDIR, EBADF or
      ELOOP, and lets every other [OSError] through (a name too long for
      the file system, a directory that may not be searched). *)
  is_dir : Path -> World -> result bool;
  is_file : Path -> World -> result bool;
  (** [p.stat().st_size], [None] for [OSError] *)
  stat_size : Path -> World -> option Z;
  (** [shutil.which(name)] *)
  which : string -> World -> option string;
  (** [with open(p) as f: json.load(f)] *)
  load_json : Path -> World -> result json;
  (** [p.mkdir(parents=True, exist_ok=True)] *)
  mkdir : Path -> World -> result unit * World;
  subprocess_run : list string -> Z -> World -> run_outcome * World
}.

Notation "p // s" := (joinpath p s) (at level 40, left associativity).

Inductive level : Type := DEBUG | INFO | WARNING | ERROR | CRITICAL.

Section Script.

Context {P : Platform}.

(** A value interpolated into a log message. *)
Inductive arg : Type :=
| AStr (s : string)
| AInt (z : Z)
| ABool (b : bool)
| AVal (v : pyval)
| APath (p : Path)
| AList (l : list string).

Record log_record : Type := LogRecord {
  lvl : level;
  template : string;
  args_of : list arg
}.

(** What the script does to the world, in order. *)
Inductive event : Type :=
| EvMkdir (p : Path)
| EvRun (cmd : list string) (timeout : Z) (out : run_outcome).

Record State : Type := mkState {
  world : World;
  logs : list log_record;
  trace : list event
}.

(** State and exceptions; the state reached is kept when an exception
    propagates. *)
Definition M (A : Type) : Type := State -> result A * State.

Definition ret {A} (a : A) : M A := fun s => (Ok a, s).

Definition bind {A B} (c : M A) (k : A -> M B) : M B :=
  fun s =>
    match c s with
    | (Ok a, s') => k a s'
    | (Raise e, s') => (Raise e, s')
    end.

Definition lift {A} (r : result A) : M A := fun s => (r, s).

Notation "x <- c ;; k" := (bind c (fun x => k))
  (at level 61, c at next level, right associativity).
Notation "c ;; k" := (bind c (fun _ => k))
  (at level 61, right associativity).

(** Read-only questions to the world. *)
Definition query {A} (q : World -> A) : M A := fun s => (Ok (q (world s)), s).

(** Read-only questions that can raise. *)
Definition ask {A} (q : World -> result A) : M A := fun s => (q (world s), s).

Definition log (lv : level) (tpl : string) (a : list arg) : M unit :=
  fun s => (Ok tt, mkState (world s) (logs s ++ [LogRecord lv tpl a]) (trace s)).

Definition do_mkdir (p : Path) : M unit :=
  fun s =>
    let '(r, w) := mkdir p (world s) in
    (r, mkState w (logs s) (trace s ++ [EvMkdir p])).

Definition run (cmd : list string) (timeout : Z) : M run_outcome :=
  fun s =>
    let '(o, w) := subprocess_run cmd timeout (world s) in
    (Ok o, mkState w (logs s) (trace s ++ [EvRun cmd timeout o])).

Definition read_json (p : Path) : M json :=
  fun s => (load_json p (world s), s).

(* ------------------------------------------------------------------ *)
(** ** Data classes                                                    *)
(* ------------------------------------------------------------------ *)

(** A single asset to extract and convert. *)
Record AssetEntry : Type := mkAssetEntry {
  name : pyval;
  category : string;
  src_dds : Path;
  dst_png : Path;
  dst_avif : Path;
  lossless : bool
}.

(** Running extraction statistics. *)
Record Stats : Type := mkStats {
  total : Z;
  converted : Z;
  skipped : Z;
  failed : Z;
  dds_bytes : Z;
  png_bytes : Z;
  avif_bytes : Z;
  errors : list string;
  warnings : list string
}.

(** [Stats(total=n)] *)
Definition new_stats (n : Z) : Stats := mkStats n 0 0 0 0 0 0 [] [].

(** [stats.converted += 1] and its siblings. *)
Definition incr_converted (st : Stats) : Stats :=
  mkStats (total st) (converted st + 1) (skipped st) (failed st)
          (dds_bytes st) (png_bytes st) (avif_bytes st) (errors st) (warnings st).
Definition incr_skipped (st : Stats) : Stats :=
  mkStats (total st) (converted st) (skipped st + 1) (failed st)
          (dds_bytes st) (png_bytes st) (avif_bytes st) (errors st) (warnings st).
Definition incr_failed (st : Stats) : Stats :=
  mkStats (total st) (converted st) (skipped st) (failed st + 1)
          (dds_bytes st) (png_bytes st) (avif_bytes st) (errors st) (warnings st).
Definition add_dds_bytes (st : Stats) (n : Z) : Stats :=
  mkStats (total st) (converted st) (skipped st) (failed st)
          (dds_bytes st + n) (png_bytes st) (avif_bytes st) (errors st) (warnings st).
Definition add_png_bytes (st : Stats) (n : Z) : Stats :=
  mkStats (total st) (converted st) (skipped st) (failed st)
          (dds_bytes st) (png_bytes st + n) (avif_bytes st) (errors st) (warnings st).
Definition add_avif_bytes (st : Stats) (n : Z) : Stats :=
  mkStats (total st) (converted st) (skipped st) (failed st)
          (dds_bytes st) (png_bytes st) (avif_bytes st + n) (errors st) (warnings st).
(** [stats.errors.append(msg)], [stats.warnings.append(msg)] *)
Definition append_error (st : Stats) (msg : string) : Stats :=
  mkStats (total st) (converted st) (skipped st) (failed st)
          (dds_bytes st) (png_bytes st) (avif_bytes st) (errors st ++ [msg]) (warnings st).
Definition append_warning (st : Stats) (msg : string) : Stats :=
  mkStats (total st) (converted st) (skipped st) (failed st)
          (dds_bytes st) (png_bytes st) (avif_bytes st) (errors st) (warnings st ++ [msg]).

(* ------------------------------------------------------------------ *)
(** ** Tool verification (check_tool)                                  *)
(* ------------------------------------------------------------------ *)

Definition check_tool (tool : string) : M bool :=
  path <- query (which tool) ;;
  match path with
  | Some p =>
      log DEBUG "Found {name} at {path}" [AStr tool; AStr p] ;;
      ret true
  | None =>
      log CRITICAL "Required tool '{name}' not found in PATH. Please install it."
          [AStr tool] ;;
      ret false
  end.

(* ------------------------------------------------------------------ *)
(** ** Asset manifest building (build_asset_manifest)                  *)
(* ------------------------------------------------------------------ *)

Definition icons_dir : string := "gfx/interface/icons/technologies".

Definition tech_entry (stellaris png_base avif_base : Path) (icon : pyval)
  : AssetEntry :=
  mkAssetEntry icon "tech_icons"
    (stellaris // icons_dir // (py_str icon ++ ".dds"))
    (png_base // "tech_icons" // (py_str icon ++ ".png"))
    (avif_base // "tech_icons" // (py_str icon ++ ".avif"))
    true.

Definition swap_entry (stellaris png_base avif_base : Path) (icon : pyval)
  : AssetEntry :=
  mkAssetEntry icon "swap_icons"
    (stellaris // icons_dir // (py_str icon ++ ".dds"))
    (png_base // "swap_icons" // (py_str icon ++ ".png"))
    (avif_base // "swap_icons" // (py_str icon ++ ".avif"))
    true.

Definition category_name (cat : string) : string := "category_" ++ cat.

Definition category_entry (stellaris png_base avif_base : Path) (cat : string)
  : AssetEntry :=
  let name := category_name cat in
  mkAssetEntry (VStr name) "category_icons"
    (stellaris // "gfx/interface/icons/technologies/categories" // (name ++ ".dds"))
    (png_base // "category_icons" // (name ++ ".png"))
    (avif_base // "category_icons" // (name ++ ".avif"))
    true.

(** Background, UI and sprite textures: name, relative source path. *)
Definition texture_entry (cat : string) (quality : bool)
    (stellaris png_base avif_base : Path) (item : string * string) : AssetEntry :=
  let '(name, rel_path) := item in
  mkAssetEntry (VStr name) cat
    (stellaris // rel_path)
    (png_base // cat // (name ++ ".png"))
    (avif_base // cat // (name ++ ".avif"))
    quality.

(** Sections 3 to 6 of the builder: the entries that do not depend on the
    metadata. *)
Definition fixed_entries (stellaris png_base avif_base : Path) : list AssetEntry :=
  (map (category_entry stellaris png_base avif_base) CATEGORY_ICONS
   ++ map (texture_entry "backgrounds" false stellaris png_base avif_base)
          BACKGROUND_TEXTURES
   ++ map (texture_entry "ui" false stellaris png_base avif_base) UI_TEXTURES
   ++ map (texture_entry "sprites" true stellaris png_base avif_base)
          CHECKBOX_SPRITE)%list.

Definition len {A} (l : list A) : Z := Z.of_nat (length l).

Definition build_asset_manifest (stellaris data_dir output_dir : Path)
  : M (list AssetEntry) :=
  let png_base := output_dir // "png" in
  let avif_base := output_dir // "avif" in
  (* 1. Technology icons from technologies.json *)
  let tech_file := data_dir // "technologies.json" in
  log INFO "Loading {tech_file}" [APath tech_file] ;;
  techs <- read_json tech_file ;;
  tech_icons <- lift (tech_icon_names techs) ;;
  log INFO "Found {len(tech_icons)} unique tech icons" [AInt (len tech_icons)] ;;
  let manifest := map (tech_entry stellaris png_base avif_base) tech_icons in
  (* 2. Swap icons from technology_swaps.json *)
  let swap_file := data_dir // "technology_swaps.json" in
  log INFO "Loading {swap_file}" [APath swap_file] ;;
  swaps <- read_json swap_file ;;
  swap_icons <- lift (swap_icon_names swaps tech_icons) ;;
  log INFO "Found {len(swap_icons)} unique swap icons (excluding tech icon duplicates)"
      [AInt (len swap_icons)] ;;
  let manifest := (manifest ++ map (swap_entry stellaris png_base avif_base) swap_icons)%list in
  (* 3.-6. Category icons, backgrounds, UI textures, checkbox sprite sheet *)
  let manifest := (manifest ++ fixed_entries stellaris png_base avif_base)%list in
  log INFO "Total asset manifest: {len(manifest)} entries" [AInt (len manifest)] ;;
  ret manifest.

(* ------------------------------------------------------------------ *)
(** ** Conversion functions                                            *)
(* ------------------------------------------------------------------ *)

(** Convert a DDS file to PNG using ImageMagick. *)
Definition dds_to_png (src dst : Path) : M bool :=
  do_mkdir (parent dst) ;;
  let cmd := ["magick"; path_str src; path_str dst] in
  result <- run cmd 30 ;;
  match result with
  | Completed returncode stderr =>
      if negb (returncode =? 0) then
        log ERROR "magick failed: {' '.join(cmd)}\n  stderr: {result.stderr.strip()}"
            [AList cmd; AStr stderr] ;;
        ret false
      else ret true
  | TimeoutExpired =>
      log ERROR "magick timed out: {' '.join(cmd)}" [AList cmd] ;;
      ret false
  | RunException e =>
      log ERROR "magick exception: {e}" [AStr e] ;;
      ret false
  end.

Definition avifenc_cmd (src dst : Path) (lossless : bool) (jobs : Z) : list string :=
  let jobs_arg := if 0 <? jobs then str_of_Z jobs else "all" in
  if lossless then
    ["avifenc"; "--lossless"; "-s"; "0";
     "-j"; jobs_arg; path_str src; path_str dst]
  else
    ["avifenc"; "-q"; "90"; "--qalpha"; "100";
     "-s"; "0"; "-y"; "444";
     "-j"; jobs_arg; path_str src; path_str dst].

(** Convert a PNG file to AVIF using avifenc. *)
Definition png_to_avif (src dst : Path) (lossless : bool) (jobs : Z) : M bool :=
  do_mkdir (parent dst) ;;
  let cmd := avifenc_cmd src dst lossless jobs in
  result <- run cmd 120 ;;
  match result with
  | Completed returncode stderr =>
      if negb (returncode =? 0) then
        log ERROR "avifenc failed: {' '.join(cmd)}\n  stderr: {result.stderr.strip()}"
            [AList cmd; AStr stderr] ;;
        ret false
      else ret true
  | TimeoutExpired =>
      log ERROR "avifenc timed out (120s): {' '.join(cmd)}" [AList cmd] ;;
      ret false
  | RunException e =>
      log ERROR "avifenc exception: {e}" [AStr e] ;;
      ret false
  end.

Definition crop_cmd (src_png : Path) (region : Z * Z * Z * Z) (dst_png : Path)
  : list string :=
  let '(x, y, w, h) := region in
  ["magick"; path_str src_png; "-crop";
   str_of_Z w ++ "x" ++ str_of_Z h ++ "+" ++ str_of_Z x ++ "+" ++ str_of_Z y;
   "+repage"; path_str dst_png].

(** Crop a region from a PNG sprite sheet using ImageMagick.  The single
    handler [except Exception] also takes [TimeoutExpired]. *)
Definition crop_sprite (src_png : Path) (region : Z * Z * Z * Z) (dst_png : Path)
  : M bool :=
  do_mkdir (parent dst_png) ;;
  let cmd := crop_cmd src_png region dst_png in
  result <- run cmd 30 ;;
  match result with
  | Completed returncode stderr =>
      if negb (returncode =? 0) then
        log ERROR "magick crop failed: {' '.join(cmd)}\n  stderr: {result.stderr.strip()}"
            [AList cmd; AStr stderr] ;;
        ret false
      else ret true
  | TimeoutExpired =>
      (* str(e) of a TimeoutExpired names the command and the timeout *)
      log ERROR "magick crop exception: {e}" [AList cmd; AInt 30] ;;
      ret false
  | RunException e =>
      log ERROR "magick crop exception: {e}" [AStr e] ;;
      ret false
  end.

(* ------------------------------------------------------------------ *)
(** ** Helpers                                                         *)
(* ------------------------------------------------------------------ *)

(** Return file size in bytes, or 0 if it doesn't exist. *)
Definition size_in (path : Path) (w : World) : Z :=
  match stat_size path w with
  | Some n => n
  | None => 0
  end.

Definition file_size (path : Path) : M Z := query (size_in path).

(* ------------------------------------------------------------------ *)
(** ** Main                                                            *)
(* ------------------------------------------------------------------ *)

(** The parsed command line ([argparse.Namespace]). *)
Record Args : Type := mkArgs {
  stellaris_path : Path;
  output_dir : Path;
  data_dir : Path;
  log_file : Path;
  dry_run : bool;
  no_avif : bool;
  jobs : Z
}.

(** ["=" * 60] *)
Definition rule : string :=
  "============================================================".

(** The values of [prefix = f"[{i:03d}/{stats.total}] {entry.category}/{entry.name}"]. *)
Definition prefix_args (i : Z) (stats : Stats) (entry : AssetEntry) : list arg :=
  [AInt i; AInt (total stats); AStr (category entry); AVal (name entry)].

(** [f"{entry.category}/{entry.name}: {what}"] *)
Definition entry_msg (entry : AssetEntry) (what : string) : string :=
  category entry ++ "/" ++ py_str (name entry) ++ ": " ++ what.

(** Body of the loop [for i, entry in enumerate(manifest, 1)] (474-514);
    the result is the statistics object after the iteration. *)
Definition process_entry (args : Args) (i : Z) (entry : AssetEntry) (stats : Stats)
  : M Stats :=
  (* Check source exists *)
  present <- ask (is_file (src_dds entry)) ;;
  if negb present then
    log WARNING "{prefix}: DDS not found — {entry.src_dds}"
        (prefix_args i stats entry ++ [APath (src_dds entry)]) ;;
    let stats := incr_skipped stats in
    let stats := append_warning stats (entry_msg entry "DDS missing") in
    ret stats
  else
    dds_size <- file_size (src_dds entry) ;;
    let stats := add_dds_bytes stats dds_size in
    (* DDS → PNG *)
    ok <- dds_to_png (src_dds entry) (dst_png entry) ;;
    if negb ok then
      log ERROR "{prefix}: DDS→PNG conversion failed" (prefix_args i stats entry) ;;
      let stats := incr_failed stats in
      let stats := append_error stats (entry_msg entry "DDS→PNG failed") in
      ret stats
    else
      png_size <- file_size (dst_png entry) ;;
      let stats := add_png_bytes stats png_size in
      (* PNG → AVIF *)
      if negb (no_avif args) then
        ok <- png_to_avif (dst_png entry) (dst_avif entry) (lossless entry) (jobs args) ;;
        if negb ok then
          log ERROR "{prefix}: PNG→AVIF conversion failed (PNG preserved)"
              (prefix_args i stats entry) ;;
          let stats := incr_failed stats in
          let stats := append_error stats (entry_msg entry "PNG→AVIF failed") in
          ret stats
        else
          avif_size <- file_size (dst_avif entry) ;;
          let stats := add_avif_bytes stats avif_size in
          log INFO "{prefix}: DDS {fmt_size(dds_size)} → PNG {fmt_size(png_size)} → AVIF {fmt_size(avif_size)} ({savings:.0f}% savings)"
              (prefix_args i stats entry ++ [AInt dds_size; AInt png_size; AInt avif_size]) ;;
          ret (incr_converted stats)
      else
        log INFO "{prefix}: DDS {fmt_size(dds_size)} → PNG {fmt_size(png_size)}"
            (prefix_args i stats entry ++ [AInt dds_size; AInt png_size]) ;;
        ret (incr_converted stats).

(** The loop over the manifest, [i] counting from 1. *)
Fixpoint process_assets (args : Args) (i : Z) (manifest : list AssetEntry)
    (stats : Stats) : M Stats :=
  match manifest with
  | [] => ret stats
  | entry :: rest =>
      stats <- process_entry args i entry stats ;;
      process_assets args (i + 1) rest stats
  end.

(** Body of the loop over [CHECKBOX_REGIONS] (522-544). *)
Definition process_crop (args : Args) (checkbox_png : Path)
    (crop : string * (Z * Z * Z * Z)) (stats : Stats) : M Stats :=
  let '(crop_name, region) := crop in
  let crop_png := output_dir args // "png" // "sprites" // (crop_name ++ ".png") in
  let crop_avif := output_dir args // "avif" // "sprites" // (crop_name ++ ".avif") in
  ok <- crop_sprite checkbox_png region crop_png ;;
  if ok then
    png_size <- file_size crop_png ;;
    let stats := add_png_bytes stats png_size in
    if negb (no_avif args) then
      ok <- png_to_avif crop_png crop_avif true (jobs args) ;;
      if ok then
        avif_size <- file_size crop_avif ;;
        let stats := add_avif_bytes stats avif_size in
        log INFO "  sprites/{crop_name}: PNG {fmt_size(png_size)} → AVIF {fmt_size(avif_size)}"
            [AStr crop_name; AInt png_size; AInt avif_size] ;;
        ret stats
      else
        log ERROR "  sprites/{crop_name}: AVIF conversion failed" [AStr crop_name] ;;
        ret (append_error stats ("sprites/" ++ crop_name ++ ": PNG→AVIF failed"))
    else
      log INFO "  sprites/{crop_name}: PNG {fmt_size(png_size)}"
          [AStr crop_name; AInt png_size] ;;
      ret stats
  else
    log ERROR "  sprites/{crop_name}: crop failed" [AStr crop_name] ;;
    ret (append_error stats ("sprites/" ++ crop_name ++ ": crop failed")).

Fixpoint process_crop_regions (args : Args) (checkbox_png : Path)
    (regions : list (string * (Z * Z * Z * Z))) (stats : Stats) : M Stats :=
  match regions with
  | [] => ret stats
  | crop :: rest =>
      stats <- process_crop args checkbox_png crop stats ;;
      process_crop_regions args checkbox_png rest stats
  end.

(** Special: checkbox sprite crops (516-547). *)
Definition process_crops (args : Args) (stats : Stats) : M Stats :=
  log INFO "" [] ;;
  log INFO "Processing checkbox sprite crops..." [] ;;
  let checkbox_png :=
    output_dir args // "png" // "sprites" // "button_24_24_checkbox.png" in
  present <- ask (is_file checkbox_png) ;;
  if present then
    process_crop_regions args checkbox_png CHECKBOX_REGIONS stats
  else
    log WARNING "Checkbox sprite PNG not found — skipping crops" [] ;;
    ret (append_warning stats "Checkbox sprite sheet missing, crops skipped").


(** Dry run: the listing of one category (451-455). *)
Fixpoint dry_run_entries (entries : list AssetEntry) : M unit :=
  match entries with
  | [] => ret tt
  | e :: rest =>
      present <- ask (is_file (src_dds e)) ;;
      let exists_ := if present then "OK" else "MISSING" in
      log INFO "    {e.name}.dds [{exists}]" [AVal (name e); AStr exists_] ;;
      dry_run_entries rest
  end.

(** [by_category.get(cat, [])]: the entries of that category, in manifest
    order. *)
Definition by_category (manifest : list AssetEntry) (cat : string) : list AssetEntry :=
  filter (fun e => String.eqb (category e) cat) manifest.

Fixpoint dry_run_categories (manifest : list AssetEntry) (cats : list string)
  : M unit :=
  match cats with
  | [] => ret tt
  | cat :: rest =>
      let entries := by_category manifest cat in
      log INFO "\n  {cat}/ ({len(entries)} files)" [AStr cat; AInt (len entries)] ;;
      dry_run_entries (firstn 5 entries) ;;
      (if 5 <? len entries then
         log INFO "    ... and {len(entries) - 5} more" [AInt (len entries - 5)]
       else ret tt) ;;
      dry_run_categories manifest rest
  end.

(** Dry run — just list and exit (441-461). *)
Definition dry_run_listing (manifest : list AssetEntry) : M Z :=
  log INFO "\n{'='*60}" [] ;;
  log INFO "DRY RUN — {len(manifest)} assets to extract:" [AInt (len manifest)] ;;
  log INFO "{'='*60}" [] ;;
  dry_run_categories manifest SUBDIRS ;;
  (* Also count checkbox crops *)
  let sprite_count := len CHECKBOX_REGIONS in
  let total := len manifest + sprite_count in
  log INFO "\n  + {sprite_count} checkbox sprite crops" [AInt sprite_count] ;;
  log INFO "\nTotal assets: {total}" [AInt total] ;;
  ret 0.

(** Create output directories (464-467). *)
Fixpoint create_output_dirs (args : Args) (subdirs : list string) : M unit :=
  match subdirs with
  | [] => ret tt
  | subdir :: rest =>
      do_mkdir (output_dir args // "png" // subdir) ;;
      (if negb (no_avif args) then do_mkdir (output_dir args // "avif" // subdir)
       else ret tt) ;;
      create_output_dirs args rest
  end.

Fixpoint log_each (tpl : string) (msgs : list string) : M unit :=
  match msgs with
  | [] => ret tt
  | m :: rest => log INFO tpl [AStr m] ;; log_each tpl rest
  end.

(** Summary (550-579).  The elapsed wall-clock time is not modelled. *)
Definition log_summary (args : Args) (stats : Stats) : M unit :=
  log INFO "" [] ;;
  log INFO rule [] ;;
  log INFO "EXTRACTION SUMMARY" [] ;;
  log INFO rule [] ;;
  log INFO "Total assets : {stats.total} (+{len(CHECKBOX_REGIONS)} sprite crops)"
      [AInt (total stats); AInt (len CHECKBOX_REGIONS)] ;;
  log INFO "Converted    : {stats.converted}" [AInt (converted stats)] ;;
  log INFO "Skipped      : {stats.skipped} (missing DDS)" [AInt (skipped stats)] ;;
  log INFO "Failed       : {stats.failed}" [AInt (failed stats)] ;;
  log INFO "DDS total    : {fmt_size(stats.dds_bytes)}" [AInt (dds_bytes stats)] ;;
  log INFO "PNG total    : {fmt_size(stats.png_bytes)}" [AInt (png_bytes stats)] ;;
  (if negb (no_avif args) then
     log INFO "AVIF total   : {fmt_size(stats.avif_bytes)}" [AInt (avif_bytes stats)] ;;
     if 0 <? dds_bytes stats then
       log INFO "Overall savings: {overall:.1f}% (DDS → AVIF)"
           [AInt (avif_bytes stats); AInt (dds_bytes stats)]
     else ret tt
   else ret tt) ;;
  log INFO "Time elapsed : {elapsed:.1f}s" [] ;;
  log INFO "Log file     : {args.log_file}" [APath (log_file args)] ;;
  (match warnings stats with
   | [] => ret tt
   | _ =>
       log INFO "\nWarnings ({len(stats.warnings)}):" [AInt (len (warnings stats))] ;;
       log_each "  ⚠ {w}" (warnings stats)
   end) ;;
  (match errors stats with
   | [] => ret tt
   | _ =>
       log INFO "\nErrors ({len(stats.errors)}):" [AInt (len (errors stats))] ;;
       log_each "  ✗ {e}" (errors stats)
   end) ;;
  log INFO rule [].

(** [return 1 if stats.failed > 0 else 0] *)
Definition exit_code (stats : Stats) : Z := if 0 <? failed stats then 1 else 0.

(** [main] from the creation of the output directories on (463-581): what a
    run does once it is past validation, manifest building and the dry-run
    exit. *)
Definition convert_all (args : Args) (manifest : list AssetEntry) : M Z :=
  (* Create output directories *)
  create_output_dirs args SUBDIRS ;;
  (* Process assets *)
  let stats := new_stats (len manifest) in
  stats <- process_assets args 1 manifest stats ;;
  (* Special: checkbox sprite crops *)
  stats <- process_crops args stats ;;
  (* Summary *)
  log_summary args stats ;;
  ret (exit_code stats).

(** [main] once the command line is parsed and the logger is set up
    (400-581). *)
Definition main (args : Args) : M Z :=
  log INFO rule [] ;;
  log INFO "Stellaris Media Extraction & AVIF Conversion" [] ;;
  log INFO rule [] ;;
  log INFO "Stellaris path : {args.stellaris_path}" [APath (stellaris_path args)] ;;
  log INFO "Data directory : {args.data_dir}" [APath (data_dir args)] ;;
  log INFO "Output directory: {args.output_dir}" [APath (output_dir args)] ;;
  log INFO "Log file       : {args.log_file}" [APath (log_file args)] ;;
  log INFO "Dry run        : {args.dry_run}" [ABool (dry_run args)] ;;
  log INFO "AVIF conversion: {'disabled' if args.no_avif else 'enabled'}"
      [ABool (no_avif args)] ;;
  log INFO "AVIF jobs      : {args.jobs if args.jobs > 0 else 'all cores'}"
      [AInt (jobs args)] ;;
  (* Validate Stellaris path *)
  let tech_dir := stellaris_path args // "common" // "technology" in
  tech_dir_ok <- ask (is_dir tech_dir) ;;
  if negb tech_dir_ok then
    log CRITICAL
        "Invalid Stellaris path: {args.stellaris_path}\n  Expected directory not found: {tech_dir}\n  Use --stellaris-path to specify the correct location."
        [APath (stellaris_path args); APath tech_dir] ;;
    ret 1
  else
  (* Validate data directory *)
  tech_file_ok <- ask (is_file (data_dir args // "technologies.json")) ;;
  if negb tech_file_ok then
    log CRITICAL
        "Data directory missing technologies.json: {args.data_dir}\n  Use --data-dir to specify the correct location."
        [APath (data_dir args)] ;;
    ret 1
  else
  (* Check required tools *)
  magick_ok <- check_tool "magick" ;;
  if negb magick_ok then ret 1 else
  avifenc_ok <- (if negb (no_avif args) then check_tool "avifenc" else ret true) ;;
  if negb avifenc_ok then ret 1 else
  (* Build asset manifest *)
  manifest <- build_asset_manifest (stellaris_path args) (data_dir args)
                                   (output_dir args) ;;
  if dry_run args then dry_run_listing manifest
  else convert_all args manifest.

(** [sys.exit(main())]: the process status.  An exception that leaves
    [main] ends the interpreter with a traceback and status 1. *)
Definition exit_status (r : result Z) : Z :=
  match r with
  | Ok code => code
  | Raise _ => 1
  end.

End Script.

(** The manifest as a function of the world alone: what
    [build_asset_manifest] returns or raises (see
    [build_asset_manifest_run]). *)
Definition manifest_of {P : Platform} (stellaris data_dir output_dir : Path)
    (w : World) : result (list AssetEntry) :=
  techs <-! load_json (data_dir // "technologies.json") w ;;
  tech_icons <-! tech_icon_names techs ;;
  swaps <-! load_json (data_dir // "technology_swaps.json") w ;;
  swap_icons <-! swap_icon_names swaps tech_icons ;;
  Ok (map (tech_entry stellaris (output_dir // "png") (output_dir // "avif")) tech_icons
      ++ map (swap_entry stellaris (output_dir // "png") (output_dir // "avif")) swap_icons
      ++ fixed_entries stellaris (output_dir // "png") (output_dir // "avif"))%list.

Definition found (path : option string) : bool :=
  match path with
  | Some _ => true
  | None => false
  end.

(** Pre-flight validation of [main] (411-433) as a test on the world, made
    in the order of the script: the two path checks, each of which can
    raise, then the tools. *)
Definition validated {P : Platform} (args : Args) (w : World) : result bool :=
  tech_dir_ok <-! is_dir (stellaris_path args // "common" // "technology") w ;;
  if negb tech_dir_ok then Ok false else
  tech_file_ok <-! is_file (data_dir args // "technologies.json") w ;;
  if negb tech_file_ok then Ok false else
  Ok (found (which "magick" w) && (no_avif args || found (which "avifenc" w))).

(** A tool invocation that the converters report as a failure. *)
Definition run_failed (o : run_outcome) : bool :=
  match o with
  | Completed returncode _ => negb (returncode =? 0)
  | TimeoutExpired => true
  | RunException _ => true
  end.

Definition is_failed_run {P : Platform} (ev : event) : bool :=
  match ev with
  | EvRun _ _ o => run_failed o
  | EvMkdir _ => false
  end.

Definition is_run {P : Platform} (ev : event) : bool :=
  match ev with
  | EvRun _ _ _ => true
  | EvMkdir _ => false
  end.

(** Number of failed tool invocations in a stretch of the trace. *)
Definition failed_runs {P : Platform} (evs : list event) : Z :=
  len (filter is_failed_run evs).

(** Names of the manifest entries of one category, in order. *)
Definition names_in {P : Platform} (cat : string) (m : list AssetEntry) : list pyval :=
  map name (by_category m cat).

(** Entries of the manifest carrying a given name. *)
Definition named {P : Platform} (n : pyval) (m : list AssetEntry) : list AssetEntry :=
  filter (fun e => py_eqb (name e) n) m.

(** The names of the entries that do not come from the metadata. *)
Definition fixed_names : list string :=
  (map category_name CATEGORY_ICONS ++ map fst BACKGROUND_TEXTURES
   ++ map fst UI_TEXTURES ++ map fst CHECKBOX_SPRITE)%list.

(** Some technology record carries the icon name [n]. *)
Definition tech_icon_inb (n : string) (techs : json) : bool :=
  match techs with
  | JDict items =>
      existsb (fun kv => match py_getitem (snd kv) "icon" with
                         | Ok (JStr s) => String.eqb s n
                         | _ => false
                         end) items
  | _ => false
  end.

(** Some record of some swap group carries the name [n]. *)
Definition swap_name_inb (n : string) (swaps : json) : bool :=
  match swaps with
  | JDict groups =>
      existsb (fun kv => match snd kv with
                         | JList l =>
                             existsb (fun swap =>
                                        match swap with
                                        | JDict rec =>
                                            match dict_get "name" rec with
                                            | Some (JStr s) => String.eqb s n
                                            | _ => false
                                            end
                                        | _ => false
                                        end) l
                         | _ => false
                         end) groups
  | _ => false
  end.

(** The shape the builder's contract expects of the technology mapping: a
    mapping from identifiers to records that carry an icon name. *)
Definition techs_shape_ok (techs : json) : bool :=
  match techs with
  | JDict items =>
      forallb (fun kv => match snd kv with
                         | JDict rec =>
                             match dict_get "icon" rec with
                             | Some (JStr _) => true
                             | _ => false
                             end
                         | _ => false
                         end) items
  | _ => false
  end.

(** The shape expected of the swap mapping: a mapping from groups to lists
    of records, each with or without a name. *)
Definition swaps_shape_ok (swaps : json) : bool :=
  match swaps with
  | JDict groups =>
      forallb (fun kv => match snd kv with
                         | JList l =>
                             forallb (fun swap =>
                                        match swap with
                                        | JDict rec =>
                                            match dict_get "name" rec with
                                            | Some (JStr _) | None => true
                                            | Some _ => false
                                            end
                                        | _ => false
                                        end) l
                         | _ => false
                         end) groups
  | _ => false
  end.

(** A metadata file that could not be loaded, or whose top-level value is
    not a mapping. *)
Definition unusable (r : result json) : Prop :=
  match r with
  | Ok (JDict _) => False
  | _ => True
  end.

(** The metadata of the worked example. *)
Definition ex_techs : json :=
  JDict [ ("tech_lasers", JDict [("icon", JStr "laser_1")]);
          ("tech_armor", JDict [("icon", JStr "armor_1")]) ].

Definition ex_swaps : json :=
  JDict [ ("group1", JList [ JDict [("name", JStr "laser_1")];
                             JDict [("name", JStr "special_swap")] ]) ].

(* ------------------------------------------------------------------ *)
(** ** Notions used to state the properties                            *)
(* ------------------------------------------------------------------ *)

(** Strings are always comparable, so sorting strings cannot raise. *)
Definition all_str (l : list pyval) : Prop :=
  forall v, In v l -> exists s, v = VStr s.

Section Notions.

Context {P : Platform}.

(** The shape of a manifest: tech icons, swap icons, fixed entries. *)
Definition assemble (stellaris png_base avif_base : Path) (ti si : list pyval)
  : list AssetEntry :=
  (map (tech_entry stellaris png_base avif_base) ti
   ++ map (swap_entry stellaris png_base avif_base) si
   ++ fixed_entries stellaris png_base avif_base)%list.

(** Every entry has the quality its category calls for. *)
Definition quality_ok (e : AssetEntry) : Prop :=
  (lossless e = false <-> category e = "backgrounds" \/ category e = "ui")
  /\ (lossless e = true <->
      category e = "tech_icons" \/ category e = "swap_icons"
      \/ category e = "category_icons" \/ category e = "sprites").

(** The state after some more log records. *)
Definition logged (s : State) (lg : list log_record) : State :=
  mkState (world s) (logs s ++ lg) (trace s).

(** [c] reads the world, writes log records and does nothing else; its
    result is [f] of the world. *)
Definition logs_only {A} (c : M A) (f : World -> result A) : Prop :=
  forall s, exists lg, c s = (f (world s), logged s lg).

(** The log record carries what the failed invocation left to report: the
    captured stderr, the command that timed out, the text of the exception. *)
Definition reports (cmd : list string) (o : run_outcome) (r : log_record) : Prop :=
  match o with
  | Completed _ stderr => In (AStr stderr) (args_of r)
  | TimeoutExpired => In (AList cmd) (args_of r)
  | RunException e => In (AStr e) (args_of r)
  end.

(** What the three converters have in common: create the parent directory
    of the destination, run one command, report a failure to the log. *)
Definition tool_call (dir : Path) (cmd : list string) (timeout : Z) (c : M bool)
  : Prop :=
  forall s,
    match mkdir dir (world s) with
    | (Raise e, w1) =>
        c s = (Raise e, mkState w1 (logs s) (trace s ++ [EvMkdir dir]))
    | (Ok _, w1) =>
        let '(o, w2) := subprocess_run cmd timeout w1 in
        exists lg,
          c s = (Ok (negb (run_failed o)),
                 mkState w2 (logs s ++ lg)
                         (trace s ++ [EvMkdir dir; EvRun cmd timeout o]))
          /\ (run_failed o = false -> lg = [])
          /\ (run_failed o = true ->
              exists r, lg = [r] /\ lvl r = ERROR /\ reports cmd o r)
    end.

(** The converter [c], which creates [dir] and runs [cmd], returns from
    state [s]: [True] when the command exits with code 0, [False] when it
    exits with another code, times out or cannot be invoked, and then
    exactly one record, of level ERROR, tells the log what was captured. *)
Definition returns_and_reports (dir : Path) (cmd : list string)
    (timeout : Z) (c : M bool) (s : State) : Prop :=
  let o := fst (subprocess_run cmd timeout (snd (mkdir dir (world s)))) in
  exists lg s',
    c s = (Ok (negb (run_failed o)), s')
    /\ logs s' = (logs s ++ lg)%list
    /\ trace s' = (trace s ++ [EvMkdir dir; EvRun cmd timeout o])%list
    /\ (run_failed o = false -> lg = [])
    /\ (run_failed o = true ->
        exists r, lg = [r] /\ lvl r = ERROR /\ reports cmd o r).

(** The run that ended in state [s'] with the exception [x] was stopped by
    a directory creation: the last event of the trace is the creation of a
    directory, which raised [x] and left the world of [s']. *)
Definition mkdir_refused (x : exn) (s' : State) : Prop :=
  exists p w evs,
    mkdir p w = (Raise x, world s')
    /\ trace s' = (evs ++ [EvMkdir p])%list.

(** The run that ended in state [s'] with the exception [x] was stopped by
    the platform: [x] is what a file check raises in the world of [s'], or
    the run was stopped by a directory creation. *)
Definition refused (x : exn) (s' : State) : Prop :=
  (exists p, is_file p (world s') = Raise x) \/ mkdir_refused x s'.

(** Whenever [c] raises, the exception and the state it leaves satisfy
    [ok]. *)
Definition raises {A} (ok : exn -> State -> Prop) (c : M A) : Prop :=
  forall s x s', c s = (Raise x, s') -> ok x s'.

(** The entries whose source the dry run checks: the first five of every
    category, in the order of the listing (448-452). *)
Definition listed (manifest : list AssetEntry) : list AssetEntry :=
  flat_map (fun cat => firstn 5 (by_category manifest cat)) SUBDIRS.

(** The checks of the dry run on [entries], one after the other. *)
Fixpoint checked (entries : list AssetEntry) (w : World) : result unit :=
  match entries with
  | [] => Ok tt
  | e :: rest => _ <-! is_file (src_dds e) w ;; checked rest w
  end.

(** Assets accounted for so far. *)
Definition processed (st : Stats) : Z := skipped st + failed st + converted st.

(** Exactly one of the three outcome counters went up by one. *)
Definition one_counted (st st' : Stats) : Prop :=
  (skipped st' = skipped st + 1 /\ failed st' = failed st
   /\ converted st' = converted st)
  \/ (skipped st' = skipped st /\ failed st' = failed st + 1
      /\ converted st' = converted st)
  \/ (skipped st' = skipped st /\ failed st' = failed st
      /\ converted st' = converted st + 1).

(** The four counters of the main pass are where they were. *)
Definition same_counters (st st' : Stats) : Prop :=
  total st' = total st /\ converted st' = converted st
  /\ skipped st' = skipped st /\ failed st' = failed st.

(** The ways one iteration of the main loop can end, with the statistics
    and the state it leaves. *)
Inductive entry_outcome (args : Args) (e : AssetEntry) (st : Stats) (s : State)
  : result Stats -> State -> Prop :=
| SourceCheckRaised x :
    is_file (src_dds e) (world s) = Raise x ->
    entry_outcome args e st s (Raise x) s
| Skipped lg :
    is_file (src_dds e) (world s) = Ok false ->
    entry_outcome args e st s
      (Ok (append_warning (incr_skipped st) (entry_msg e "DDS missing")))
      (logged s lg)
| StageOneRaised x s1 :
    is_file (src_dds e) (world s) = Ok true ->
    dds_to_png (src_dds e) (dst_png e) s = (Raise x, s1) ->
    entry_outcome args e st s (Raise x) s1
| StageOneFailed s1 lg :
    is_file (src_dds e) (world s) = Ok true ->
    dds_to_png (src_dds e) (dst_png e) s = (Ok false, s1) ->
    entry_outcome args e st s
      (Ok (append_error
             (incr_failed (add_dds_bytes st (size_in (src_dds e) (world s))))
             (entry_msg e "DDS→PNG failed")))
      (logged s1 lg)
| ConvertedPngOnly s1 lg :
    is_file (src_dds e) (world s) = Ok true ->
    dds_to_png (src_dds e) (dst_png e) s = (Ok true, s1) ->
    no_avif args = true ->
    entry_outcome args e st s
      (Ok (incr_converted
             (add_png_bytes (add_dds_bytes st (size_in (src_dds e) (world s)))
                            (size_in (dst_png e) (world s1)))))
      (logged s1 lg)
| StageTwoRaised s1 x s2 :
    is_file (src_dds e) (world s) = Ok true ->
    dds_to_png (src_dds e) (dst_png e) s = (Ok true, s1) ->
    no_avif args = false ->
    png_to_avif (dst_png e) (dst_avif e) (lossless e) (jobs args) s1 = (Raise x, s2) ->
    entry_outcome args e st s (Raise x) s2
| StageTwoFailed s1 s2 lg :
    is_file (src_dds e) (world s) = Ok true ->
    dds_to_png (src_dds e) (dst_png e) s = (Ok true, s1) ->
    no_avif args = false ->
    png_to_avif (dst_png e) (dst_avif e) (lossless e) (jobs args) s1 = (Ok false, s2) ->
    entry_outcome args e st s
      (Ok (append_error
             (incr_failed
                (add_png_bytes (add_dds_bytes st (size_in (src_dds e) (world s)))
                               (size_in (dst_png e) (world s1))))
             (entry_msg e "PNG→AVIF failed")))
      (logged s2 lg)
| Converted s1 s2 lg :
    is_file (src_dds e) (world s) = Ok true ->
    dds_to_png (src_dds e) (dst_png e) s = (Ok true, s1) ->
    no_avif args = false ->
    png_to_avif (dst_png e) (dst_avif e) (lossless e) (jobs args) s1 = (Ok true, s2) ->
    entry_outcome args e st s
      (Ok (incr_converted
             (add_avif_bytes
                (add_png_bytes (add_dds_bytes st (size_in (src_dds e) (world s)))
                               (size_in (dst_png e) (world s1)))
                (size_in (dst_avif e) (world s2)))))
      (logged s2 lg).

Definition crop_png_path (args : Args) (crop_name : string) : Path :=
  output_dir args // "png" // "sprites" // (crop_name ++ ".png").

Definition crop_avif_path (args : Args) (crop_name : string) : Path :=
  output_dir args // "avif" // "sprites" // (crop_name ++ ".avif").

(** The ways one crop can end. *)
Inductive crop_outcome (args : Args) (cb : Path) (nm : string) (region : Z * Z * Z * Z)
    (st : Stats) (s : State) : result Stats -> State -> Prop :=
| CropRaised x s1 :
    crop_sprite cb region (crop_png_path args nm) s = (Raise x, s1) ->
    crop_outcome args cb nm region st s (Raise x) s1
| CropFailed s1 lg :
    crop_sprite cb region (crop_png_path args nm) s = (Ok false, s1) ->
    crop_outcome args cb nm region st s
      (Ok (append_error st ("sprites/" ++ nm ++ ": crop failed")))
      (logged s1 lg)
| CropPngOnly s1 lg :
    crop_sprite cb region (crop_png_path args nm) s = (Ok true, s1) ->
    no_avif args = true ->
    crop_outcome args cb nm region st s
      (Ok (add_png_bytes st (size_in (crop_png_path args nm) (world s1))))
      (logged s1 lg)
| CropAvifRaised s1 x s2 :
    crop_sprite cb region (crop_png_path args nm) s = (Ok true, s1) ->
    no_avif args = false ->
    png_to_avif (crop_png_path args nm) (crop_avif_path args nm) true (jobs args) s1
      = (Raise x, s2) ->
    crop_outcome args cb nm region st s (Raise x) s2
| CropAvifFailed s1 s2 lg :
    crop_sprite cb region (crop_png_path args nm) s = (Ok true, s1) ->
    no_avif args = false ->
    png_to_avif (crop_png_path args nm) (crop_avif_path args nm) true (jobs args) s1
      = (Ok false, s2) ->
    crop_outcome args cb nm region st s
      (Ok (append_error
             (add_png_bytes st (size_in (crop_png_path args nm) (world s1)))
             ("sprites/" ++ nm ++ ": PNG→AVIF failed")))
      (logged s2 lg)
| CropConverted s1 s2 lg :
    crop_sprite cb region (crop_png_path args nm) s = (Ok true, s1) ->
    no_avif args = false ->
    png_to_avif (crop_png_path args nm) (crop_avif_path args nm) true (jobs args) s1
      = (Ok true, s2) ->
    crop_outcome args cb nm region st s
      (Ok (add_avif_bytes
             (add_png_bytes st (size_in (crop_png_path args nm) (world s1)))
             (size_in (crop_avif_path args nm) (world s2))))
      (logged s2 lg).

End Notions.

(* ------------------------------------------------------------------ *)
(** ** Further notions: order of names, keys, events                   *)
(* ------------------------------------------------------------------ *)

(** [a < b] holds (and is defined). *)
Definition py_less (a b : pyval) : Prop := py_lt a b = Ok true.

(** No two members are equal in Python's sense. *)
Fixpoint py_distinct (l : list pyval) : Prop :=
  match l with
  | [] => True
  | x :: rest => set_mem x rest = false /\ py_distinct rest
  end.

(** The technology value [t] yields an icon for the set: it is a record,
    has an ["icon"] entry, and the entry is hashable. *)
Definition has_icon (t : json) : bool :=
  match py_getitem t "icon" with
  | Ok v => match py_hashable v with
            | Ok _ => true
            | Raise _ => false
            end
  | Raise _ => false
  end.

Section FurtherNotions.

Context {P : Platform}.

(** The pair that identifies a descriptor. *)
Definition entry_key (e : AssetEntry) : string * pyval := (category e, name e).

(** [c] appends to the trace only events that satisfy [ok], whatever its
    result. *)
Definition emits {A} (ok : event -> Prop) (c : M A) : Prop :=
  forall s, exists evs,
    trace (snd (c s)) = (trace s ++ evs)%list /\ Forall ok evs.

(** The events a run may leave: directory creations, ImageMagick with a
    timeout of 30, and, unless AVIF is disabled, avifenc with 120. *)
Definition allowed_event (args : Args) (ev : event) : Prop :=
  match ev with
  | EvMkdir _ => True
  | EvRun cmd timeout _ =>
      (hd "" cmd = "magick" /\ timeout = 30)
      \/ (no_avif args = false /\ hd "" cmd = "avifenc" /\ timeout = 120)
  end.

Definition is_magick_run (ev : event) : bool :=
  match ev with
  | EvRun cmd _ _ => String.eqb (hd "" cmd) "magick"
  | EvMkdir _ => false
  end.

(** Number of ImageMagick invocations in a stretch of the trace. *)
Definition magick_runs (evs : list event) : Z := len (filter is_magick_run evs).

(** The directories [create_output_dirs] asks for, in order. *)
Definition output_dir_events (args : Args) (subdirs : list string) : list event :=
  flat_map (fun subdir =>
              EvMkdir (output_dir args // "png" // subdir)
              :: (if no_avif args then []
                  else [EvMkdir (output_dir args // "avif" // subdir)]))
           subdirs.

End FurtherNotions.

(* ------------------------------------------------------------------ *)
(** ** A small concrete platform, for running the script               *)
(* ------------------------------------------------------------------ *)

Module Toy.

(** Paths are strings joined with a slash; every segment used below is
    relative and already normal, where this is what pathlib does. *)
Definition join (p s : string) : string := p ++ "/" ++ s.

(** The path without its last component. *)
Fixpoint dirname (p : string) : string :=
  match p with
  | EmptyString => EmptyString
  | String c rest =>
      if is_substring "/" rest then String c (dirname rest) else EmptyString
  end.

Record world : Type := mkWorld {
  dirs : list string;
  files : list (string * Z);
  documents : list (string * json);
  tools : list string;
  tool : list string -> run_outcome
}.

Definition has_file (p : string) (w : world) : bool :=
  existsb (fun f => String.eqb (fst f) p) (files w).

Fixpoint lookup {A} (p : string) (l : list (string * A)) : option A :=
  match l with
  | [] => None
  | (k, v) :: rest => if String.eqb k p then Some v else lookup p rest
  end.

Definition load (p : string) (w : world) : result json :=
  match lookup p (documents w) with
  | Some j => Ok j
  | None => if has_file p w then Raise JSONDecodeError else Raise FileNotFoundError
  end.

(** Length of the longest component of a path; [cur] is the length of the
    component being read, [best] the longest seen before it. *)
Fixpoint longest_name (p : string) (cur best : nat) : nat :=
  match p with
  | EmptyString => Nat.max cur best
  | String c rest =>
      if Ascii.eqb c "/"%char then longest_name rest 0 (Nat.max cur best)
      else longest_name rest (S cur) best
  end.

(** A component longer than 255 bytes (NAME_MAX): [stat] fails with
    ENAMETOOLONG, which [is_dir] and [is_file] do not turn into [False]. *)
Definition name_too_long (p : string) : bool :=
  Nat.ltb 255 (longest_name p 0 0).

Definition stat_then {A} (p : string) (answer : A) : result A :=
  if name_too_long p then Raise OSError else Ok answer.

(** On a read-only medium no directory can be created, and nowhere one
    with too long a name. *)
Definition make_dir (writable : bool) (p : string) (w : world)
  : result unit * world :=
  if writable && negb (name_too_long p) then
    (Ok tt, mkWorld (p :: dirs w) (files w) (documents w) (tools w) (tool w))
  else (Raise OSError, w).

(** A tool that succeeds writes its last argument, ten bytes long. *)
Definition exec (cmd : list string) (timeout : Z) (w : world)
  : run_outcome * world :=
  let o := tool w cmd in
  if run_failed o then (o, w)
  else (o, mkWorld (dirs w) ((last cmd "", 10) :: files w) (documents w)
                   (tools w) (tool w)).

Definition platform_of (writable : bool) : Platform := {|
  Path := string;
  joinpath := join;
  parent := dirname;
  path_str := fun p => p;
  World := world;
  is_dir := fun p w => stat_then p (existsb (String.eqb p) (dirs w));
  is_file := fun p w => stat_then p (has_file p w);
  stat_size := fun p w => lookup p (files w);
  which := fun name w =>
    if existsb (String.eqb name) (tools w) then Some ("/usr/bin/" ++ name) else None;
  load_json := load;
  mkdir := make_dir writable;
  subprocess_run := exec
|}.

Definition platform : Platform := platform_of true.
Definition read_only_platform : Platform := platform_of false.

Definition args (dry no_avif_ : bool) : @Args platform :=
  @mkArgs platform "/game" "/out" "/data" "/log" dry no_avif_ 0.

Definition start (w : world) : @State platform := @mkState platform w [] [].

Definition always_ok (cmd : list string) : run_outcome := Completed 0 "".
Definition always_fails (cmd : list string) : run_outcome := Completed 1 "boom".
(** Plain conversions work, cropping does not. *)
Definition crop_fails (cmd : list string) : run_outcome :=
  if existsb (String.eqb "-crop") cmd then Completed 1 "bad geometry"
  else Completed 0 "".

(** An installation holding the checkbox sprite sheet and one icon. *)
Definition install (techs swaps : json) (t : list string -> run_outcome) : world :=
  mkWorld ["/game/common/technology"]
          [ ("/data/technologies.json", 100); ("/data/technology_swaps.json", 100);
            ("/game/gfx/interface/buttons/button_24_24_checkbox.dds", 4000);
            ("/game/gfx/interface/icons/technologies/laser_1.dds", 2000) ]
          [ ("/data/technologies.json", techs); ("/data/technology_swaps.json", swaps) ]
          ["magick"; "avifenc"] t.

(** The encoder is broken, ImageMagick works. *)
Definition avifenc_fails (cmd : list string) : run_outcome :=
  match cmd with
  | "avifenc" :: _ => Completed 1 "no codec"
  | _ => Completed 0 ""
  end.

(** An icon that is named like a fixed category icon. *)
Definition clash_techs : json :=
  JDict [ ("tech_genome", JDict [("icon", JStr "category_biology")]) ].
Definition clash_swaps : json :=
  JDict [ ("group1", JList [ JDict [("name", JStr "category_biology")] ]) ].

(** A technology record without an icon. *)
Definition iconless_techs : json :=
  JDict [ ("tech_lasers", JDict [("icon", JStr "laser_1")]);
          ("tech_armor", JDict [("area", JStr "engineering")]) ].

(** An icon whose name has 252 characters: with [.dds] the file name has
    256, one more than NAME_MAX allows. *)
Definition long_icon : string :=
  Eval vm_compute in string_of_list_ascii (repeat "a"%char 252).
Definition long_techs : json :=
  JDict [ ("tech_lasers", JDict [("icon", JStr long_icon)]) ].

(** A swap group that lists plain strings instead of records. *)
Definition misshapen_swaps : json :=
  JDict [ ("group1", JList [ JStr "laser_2" ]) ].

(** The background entry for [tech_bg_physics] on that installation. *)
Definition physics_bg : @AssetEntry platform :=
  @texture_entry platform "backgrounds" false "/game" "/out/png" "/out/avif"
    ("tech_bg_physics", "gfx/interface/tech_view/tech_bg_physics.dds").

Definition laser_entry : @AssetEntry platform :=
  @tech_entry platform "/game" "/out/png" "/out/avif" (VStr "laser_1").

(** The manifest built from the worked example. *)
Definition ex_manifest : list (@AssetEntry platform) :=
  Eval vm_compute in
    match @manifest_of platform "/game" "/data" "/out"
            (install ex_techs ex_swaps always_ok) with
    | Ok m => m
    | Raise _ => []
    end.

(** A run with a broken encoder, and one with broken cropping. *)
Definition s_avifenc_fails : @State platform :=
  start (install ex_techs ex_swaps avifenc_fails).
Definition s_crop_fails : @State platform :=
  start (install ex_techs ex_swaps crop_fails).

(** The sprite sheet has been converted, cropping does not work. *)
Definition s_sheet_ready : @State platform :=
  start (mkWorld ["/out/png/sprites"]
                 [("/out/png/sprites/button_24_24_checkbox.png", 900)]
                 [] ["magick"; "avifenc"] crop_fails).

Definition checkbox_png : string := "/out/png/sprites/button_24_24_checkbox.png".

(** Every tool invocation fails. *)
Definition s_all_fail : @State platform :=
  start (install ex_techs ex_swaps always_fails).

(** An installation on a machine without the two tools. *)
Definition s_no_tools : @State platform :=
  start (mkWorld ["/game/common/technology"] [("/data/technologies.json", 100)]
                 [("/data/technologies.json", ex_techs)] [] always_ok).

(** The main pass over the manifest of the worked example with a broken
    encoder: final statistics and state. *)
Definition main_pass_run : Stats * @State platform :=
  match @process_assets platform (args false false) 1 ex_manifest
          (new_stats (len ex_manifest)) s_avifenc_fails with
  | (Ok st, s) => (st, s)
  | (Raise _, s) => (new_stats 0, s)
  end.


(** The main pass with AVIF disabled. *)
Definition png_only_run : Stats * @State platform :=
  match @process_assets platform (args false true) 1 ex_manifest
          (new_stats 24) s_avifenc_fails with
  | (Ok st, s) => (st, s)
  | (Raise _, s) => (new_stats 0, s)
  end.

(** Cropping [checkbox_normal] out of that sheet: statistics (when the crop
    returns) and state. *)
Definition crop_run : (Stats * bool) * @State platform :=
  match @process_crop platform (args false false) checkbox_png
          ("checkbox_normal", (11, 11, 26, 26)) (new_stats 21) s_sheet_ready with
  | (Ok st, s) => ((st, true), s)
  | (Raise _, s) => ((new_stats 21, false), s)
  end.

(** The whole crop pass on that sheet. *)
Definition sheet_crops_run : Stats * @State platform :=
  match @process_crops platform (args false false) (new_stats 21) s_sheet_ready with
  | (Ok st, s) => (st, s)
  | (Raise _, s) => (new_stats 21, s)
  end.

End Toy.


(* ================================================================== *)
(** * Properties                                                       *)
(* ================================================================== *)

(** ** Python values, sets and [sorted] *)

Lemma py_eqb_refl (v : pyval) : py_eqb v v = true.
Proof.
  destruct v as [ | b | z | s]; cbn.
  - reflexivity.
  - apply Z.eqb_refl.
  - apply Z.eqb_refl.
  - apply String.eqb_refl.
Qed.

Lemma py_eqb_str_l (n : string) (v : pyval) :
  py_eqb (VStr n) v = true <-> v = VStr n.
Proof.
  destruct v as [ | b | z | s]; cbn; split; intros H; try discriminate.
  - apply String.eqb_eq in H. now subst.
  - injection H as ->. apply String.eqb_refl.
Qed.

Lemma py_eqb_str_r (n : string) (v : pyval) :
  py_eqb v (VStr n) = true <-> v = VStr n.
Proof.
  destruct v as [ | b | z | s]; cbn; split; intros H; try discriminate.
  - apply String.eqb_eq in H. now subst.
  - injection H as ->. apply String.eqb_refl.
Qed.

Lemma set_mem_In (x : pyval) (s : list pyval) : In x s -> set_mem x s = true.
Proof.
  intros H. apply existsb_exists. exists x. split; [exact H | apply py_eqb_refl].
Qed.

Lemma set_mem_str (n : string) (s : list pyval) :
  set_mem (VStr n) s = true <-> In (VStr n) s.
Proof.
  split; [ | apply set_mem_In].
  intros H. apply existsb_exists in H as (y & Hy & E).
  apply py_eqb_str_l in E. now subst.
Qed.

Lemma set_add_In (x h : pyval) (s : list pyval) :
  In x (set_add h s) -> In x s \/ x = h.
Proof.
  unfold set_add. destruct (set_mem h s).
  - auto.
  - intros H. apply in_app_or in H as [H | [H | []]]; auto.
Qed.

Lemma set_add_keeps (x h : pyval) (s : list pyval) :
  In x s -> In x (set_add h s).
Proof.
  unfold set_add. destruct (set_mem h s); [auto | ].
  intros H. apply in_or_app. now left.
Qed.

Lemma set_add_str (n : string) (s : list pyval) : In (VStr n) (set_add (VStr n) s).
Proof.
  unfold set_add. destruct (set_mem (VStr n) s) eqn:E.
  - now apply set_mem_str.
  - apply in_or_app. right. now left.
Qed.

Lemma set_add_NoDup (h : pyval) (s : list pyval) : NoDup s -> NoDup (set_add h s).
Proof.
  intros H. unfold set_add. destruct (set_mem h s) eqn:E; [exact H | ].
  apply NoDup_app; [exact H | constructor; [intros [] | constructor] | ].
  intros x Hx [<- | []].
  rewrite (set_mem_In _ _ Hx) in E. discriminate.
Qed.

Lemma py_insert_perm (x : pyval) (l r : list pyval) :
  py_insert x l = Ok r -> Permutation (x :: l) r.
Proof.
  revert r. induction l as [ | y l IH]; cbn; intros r H.
  - injection H as <-. reflexivity.
  - destruct (py_lt x y) as [[ | ] | e]; cbn in H; try discriminate.
    + injection H as <-. reflexivity.
    + destruct (py_insert x l) as [r' | e]; cbn in H; try discriminate.
      injection H as <-.
      rewrite perm_swap. constructor. now apply IH.
Qed.

Lemma py_sorted_perm (l r : list pyval) : py_sorted l = Ok r -> Permutation l r.
Proof.
  revert r. induction l as [ | x l IH]; cbn; intros r H.
  - injection H as <-. constructor.
  - destruct (py_sorted l) as [r' | e]; cbn in H; try discriminate.
    apply py_insert_perm in H. rewrite <- H. constructor. now apply IH.
Qed.

Lemma py_insert_str (s : string) (l : list pyval) :
  all_str l -> exists r, py_insert (VStr s) l = Ok r.
Proof.
  induction l as [ | y l IH]; intros H; cbn.
  - eauto.
  - destruct (H y (or_introl eq_refl)) as (t & ->). cbn.
    destruct (String.ltb s t); [eauto | ].
    destruct IH as (r & ->); [ | cbn; eauto].
    intros v Hv. apply H. now right.
Qed.

Lemma py_sorted_str (l : list pyval) :
  all_str l -> exists r, py_sorted l = Ok r.
Proof.
  induction l as [ | x l IH]; intros H; cbn.
  - eauto.
  - destruct IH as (r & E); [intros v Hv; apply H; now right | ].
    rewrite E. cbn.
    destruct (H x (or_introl eq_refl)) as (s & ->).
    apply py_insert_str.
    intros v Hv. apply H. right.
    apply py_sorted_perm in E. now apply (Permutation_in _ (Permutation_sym E)).
Qed.

Lemma filter_none {A} (f : A -> bool) (l : list A) :
  (forall y, In y l -> f y = false) -> filter f l = [].
Proof.
  intros H. induction l as [ | y l IH]; [reflexivity | ].
  cbn. rewrite (H y (or_introl eq_refl)). apply IH.
  intros z Hz. apply H. now right.
Qed.

Lemma filter_unique {A} (f : A -> bool) (x : A) (l : list A) :
  (forall y, f y = true <-> y = x) -> NoDup l -> In x l -> filter f l = [x].
Proof.
  intros Hf. induction l as [ | y l IH]; intros Hnd Hin; [destruct Hin | ].
  inversion Hnd as [ | ? ? Hy Hl]; subst. cbn.
  destruct (f y) eqn:E.
  - apply Hf in E. subst y. f_equal.
    apply filter_none. intros z Hz.
    destruct (f z) eqn:Ez; [ | reflexivity].
    apply Hf in Ez. subst z. contradiction.
  - destruct Hin as [-> | Hin].
    + rewrite (proj2 (Hf x) eq_refl) in E. discriminate.
    + now apply IH.
Qed.

(** ** Icon names drawn from the metadata *)

Lemma icon_set_inv (ts : list json) (acc s : list pyval) :
  icon_set ts acc = Ok s ->
  (NoDup acc -> NoDup s) /\
  (forall x, In x acc -> In x s) /\
  (forall t n, In t ts -> py_getitem t "icon" = Ok (JStr n) -> In (VStr n) s).
Proof.
  revert acc. induction ts as [ | t ts IH]; cbn; intros acc H.
  - injection H as <-. repeat split; auto. intros t n [].
  - destruct (py_getitem t "icon") as [v | e] eqn:Ev; cbn in H; try discriminate.
    destruct (py_hashable v) as [h | e] eqn:Eh; cbn in H; try discriminate.
    destruct (IH _ H) as (Hnd & Hkeep & Hhas).
    repeat split.
    + intros Hacc. apply Hnd. now apply set_add_NoDup.
    + intros x Hx. apply Hkeep. now apply set_add_keeps.
    + intros t' n [<- | Ht'] Hn.
      * rewrite Ev in Hn. injection Hn as ->. cbn in Eh. injection Eh as <-.
        apply Hkeep. apply set_add_str.
      * now apply (Hhas t' n).
Qed.

Lemma tech_icon_names_inv (techs : json) (ti : list pyval) :
  tech_icon_names techs = Ok ti ->
  NoDup ti /\ forall n, tech_icon_inb n techs = true -> In (VStr n) ti.
Proof.
  unfold tech_icon_names. intros H.
  destruct techs as [ | | | | | items]; cbn in H; try discriminate.
  destruct (icon_set (map snd items) []) as [s | e] eqn:Es; cbn in H; try discriminate.
  destruct (icon_set_inv _ _ _ Es) as (Hnd & _ & Hhas).
  pose proof (py_sorted_perm _ _ H) as Hp.
  split.
  - apply (Permutation_NoDup Hp). apply Hnd. constructor.
  - intros n Hn. cbn in Hn. apply existsb_exists in Hn as ((k & t) & Hin & Hi).
    cbn in Hi.
    destruct (py_getitem t "icon") as [[ | | | s' | | ] | ] eqn:Et; try discriminate.
    apply String.eqb_eq in Hi. subst s'.
    apply (Permutation_in _ Hp). apply (Hhas t n); [ | exact Et].
    apply in_map_iff. now exists (k, t).
Qed.

Lemma swap_icon_names_inv (swaps : json) (ti si : list pyval) :
  swap_icon_names swaps ti = Ok si ->
  forall v, In v si -> set_mem v ti = false.
Proof.
  unfold swap_icon_names. intros H v Hv.
  destruct (py_values swaps) as [lists | e]; cbn in H; try discriminate.
  destruct (swap_name_set lists []) as [s | e]; cbn in H; try discriminate.
  apply py_sorted_perm in H.
  apply (Permutation_in _ (Permutation_sym H)) in Hv.
  unfold set_diff in Hv. apply filter_In in Hv as (_ & Hv).
  now apply negb_true_iff in Hv.
Qed.

(** Metadata of the expected shape always yields icon names. *)

Lemma all_str_set_add (s : string) (acc : list pyval) :
  all_str acc -> all_str (set_add (VStr s) acc).
Proof.
  intros H v Hv. apply set_add_In in Hv as [Hv | ->]; [now apply H | eauto].
Qed.

Lemma dict_get_present (key : string) (items : list (string * json)) :
  existsb (fun kv => String.eqb (fst kv) key) items = true ->
  exists v, dict_get key items = Some v.
Proof.
  induction items as [ | [k v] items IH]; cbn; [discriminate | ].
  destruct (String.eqb k key); cbn; [eauto | exact IH].
Qed.

Lemma dict_get_absent (key : string) (items : list (string * json)) :
  existsb (fun kv => String.eqb (fst kv) key) items = false ->
  dict_get key items = None.
Proof.
  induction items as [ | [k v] items IH]; cbn; [reflexivity | ].
  destruct (String.eqb k key); cbn; [discriminate | exact IH].
Qed.

Lemma icon_set_shaped (items : list (string * json)) (acc : list pyval) :
  techs_shape_ok (JDict items) = true -> all_str acc ->
  exists s, icon_set (map snd items) acc = Ok s /\ all_str s.
Proof.
  revert acc. induction items as [ | [k t] items IH]; intros acc H Hacc.
  - exists acc. now split.
  - cbn in H. apply andb_prop in H as (Ht & H).
    destruct t as [ | | | | | rec]; try discriminate.
    cbn. destruct (dict_get "icon" rec) as [[ | | | s | | ] | ]; try discriminate.
    cbn. apply IH; [exact H | now apply all_str_set_add].
Qed.

Lemma swap_names_of_shaped (l : list json) (acc : list pyval) :
  forallb (fun swap => match swap with
                       | JDict rec =>
                           match dict_get "name" rec with
                           | Some (JStr _) | None => true
                           | Some _ => false
                           end
                       | _ => false
                       end) l = true ->
  all_str acc ->
  exists s, swap_names_of l acc = Ok s /\ all_str s.
Proof.
  revert acc. induction l as [ | swap l IH]; intros acc H Hacc.
  - exists acc. now split.
  - cbn in H. apply andb_prop in H as (Hs & H).
    destruct swap as [ | | | | | rec]; try discriminate.
    cbn. destruct (existsb (fun kv => String.eqb (fst kv) "name") rec) eqn:E.
    + destruct (dict_get_present _ _ E) as (v & Ev). rewrite Ev in Hs |- *.
      destruct v; try discriminate. cbn.
      apply IH; [exact H | now apply all_str_set_add].
    + now apply IH.
Qed.

Lemma swap_name_set_shaped (groups : list (string * json)) (acc : list pyval) :
  swaps_shape_ok (JDict groups) = true -> all_str acc ->
  exists s, swap_name_set (map snd groups) acc = Ok s /\ all_str s.
Proof.
  revert acc. induction groups as [ | [g l] groups IH]; intros acc H Hacc.
  - exists acc. now split.
  - cbn in H. apply andb_prop in H as (Hl & H).
    destruct l as [ | | | | l | ]; try discriminate.
    cbn. destruct (swap_names_of_shaped l acc Hl Hacc) as (s1 & -> & Hs1).
    cbn. now apply IH.
Qed.

Lemma icon_names_shaped (techs swaps : json) :
  techs_shape_ok techs = true -> swaps_shape_ok swaps = true ->
  exists ti si, tech_icon_names techs = Ok ti /\ swap_icon_names swaps ti = Ok si.
Proof.
  intros Ht Hs.
  destruct techs as [ | | | | | items]; try discriminate.
  destruct swaps as [ | | | | | groups]; try discriminate.
  assert (Hnil : all_str []) by (intros v []).
  destruct (icon_set_shaped items [] Ht Hnil) as (s1 & E1 & H1).
  destruct (py_sorted_str s1 H1) as (ti & Eti).
  destruct (swap_name_set_shaped groups [] Hs Hnil) as (s2 & E2 & H2).
  destruct (py_sorted_str (set_diff s2 ti)) as (si & Esi).
  { intros v Hv. apply filter_In in Hv as (Hv & _). now apply H2. }
  exists ti, si. unfold tech_icon_names, swap_icon_names. cbn.
  rewrite E1, E2. cbn. now split.
Qed.

Section ManifestFacts.

Context {P : Platform}.
Variables stellaris png_base avif_base : Path.

Lemma filter_map_const {A} (g : A -> AssetEntry) (f : AssetEntry -> bool)
    (b : bool) (l : list A) :
  (forall x, f (g x) = b) ->
  filter f (map g l) = if b then map g l else [].
Proof.
  intros H. induction l as [ | x l IH]; cbn.
  - now destruct b.
  - rewrite H, IH. now destruct b.
Qed.

Lemma named_map (g : pyval -> AssetEntry) (n : pyval) (l : list pyval) :
  (forall v, name (g v) = v) ->
  named n (map g l) = map g (filter (fun v => py_eqb v n) l).
Proof.
  intros H. unfold named. induction l as [ | x l IH]; cbn; [reflexivity | ].
  rewrite H, IH. now destruct (py_eqb x n).
Qed.

Lemma by_category_tech (ti si : list pyval) :
  by_category (assemble stellaris png_base avif_base ti si) "tech_icons"
  = map (tech_entry stellaris png_base avif_base) ti.
Proof.
  unfold by_category, assemble. rewrite !filter_app.
  rewrite (filter_map_const _ _ true) by reflexivity.
  rewrite (filter_map_const _ _ false) by reflexivity.
  cbn. now rewrite app_nil_r.
Qed.

Lemma by_category_swap (ti si : list pyval) :
  by_category (assemble stellaris png_base avif_base ti si) "swap_icons"
  = map (swap_entry stellaris png_base avif_base) si.
Proof.
  unfold by_category, assemble. rewrite !filter_app.
  rewrite (filter_map_const _ _ false) by reflexivity.
  rewrite (filter_map_const _ _ true) by reflexivity.
  cbn. now rewrite app_nil_r.
Qed.

Lemma named_fixed (n : string) :
  ~ In n fixed_names ->
  named (VStr n) (fixed_entries stellaris png_base avif_base) = [].
Proof.
  intros H. apply filter_none. intros e He.
  destruct (py_eqb (name e) (VStr n)) eqn:E; [ | reflexivity].
  apply py_eqb_str_r in E. exfalso. apply H.
  unfold fixed_entries in He. unfold fixed_names.
  rewrite !in_app_iff in He. rewrite !in_app_iff.
  destruct He as [He | [He | [He | He]]];
    apply in_map_iff in He as (x & <- & Hx).
  - left. apply in_map_iff. exists x. split; [ | exact Hx].
    cbn in E. now injection E.
  - right; left. apply in_map_iff. exists x. split; [ | exact Hx].
    destruct x as [nm rel]. cbn in E. now injection E.
  - right; right; left. apply in_map_iff. exists x. split; [ | exact Hx].
    destruct x as [nm rel]. cbn in E. now injection E.
  - right; right; right. apply in_map_iff. exists x. split; [ | exact Hx].
    destruct x as [nm rel]. cbn in E. now injection E.
Qed.

Lemma quality_fixed (e : AssetEntry) :
  In e (fixed_entries stellaris png_base avif_base) -> quality_ok e.
Proof.
  intros He. unfold fixed_entries in He. rewrite !in_app_iff in He.
  destruct He as [He | [He | [He | He]]];
    apply in_map_iff in He as (x & <- & _); try destruct x as [nm rel];
    unfold quality_ok; cbn; repeat split; intros H;
    repeat (destruct H as [H | H]); try discriminate; auto.
Qed.

Lemma quality_assemble (ti si : list pyval) (e : AssetEntry) :
  In e (assemble stellaris png_base avif_base ti si) -> quality_ok e.
Proof.
  unfold assemble. rewrite !in_app_iff. intros [He | [He | He]].
  - apply in_map_iff in He as (x & <- & _).
    unfold quality_ok; cbn; repeat split; intros H;
      repeat (destruct H as [H | H]); try discriminate; auto.
  - apply in_map_iff in He as (x & <- & _).
    unfold quality_ok; cbn; repeat split; intros H;
      repeat (destruct H as [H | H]); try discriminate; auto.
  - now apply quality_fixed.
Qed.

End ManifestFacts.

(** ** Running the script: steps that only write to the log *)

Section RunFacts.

Context {P : Platform}.

Lemma logged_nil (s : State) : logged s [] = s.
Proof. destruct s. unfold logged. cbn. now rewrite app_nil_r. Qed.

Lemma logged_app (s : State) (a b : list log_record) :
  logged (logged s a) b = logged s (a ++ b).
Proof. unfold logged. cbn. now rewrite app_assoc. Qed.

Lemma logs_only_ret {A} (a : A) : logs_only (ret a) (fun _ => Ok a).
Proof. intros s. exists []. now rewrite logged_nil. Qed.

Lemma logs_only_log (lv : level) (tpl : string) (a : list arg) :
  logs_only (log lv tpl a) (fun _ => Ok tt).
Proof. intros s. now exists [LogRecord lv tpl a]. Qed.

Lemma logs_only_query {A} (q : World -> A) : logs_only (query q) (fun w => Ok (q w)).
Proof. intros s. exists []. now rewrite logged_nil. Qed.

Lemma logs_only_ask {A} (q : World -> result A) : logs_only (ask q) q.
Proof. intros s. exists []. now rewrite logged_nil. Qed.

Lemma logs_only_read_json (p : Path) : logs_only (read_json p) (load_json p).
Proof. intros s. exists []. now rewrite logged_nil. Qed.

Lemma logs_only_lift {A} (r : result A) : logs_only (lift r) (fun _ => r).
Proof. intros s. exists []. now rewrite logged_nil. Qed.

Lemma logs_only_bind {A B} (c : M A) (k : A -> M B)
    (f : World -> result A) (g : A -> World -> result B) :
  logs_only c f -> (forall a, logs_only (k a) (g a)) ->
  logs_only (bind c k) (fun w => rbind (f w) (fun a => g a w)).
Proof.
  intros Hc Hk s. unfold bind.
  destruct (Hc s) as (lg & ->).
  destruct (f (world s)) as [a | e]; cbn.
  - destruct (Hk a (logged s lg)) as (lg' & ->).
    exists (lg ++ lg')%list. now rewrite logged_app.
  - now exists lg.
Qed.

Lemma logs_only_ext {A} (c : M A) (f g : World -> result A) :
  logs_only c f -> (forall w, f w = g w) -> logs_only c g.
Proof. intros H E s. destruct (H s) as (lg & ->). exists lg. now rewrite E. Qed.

Lemma check_tool_logs_only (tool : string) :
  logs_only (check_tool tool) (fun w => Ok (found (which tool w))).
Proof.
  intros s. unfold check_tool, bind, query, log, ret. cbn.
  destruct (which tool (world s)); cbn; now eexists.
Qed.

(** The builder only reads and logs, and its result is [manifest_of]. *)
Lemma build_asset_manifest_run (stellaris data output : Path) :
  logs_only (build_asset_manifest stellaris data output)
            (manifest_of stellaris data output).
Proof.
  intros s. unfold build_asset_manifest, manifest_of, bind, log, read_json, lift, ret.
  cbn.
  destruct (load_json (data // "technologies.json") (world s)) as [techs | e]; cbn;
    [ | now eexists].
  destruct (tech_icon_names techs) as [ti | e]; cbn; [ | now eexists].
  destruct (load_json (data // "technology_swaps.json") (world s)) as [swaps | e];
    cbn; [ | unfold logged; cbn; rewrite <- !app_assoc; now eexists].
  destruct (swap_icon_names swaps ti) as [si | e]; cbn;
    unfold logged; cbn; rewrite <- !app_assoc; now eexists.
Qed.

Lemma build_asset_manifest_fst (stellaris data output : Path) (s : State) :
  fst (build_asset_manifest stellaris data output s)
  = manifest_of stellaris data output (world s).
Proof. destruct (build_asset_manifest_run stellaris data output s) as (lg & ->). reflexivity. Qed.

Lemma checked_app (a b : list AssetEntry) (w : World) :
  checked (a ++ b) w = rbind (checked a w) (fun _ => checked b w).
Proof.
  induction a as [ | e a IH]; cbn [checked app rbind]; [reflexivity | ].
  destruct (is_file (src_dds e) w); cbn [rbind]; [exact IH | reflexivity].
Qed.

(** The checks return exactly when each of them returns, and raise what the
    first failing one raises. *)
Lemma checked_ok (entries : list AssetEntry) (w : World) :
  checked entries w = Ok tt <->
  forall e, In e entries -> exists b, is_file (src_dds e) w = Ok b.
Proof.
  induction entries as [ | e rest IH]; cbn [checked rbind].
  - split; [intros _ e [] | reflexivity].
  - destruct (is_file (src_dds e) w) as [b | x] eqn:E; cbn [rbind].
    + rewrite IH. split.
      * intros H e' [<- | He']; [eauto | now apply H].
      * intros H e' He'. apply H. now right.
    + split; [discriminate | ].
      intros H. destruct (H e (or_introl eq_refl)) as (b & Hb). congruence.
Qed.

Lemma checked_raise (entries : list AssetEntry) (w : World) (x : exn) :
  checked entries w = Raise x ->
  exists e, In e entries /\ is_file (src_dds e) w = Raise x.
Proof.
  induction entries as [ | e rest IH]; cbn [checked rbind]; [discriminate | ].
  destruct (is_file (src_dds e) w) as [b | y] eqn:E; cbn [rbind].
  - intros H. destruct (IH H) as (e' & He' & Hx). exists e'. split; [now right | exact Hx].
  - intros H. injection H as ->. exists e. split; [now left | exact E].
Qed.

Lemma dry_run_entries_logs_only (entries : list AssetEntry) :
  logs_only (dry_run_entries entries) (checked entries).
Proof.
  induction entries as [ | e rest IH]; cbn [dry_run_entries].
  - apply logs_only_ret.
  - eapply logs_only_ext.
    + apply logs_only_bind; [apply logs_only_ask | intros present].
      apply logs_only_bind; [apply logs_only_log | intros ?; exact IH].
    + intros w. cbn [checked]. now destruct (is_file (src_dds e) w).
Qed.

Lemma dry_run_categories_logs_only (manifest : list AssetEntry) (cats : list string) :
  logs_only (dry_run_categories manifest cats)
            (checked (flat_map (fun cat => firstn 5 (by_category manifest cat)) cats)).
Proof.
  induction cats as [ | cat rest IH]; cbn [dry_run_categories].
  - apply logs_only_ret.
  - eapply logs_only_ext.
    + apply logs_only_bind; [apply logs_only_log | intros ?].
      apply logs_only_bind; [apply dry_run_entries_logs_only | intros ?].
      apply logs_only_bind; [ | intros ?; exact IH].
      apply (logs_only_ext _ (fun _ => Ok tt)); [ | reflexivity].
      destruct (5 <? len (by_category manifest cat));
        [apply logs_only_log | apply logs_only_ret].
    + intros w. cbn [flat_map rbind]. rewrite checked_app.
      now destruct (checked (firstn 5 (by_category manifest cat)) w).
Qed.

Lemma dry_run_listing_logs_only (manifest : list AssetEntry) :
  logs_only (dry_run_listing manifest)
            (fun w => rbind (checked (listed manifest) w) (fun _ => Ok 0)).
Proof.
  unfold dry_run_listing.
  eapply logs_only_ext.
  - repeat (apply logs_only_bind; [apply logs_only_log | intros ?]).
    apply logs_only_bind; [apply dry_run_categories_logs_only | intros ?].
    repeat (apply logs_only_bind; [apply logs_only_log | intros ?]).
    apply logs_only_ret.
  - intros w. cbn [rbind]. unfold listed.
    now destruct (checked _ w).
Qed.

Lemma log_each_logs_only (tpl : string) (msgs : list string) :
  logs_only (log_each tpl msgs) (fun _ => Ok tt).
Proof.
  induction msgs as [ | m rest IH]; cbn [log_each].
  - apply logs_only_ret.
  - eapply logs_only_ext.
    + apply logs_only_bind; [apply logs_only_log | intros ?; exact IH].
    + reflexivity.
Qed.

Lemma log_summary_logs_only (args : Args) (stats : Stats) :
  logs_only (log_summary args stats) (fun _ => Ok tt).
Proof.
  unfold log_summary.
  eapply logs_only_ext.
  - repeat (apply logs_only_bind; [apply logs_only_log | intros ?]).
    apply logs_only_bind.
    { destruct (negb (no_avif args)); [ | apply logs_only_ret].
      eapply logs_only_ext.
      - apply logs_only_bind; [apply logs_only_log | intros ?].
        destruct (0 <? dds_bytes stats); [apply logs_only_log | apply logs_only_ret].
      - reflexivity. }
    intros ?.
    repeat (apply logs_only_bind; [apply logs_only_log | intros ?]).
    apply logs_only_bind.
    { destruct (warnings stats); [apply logs_only_ret | ].
      eapply logs_only_ext.
      - apply logs_only_bind; [apply logs_only_log | intros ?; apply log_each_logs_only].
      - reflexivity. }
    intros ?.
    apply logs_only_bind.
    { destruct (errors stats); [apply logs_only_ret | ].
      eapply logs_only_ext.
      - apply logs_only_bind; [apply logs_only_log | intros ?; apply log_each_logs_only].
      - reflexivity. }
    intros ?. apply logs_only_log.
  - reflexivity.
Qed.

End RunFacts.

(** ** [main] up to the dry-run test *)

Section MainFacts.

Context {P : Platform}.

Lemma bind_logs_only {A B} (c : M A) (f : World -> result A) (k : A -> M B)
    (s : State) :
  logs_only c f ->
  exists lg,
    bind c k s = match f (world s) with
                 | Ok a => k a (logged s lg)
                 | Raise e => (Raise e, logged s lg)
                 end.
Proof.
  intros H. unfold bind. destruct (H s) as (lg & ->). exists lg.
  now destruct (f (world s)).
Qed.

Ltac step_with H :=
  match goal with
  | |- context [bind ?c ?k ?s] =>
      let lg := fresh "lg" in
      let E := fresh "E" in
      destruct (bind_logs_only c _ k s H) as (lg & E); rewrite E; clear E;
      cbn [world logged]
  end.

Ltac step_tool := step_with (check_tool_logs_only "magick")
                  || step_with (check_tool_logs_only "avifenc").

Ltac step_build :=
  match goal with
  | |- context [build_asset_manifest ?a ?b ?c] =>
      step_with (build_asset_manifest_run a b c)
  end.

Ltac finish_logged :=
  cbn [bind log query ask ret world]; unfold logged; cbn [world logs trace];
  rewrite <- ?app_assoc; eexists; reflexivity.

Ltac simp_run := cbn [bind log query ask ret lift world logs trace negb rbind].

(** Validation fails: [main] returns 1 having only logged. *)
Lemma main_rejects (args : Args) (s : State) :
  validated args (world s) = Ok false ->
  exists lg, main args s = (Ok 1, logged s lg).
Proof.
  unfold validated. intros Hv. unfold main. simp_run.
  destruct (is_dir _ (world s)) as [[ | ] | x]; cbn [rbind negb] in Hv;
    try discriminate; simp_run; [ | finish_logged].
  destruct (is_file _ (world s)) as [[ | ] | x]; cbn [rbind negb] in Hv;
    try discriminate; simp_run; [ | finish_logged].
  injection Hv as Hv.
  step_tool.
  destruct (found (which "magick" (world s))); simp_run; [ | finish_logged].
  destruct (no_avif args); cbn [andb orb] in Hv; [discriminate | ].
  simp_run. step_tool.
  destruct (found (which "avifenc" (world s))); simp_run; [discriminate | ].
  finish_logged.
Qed.

(** A path check of the validation raises: so does [main], having only
    logged. *)
Lemma main_raises (args : Args) (s : State) (x : exn) :
  validated args (world s) = Raise x ->
  exists lg, main args s = (Raise x, logged s lg).
Proof.
  unfold validated. intros Hv. unfold main. simp_run.
  destruct (is_dir _ (world s)) as [[ | ] | y]; cbn [rbind negb] in Hv;
    try discriminate; simp_run.
  - destruct (is_file _ (world s)) as [[ | ] | y]; cbn [rbind negb] in Hv;
      try discriminate; simp_run.
    injection Hv as ->. finish_logged.
  - injection Hv as ->. finish_logged.
Qed.

(** Validation passes: [main] reaches the builder, and what happens next
    is decided by the manifest. *)
Lemma main_builds (args : Args) (s : State) :
  validated args (world s) = Ok true ->
  exists lg,
    main args s =
    match manifest_of (stellaris_path args) (data_dir args) (output_dir args) (world s) with
    | Ok manifest =>
        (if dry_run args then dry_run_listing manifest else convert_all args manifest)
          (logged s lg)
    | Raise e => (Raise e, logged s lg)
    end.
Proof.
  unfold validated. intros Hv.
  destruct (is_dir _ (world s)) as [[ | ] | x] eqn:Hdir; cbn [rbind negb] in Hv;
    try discriminate.
  destruct (is_file _ (world s)) as [[ | ] | x] eqn:Hfile; cbn [rbind negb] in Hv;
    try discriminate.
  injection Hv as Hv.
  apply andb_prop in Hv as (Hmagick & Havif).
  unfold main. simp_run.
  rewrite Hdir. simp_run. rewrite Hfile. simp_run.
  step_tool. rewrite Hmagick. simp_run.
  destruct (no_avif args); cbn [orb] in Havif; simp_run.
  - step_build.
    destruct (manifest_of _ _ _ (world s)); finish_logged.
  - step_tool. rewrite Havif. simp_run.
    step_build.
    destruct (manifest_of _ _ _ (world s)); finish_logged.
Qed.

End MainFacts.

(** ** The converters *)

Section ConverterFacts.

Context {P : Platform}.

Lemma bind_eq {A B} (c : M A) (k : A -> M B) (s : State) :
  bind c k s = match c s with
               | (Ok a, s') => k a s'
               | (Raise e, s') => (Raise e, s')
               end.
Proof. reflexivity. Qed.

Ltac tool_call_tac :=
  let s := fresh "s" in
  let w1 := fresh "w" in
  let w2 := fresh "w" in
  let H := fresh "H" in
  intros s; cbv beta delta [bind do_mkdir run log ret]; cbn [world logs trace];
  destruct (mkdir _ (world s)) as [[[] | ?] w1]; [ | reflexivity];
  cbn [world logs trace];
  match goal with
  | |- context [subprocess_run ?cmd ?t w1] =>
      destruct (subprocess_run cmd t w1) as [[? ? | | ?] w2]
  end;
  cbn [world logs trace run_failed];
  try match goal with
      | |- context [negb (?r =? 0)] => destruct (r =? 0)
      end;
  cbn [negb world logs trace]; rewrite <- ?app_assoc; cbn [app];
  first
    [ exists []; rewrite app_nil_r;
      split; [reflexivity | split; intros H; [reflexivity | discriminate H]]
    | eexists; split; [reflexivity | split; intros H; [discriminate H | ]];
      eexists; split; [reflexivity | split; [reflexivity | cbn; auto]] ].

Lemma dds_to_png_call (src dst : Path) :
  tool_call (parent dst) ["magick"; path_str src; path_str dst] 30
            (dds_to_png src dst).
Proof.
  unfold tool_call, dds_to_png. tool_call_tac.
Qed.

Lemma png_to_avif_call (src dst : Path) (lossless : bool) (jobs : Z) :
  tool_call (parent dst) (avifenc_cmd src dst lossless jobs) 120
            (png_to_avif src dst lossless jobs).
Proof.
  unfold tool_call, png_to_avif. tool_call_tac.
Qed.

Lemma crop_sprite_call (src : Path) (region : Z * Z * Z * Z) (dst : Path) :
  tool_call (parent dst) (crop_cmd src region dst) 30 (crop_sprite src region dst).
Proof.
  unfold tool_call, crop_sprite. tool_call_tac.
Qed.

(** What the driver relies on: a converter that returns has appended to
    the trace a stretch with one failed run if it says [False] and none if
    it says [True]; and what a converter raises is what the creation of its
    directory raised. *)
Lemma tool_call_returns (dir : Path) (cmd : list string) (timeout : Z) (c : M bool)
    (s s' : State) (b : bool) :
  tool_call dir cmd timeout c -> c s = (Ok b, s') ->
  exists o,
    trace s' = (trace s ++ [EvMkdir dir; EvRun cmd timeout o])%list
    /\ b = negb (run_failed o).
Proof.
  intros H E. specialize (H s).
  destruct (mkdir dir (world s)) as [[[] | e] w1].
  - destruct (subprocess_run cmd timeout w1) as [o w2].
    destruct H as (lg & H & _). rewrite H in E. injection E as <- <-.
    now exists o.
  - rewrite H in E. discriminate.
Qed.

Lemma tool_call_refused (dir : Path) (cmd : list string) (timeout : Z) (c : M bool) :
  tool_call dir cmd timeout c -> raises mkdir_refused c.
Proof.
  intros H s x s' E. specialize (H s).
  destruct (mkdir dir (world s)) as [[[] | y] w1] eqn:Em.
  - destruct (subprocess_run cmd timeout w1) as [o w2].
    destruct H as (lg & H & _). rewrite H in E. discriminate.
  - rewrite H in E. injection E as <- <-.
    exists dir, (world s), (trace s). cbn. auto.
Qed.

End ConverterFacts.

(** ** What can stop a run *)

Section RaiseFacts.

Context {P : Platform}.
Variable ok : exn -> State -> Prop.

Lemma raises_logs_only {A} (c : M A) (a : World -> A) :
  logs_only c (fun w => Ok (a w)) -> raises ok c.
Proof.
  intros H s x s' E. destruct (H s) as (lg & E'). rewrite E' in E. discriminate.
Qed.

Lemma raises_ret {A} (a : A) : raises ok (ret a).
Proof. intros s x s' E. discriminate. Qed.

Lemma raises_log (lv : level) (tpl : string) (a : list arg) : raises ok (log lv tpl a).
Proof. intros s x s' E. discriminate. Qed.

Lemma raises_query {A} (q : World -> A) : raises ok (query q).
Proof. intros s x s' E. discriminate. Qed.

Lemma raises_bind {A B} (c : M A) (k : A -> M B) :
  raises ok c -> (forall a, raises ok (k a)) -> raises ok (bind c k).
Proof.
  intros Hc Hk s x s' E. rewrite bind_eq in E.
  destruct (c s) as [[a | y] s1] eqn:Ec.
  - exact (Hk a s1 x s' E).
  - injection E as <- <-. exact (Hc s _ _ Ec).
Qed.

End RaiseFacts.

Section Refusals.

Context {P : Platform}.
Variable args : Args.

Lemma raises_weaken {A} (ok ok' : exn -> State -> Prop) (c : M A) :
  (forall x s, ok x s -> ok' x s) -> raises ok c -> raises ok' c.
Proof. intros Hw H s x s' E. exact (Hw _ _ (H s x s' E)). Qed.

Lemma is_file_refused (p : Path) : raises refused (ask (is_file p)).
Proof. intros s x s' E. unfold ask in E. injection E as E <-. left. now exists p. Qed.

Lemma do_mkdir_refused (p : Path) : raises mkdir_refused (do_mkdir p).
Proof.
  intros s x s' E. unfold do_mkdir in E.
  destruct (mkdir p (world s)) as [r w] eqn:Em. injection E as -> <-.
  exists p, (world s), (trace s). cbn. auto.
Qed.

Ltac refuse :=
  repeat match goal with
    | |- raises _ (ret _) => apply raises_ret
    | |- raises _ (log _ _ _) => apply raises_log
    | |- raises _ (query _) => apply raises_query
    | |- raises _ (file_size _) => apply raises_query
    | |- raises refused (ask (is_file _)) => apply is_file_refused
    | |- raises mkdir_refused (do_mkdir _) => apply do_mkdir_refused
    | |- raises mkdir_refused (dds_to_png _ _) =>
        eapply tool_call_refused; apply dds_to_png_call
    | |- raises mkdir_refused (png_to_avif _ _ _ _) =>
        eapply tool_call_refused; apply png_to_avif_call
    | |- raises mkdir_refused (crop_sprite _ _ _) =>
        eapply tool_call_refused; apply crop_sprite_call
    | |- raises refused (do_mkdir _) =>
        apply (raises_weaken mkdir_refused); [intros ? ? ?; now right | ]
    | |- raises refused (dds_to_png _ _) =>
        apply (raises_weaken mkdir_refused); [intros ? ? ?; now right | ]
    | |- raises refused (png_to_avif _ _ _ _) =>
        apply (raises_weaken mkdir_refused); [intros ? ? ?; now right | ]
    | |- raises _ (bind _ _) => apply raises_bind; [ | intros ? ]
    | |- raises _ (if ?b then _ else _) => destruct b
    end.

Lemma process_entry_refused (i : Z) (e : AssetEntry) (st : Stats) :
  raises refused (process_entry args i e st).
Proof. unfold process_entry. refuse. Qed.

Lemma process_assets_refused (manifest : list AssetEntry) :
  forall i st, raises refused (process_assets args i manifest st).
Proof.
  induction manifest as [ | e rest IH]; intros i st; cbn [process_assets].
  - apply raises_ret.
  - apply raises_bind; [apply process_entry_refused | intros st'; apply IH].
Qed.

Lemma process_crop_stopped (cb : Path) (crop : string * (Z * Z * Z * Z)) (st : Stats) :
  raises mkdir_refused (process_crop args cb crop st).
Proof. destruct crop as [nm region]. unfold process_crop. refuse. Qed.

Lemma process_crop_regions_stopped (cb : Path)
    (regions : list (string * (Z * Z * Z * Z))) :
  forall st, raises mkdir_refused (process_crop_regions args cb regions st).
Proof.
  induction regions as [ | crop rest IH]; intros st; cbn [process_crop_regions].
  - apply raises_ret.
  - apply raises_bind; [apply process_crop_stopped | intros st'; apply IH].
Qed.

Lemma process_crops_refused (st : Stats) : raises refused (process_crops args st).
Proof.
  unfold process_crops. refuse.
  apply (raises_weaken mkdir_refused); [intros ? ? ?; now right | ].
  apply process_crop_regions_stopped.
Qed.

Lemma create_output_dirs_refused (subdirs : list string) :
  raises refused (create_output_dirs args subdirs).
Proof.
  induction subdirs as [ | d rest IH]; cbn [create_output_dirs]; refuse.
  exact IH.
Qed.

Lemma convert_all_refused (manifest : list AssetEntry) :
  raises refused (convert_all args manifest).
Proof.
  unfold convert_all. refuse.
  - apply create_output_dirs_refused.
  - apply process_assets_refused.
  - apply process_crops_refused.
  - eapply raises_logs_only. apply log_summary_logs_only.
Qed.

End Refusals.

(** ** One asset: the state machine SKIPPED / FAILED / CONVERTED *)

Section EntryFacts.

Context {P : Platform}.
Variable args : Args.

Ltac step := rewrite bind_eq; cbn [query ask file_size log ret negb fst snd].

Lemma process_entry_outcome (i : Z) (e : AssetEntry) (st : Stats) (s : State) :
  entry_outcome args e st s (fst (process_entry args i e st s))
                       (snd (process_entry args i e st s)).
Proof.
  unfold process_entry. step.
  destruct (is_file (src_dds e) (world s)) as [[ | ] | x] eqn:Esrc; cbn [negb fst snd];
    [ | | now apply SourceCheckRaised].
  - step. step.
    destruct (dds_to_png (src_dds e) (dst_png e) s) as [[[ | ] | x] s1] eqn:E1;
      cbn [negb fst snd].
    + step.
      destruct (no_avif args) eqn:Eno; cbn [negb].
      * step. now eapply (ConvertedPngOnly args e st s s1 [_]).
      * step.
        destruct (png_to_avif (dst_png e) (dst_avif e) (lossless e) (jobs args) s1)
          as [[[ | ] | x] s2] eqn:E2; cbn [negb fst snd].
        -- step. step. now eapply (Converted args e st s s1 s2 [_]).
        -- step. now eapply (StageTwoFailed args e st s s1 s2 [_]).
        -- now eapply StageTwoRaised; eauto.
    + step. now eapply (StageOneFailed args e st s s1 [_]).
    + now apply StageOneRaised.
  - step. now eapply (Skipped args e st s [_]).
Qed.

End EntryFacts.

(** ** The main pass *)

Section LoopFacts.

Context {P : Platform}.
Variable args : Args.

Lemma failed_runs_app (a b : list event) :
  failed_runs (a ++ b) = failed_runs a + failed_runs b.
Proof.
  unfold failed_runs, len. rewrite filter_app, length_app. lia.
Qed.

Lemma failed_runs_call (dir : Path) (cmd : list string) (t : Z) (o : run_outcome) :
  failed_runs [EvMkdir dir; EvRun cmd t o] = if run_failed o then 1 else 0.
Proof. unfold failed_runs. cbn. now destruct (run_failed o). Qed.

(** A converter that returned left a stretch of trace with one failed run
    if it returned [False], none if it returned [True]. *)
Lemma converter_trace (dir : Path) (cmd : list string) (t : Z) (c : M bool)
    (s s' : State) (b : bool) :
  tool_call dir cmd t c -> c s = (Ok b, s') ->
  exists evs, trace s' = (trace s ++ evs)%list
              /\ failed_runs evs = if b then 0 else 1.
Proof.
  intros H E. destruct (tool_call_returns _ _ _ _ _ _ _ H E) as (o & Ht & ->).
  eexists. split; [exact Ht | ].
  rewrite failed_runs_call. now destruct (run_failed o).
Qed.

Ltac conv_traces :=
  repeat match goal with
    | H : dds_to_png ?a ?b ?s = (Ok _, _) |- _ =>
        destruct (converter_trace _ _ _ _ _ _ _ (dds_to_png_call a b) H)
          as (? & ? & ?); clear H
    | H : png_to_avif ?a ?b ?l ?j ?s = (Ok _, _) |- _ =>
        destruct (converter_trace _ _ _ _ _ _ _ (png_to_avif_call a b l j) H)
          as (? & ? & ?); clear H
    | H : crop_sprite ?a ?r ?b ?s = (Ok _, _) |- _ =>
        destruct (converter_trace _ _ _ _ _ _ _ (crop_sprite_call a r b) H)
          as (? & ? & ?); clear H
    end.

Ltac chain_traces :=
  cbn [logged trace];
  repeat match goal with
    | H : trace _ = _ |- _ => rewrite H; clear H
    end;
  rewrite <- ?app_assoc.

Lemma entry_outcome_ok (e : AssetEntry) (st st' : Stats) (s s' : State) :
  entry_outcome args e st s (Ok st') s' ->
  total st' = total st /\ one_counted st st' /\
  exists evs, trace s' = (trace s ++ evs)%list
              /\ failed st' = failed st + failed_runs evs.
Proof.
  intros H. inversion H; subst; clear H; cbn [total incr_skipped incr_failed
    incr_converted append_warning append_error add_dds_bytes add_png_bytes
    add_avif_bytes];
    (split; [reflexivity | split; [unfold one_counted; cbn; lia | ]]);
    conv_traces; chain_traces.
  - exists []. rewrite app_nil_r. split; [reflexivity | cbn; lia].
  - eexists. split; [reflexivity | cbn; lia].
  - eexists. split; [reflexivity | cbn; lia].
  - eexists. split; [reflexivity | rewrite failed_runs_app; cbn; lia].
  - eexists. split; [reflexivity | rewrite failed_runs_app; cbn; lia].
Qed.

Lemma process_assets_cons (i : Z) (e : AssetEntry) (rest : list AssetEntry)
    (st st' : Stats) (s s' : State) :
  process_entry args i e st s = (Ok st', s') ->
  process_assets args i (e :: rest) st s = process_assets args (i + 1) rest st' s'.
Proof. intros H. cbn [process_assets]. rewrite bind_eq, H. reflexivity. Qed.

Lemma process_assets_ok (manifest : list AssetEntry) :
  forall i st s st' s',
    process_assets args i manifest st s = (Ok st', s') ->
    total st' = total st /\
    processed st' = processed st + len manifest /\
    exists evs, trace s' = (trace s ++ evs)%list
                /\ failed st' = failed st + failed_runs evs.
Proof.
  induction manifest as [ | e rest IH]; intros i st s st' s' H.
  - cbn in H. injection H as <- <-. unfold len. cbn.
    repeat split; try lia. exists []. rewrite app_nil_r. split; [reflexivity | cbn; lia].
  - cbn [process_assets] in H. rewrite bind_eq in H.
    pose proof (process_entry_outcome args i e st s) as Ho.
    destruct (process_entry args i e st s) as [[st1 | x] s1]; [ | discriminate].
    cbn [fst snd] in Ho.
    apply entry_outcome_ok in Ho as (Ht & Hc & evs1 & Htr1 & Hf1).
    apply IH in H as (Ht2 & Hp2 & evs2 & Htr2 & Hf2).
    split; [congruence | ]. split.
    + unfold processed, one_counted, len in *. cbn [length].
      rewrite Nat2Z.inj_succ. lia.
    + exists (evs1 ++ evs2)%list. split.
      * rewrite Htr2, Htr1. now rewrite app_assoc.
      * rewrite failed_runs_app. lia.
Qed.

End LoopFacts.

(** ** The sprite-crop pass *)

Section CropFacts.

Context {P : Platform}.
Variable args : Args.

Ltac step := rewrite bind_eq; cbn [query ask file_size log ret negb fst snd].

Lemma process_crop_outcome (cb : Path) (nm : string) (region : Z * Z * Z * Z)
    (st : Stats) (s : State) :
  crop_outcome args cb nm region st s
    (fst (process_crop args cb (nm, region) st s))
    (snd (process_crop args cb (nm, region) st s)).
Proof.
  unfold process_crop. fold (crop_png_path args nm). fold (crop_avif_path args nm). step.
  destruct (crop_sprite cb region (crop_png_path args nm) s) as [[[ | ] | x] s1] eqn:E1;
    cbn [fst snd].
  - step.
    destruct (no_avif args) eqn:Eno; cbn [negb].
    + step. now eapply (CropPngOnly args cb nm region st s s1 [_]).
    + step.
      destruct (png_to_avif (crop_png_path args nm) (crop_avif_path args nm) true (jobs args) s1)
        as [[[ | ] | x] s2] eqn:E2; cbn [fst snd].
      * step. step. now eapply (CropConverted args cb nm region st s s1 s2 [_]).
      * step. now eapply (CropAvifFailed args cb nm region st s s1 s2 [_]).
      * now eapply CropAvifRaised; eauto.
  - step. now eapply (CropFailed args cb nm region st s s1 [_]).
  - now apply CropRaised.
Qed.

Lemma crop_outcome_ok (cb : Path) (nm : string) (region : Z * Z * Z * Z)
    (st st' : Stats) (s s' : State) :
  crop_outcome args cb nm region st s (Ok st') s' -> same_counters st st'.
Proof.
  intros H. inversion H; subst; unfold same_counters; cbn; auto.
Qed.

Lemma process_crop_regions_ok (cb : Path) (regions : list (string * (Z * Z * Z * Z))) :
  forall st s st' s',
    process_crop_regions args cb regions st s = (Ok st', s') ->
    same_counters st st'.
Proof.
  induction regions as [ | [nm region] rest IH]; intros st s st' s' H.
  - cbn in H. injection H as <- <-. unfold same_counters. auto.
  - cbn [process_crop_regions] in H. rewrite bind_eq in H.
    pose proof (process_crop_outcome cb nm region st s) as Ho.
    destruct (process_crop args cb (nm, region) st s) as [[st1 | x] s1];
      [ | discriminate].
    apply crop_outcome_ok in Ho. apply IH in H.
    unfold same_counters in *. intuition congruence.
Qed.

Lemma process_crops_ok (st st' : Stats) (s s' : State) :
  process_crops args st s = (Ok st', s') -> same_counters st st'.
Proof.
  unfold process_crops. do 3 step.
  destruct (is_file _ _) as [[ | ] | x]; [ | | discriminate].
  - apply process_crop_regions_ok.
  - step. intros H. injection H as <- <-. unfold same_counters. cbn. auto.
Qed.

End CropFacts.

(* ================================================================== *)
(** * The manifest builder                                             *)
(* ================================================================== *)

Lemma manifest_of_inv {P : Platform} (stellaris data output : Path) (w : World)
    (manifest : list AssetEntry) :
  manifest_of stellaris data output w = Ok manifest ->
  exists techs ti swaps si,
    load_json (data // "technologies.json") w = Ok techs
    /\ tech_icon_names techs = Ok ti
    /\ load_json (data // "technology_swaps.json") w = Ok swaps
    /\ swap_icon_names swaps ti = Ok si
    /\ manifest = assemble stellaris (output // "png") (output // "avif") ti si.
Proof.
  unfold manifest_of. intros H.
  destruct (load_json (data // "technologies.json") w) as [techs | e];
    cbn in H; [ | discriminate].
  destruct (tech_icon_names techs) as [ti | e] eqn:Eti; cbn in H; [ | discriminate].
  destruct (load_json (data // "technology_swaps.json") w) as [swaps | e];
    cbn in H; [ | discriminate].
  destruct (swap_icon_names swaps ti) as [si | e] eqn:Esi; cbn in H;
    [ | discriminate].
  injection H as <-. exists techs, ti, swaps, si. repeat split; assumption.
Qed.

(** X19. On metadata of the expected shape (every technology value a record
    with a string icon, every swap group a list of records whose name, if
    any, is a string) the builder returns a manifest: it does not raise. *)
Lemma build_asset_manifest_total {P : Platform} (stellaris data output : Path)
    (s : State) (techs swaps : json) :
  load_json (data // "technologies.json") (world s) = Ok techs ->
  load_json (data // "technology_swaps.json") (world s) = Ok swaps ->
  techs_shape_ok techs = true -> swaps_shape_ok swaps = true ->
  exists manifest,
    fst (build_asset_manifest stellaris data output s) = Ok manifest.
Proof.
  intros Ht Hs Hts Hss. rewrite build_asset_manifest_fst. unfold manifest_of.
  destruct (icon_names_shaped techs swaps Hts Hss) as (ti & si & Eti & Esi).
  rewrite Ht. cbn. rewrite Eti. cbn. rewrite Hs. cbn. rewrite Esi. cbn. eauto.
Qed.

(** C4. Every descriptor of a manifest the builder returns is lossy
    (lossless = False) exactly when its category is backgrounds or ui, and
    lossless exactly when its category is one of tech_icons, swap_icons,
    category_icons, sprites. *)
Theorem quality_policy_by_category {P : Platform} (stellaris data output : Path)
    (s : State) (manifest : list AssetEntry) :
  fst (build_asset_manifest stellaris data output s) = Ok manifest ->
  forall e, In e manifest ->
    (lossless e = false <-> category e = "backgrounds" \/ category e = "ui")
    /\ (lossless e = true <->
        category e = "tech_icons" \/ category e = "swap_icons"
        \/ category e = "category_icons" \/ category e = "sprites").
Proof.
  rewrite build_asset_manifest_fst. intros H e He.
  apply manifest_of_inv in H as (techs & ti & swaps & si & _ & _ & _ & _ & ->).
  exact (quality_assemble _ _ _ ti si e He).
Qed.

Lemma quality_policy_by_category_witness :
  (lossless Toy.physics_bg = false <->
   category Toy.physics_bg = "backgrounds" \/ category Toy.physics_bg = "ui")
  /\ (lossless Toy.physics_bg = true <->
      category Toy.physics_bg = "tech_icons" \/ category Toy.physics_bg = "swap_icons"
      \/ category Toy.physics_bg = "category_icons"
      \/ category Toy.physics_bg = "sprites").
Proof.
  apply (@quality_policy_by_category Toy.platform "/game" "/data" "/out"
           (Toy.start (Toy.install ex_techs ex_swaps Toy.always_ok))
           Toy.ex_manifest).
  - vm_compute. reflexivity.
  - vm_compute. do 16 right. left. reflexivity.
Defined.

(** C3, as amended. For an icon name carried by a technology record and by a
    swap record, a manifest the builder returns has exactly one descriptor of
    that name among the tech_icons entries and none among the swap_icons
    entries; it is the only descriptor of that name in the whole manifest
    when the name is not one of the fixed asset names.  On the metadata of
    the worked example the tech_icons names are armor_1, laser_1 in this
    order and the swap_icons names are special_swap alone. *)
Theorem tech_icon_wins_over_swap {P : Platform} (stellaris data output : Path)
    (s : State) :
  (forall techs swaps manifest n,
      load_json (data // "technologies.json") (world s) = Ok techs ->
      load_json (data // "technology_swaps.json") (world s) = Ok swaps ->
      fst (build_asset_manifest stellaris data output s) = Ok manifest ->
      tech_icon_inb n techs = true ->
      swap_name_inb n swaps = true ->
      let entry := tech_entry stellaris (output // "png") (output // "avif") (VStr n) in
      named (VStr n) (by_category manifest "tech_icons") = [entry]
      /\ named (VStr n) (by_category manifest "swap_icons") = []
      /\ (~ In n fixed_names -> named (VStr n) manifest = [entry]))
  /\ (load_json (data // "technologies.json") (world s) = Ok ex_techs ->
      load_json (data // "technology_swaps.json") (world s) = Ok ex_swaps ->
      exists manifest,
        fst (build_asset_manifest stellaris data output s) = Ok manifest
        /\ names_in "tech_icons" manifest = [VStr "armor_1"; VStr "laser_1"]
        /\ names_in "swap_icons" manifest = [VStr "special_swap"]).
Proof.
  split.
  - intros techs swaps manifest n Ht Hs H Hn _ entry.
    rewrite build_asset_manifest_fst in H.
    apply manifest_of_inv in H
      as (techs' & ti & swaps' & si & Ht' & Hti & Hs' & Hsi & ->).
    rewrite Ht in Ht'. injection Ht' as <-.
    destruct (tech_icon_names_inv _ _ Hti) as (Hnd & Hin).
    specialize (Hin n Hn).
    assert (Htech : named (VStr n) (map (tech_entry stellaris (output // "png")
                                           (output // "avif")) ti) = [entry]).
    { rewrite named_map by reflexivity.
      rewrite (filter_unique _ (VStr n)); [reflexivity | | exact Hnd | exact Hin].
      intros y. apply py_eqb_str_r. }
    assert (Hswap : named (VStr n) (map (swap_entry stellaris (output // "png")
                                           (output // "avif")) si) = []).
    { rewrite named_map by reflexivity.
      rewrite filter_none; [reflexivity | ].
      intros y Hy. destruct (py_eqb y (VStr n)) eqn:E; [ | reflexivity].
      apply py_eqb_str_r in E. subst y.
      pose proof (swap_icon_names_inv _ _ _ Hsi _ Hy) as Hm.
      rewrite (set_mem_In _ _ Hin) in Hm. discriminate. }
    rewrite by_category_tech, by_category_swap.
    split; [exact Htech | split; [exact Hswap | ]].
    intros Hfix. unfold assemble, named in *. rewrite !filter_app.
    rewrite Htech, Hswap. cbn [app]. f_equal.
    now apply named_fixed.
  - intros Ht Hs. rewrite build_asset_manifest_fst. unfold manifest_of.
    rewrite Ht, Hs. eexists. split; [vm_compute tech_icon_names; reflexivity | ].
    fold (assemble stellaris (output // "png") (output // "avif")
            [VStr "armor_1"; VStr "laser_1"] [VStr "special_swap"]).
    unfold names_in. rewrite by_category_tech, by_category_swap.
    split; reflexivity.
Qed.

Lemma tech_icon_wins_over_swap_witness :
  named (VStr "laser_1") (by_category Toy.ex_manifest "tech_icons")
  = [Toy.laser_entry]
  /\ named (VStr "laser_1") (by_category Toy.ex_manifest "swap_icons") = []
  /\ (~ In "laser_1" fixed_names -> named (VStr "laser_1") Toy.ex_manifest
                                    = [Toy.laser_entry]).
Proof.
  apply (proj1 (@tech_icon_wins_over_swap Toy.platform "/game" "/data" "/out"
                  (Toy.start (Toy.install ex_techs ex_swaps Toy.always_ok)))
               ex_techs ex_swaps Toy.ex_manifest "laser_1");
    vm_compute; reflexivity.
Defined.

(** C3, refuted as stated. An icon named [category_biology] in both metadata
    files yields two descriptors of that name: one in tech_icons and the
    fixed one in category_icons. *)
Lemma fixed_name_collision :
  tech_icon_inb "category_biology" Toy.clash_techs = true
  /\ swap_name_inb "category_biology" Toy.clash_swaps = true
  /\ exists manifest,
       fst (@build_asset_manifest Toy.platform "/game" "/data" "/out"
              (Toy.start (Toy.install Toy.clash_techs Toy.clash_swaps Toy.always_ok)))
       = Ok manifest
       /\ map category (named (VStr "category_biology") manifest)
          = ["tech_icons"; "category_icons"].
Proof.
  split; [reflexivity | split; [reflexivity | ]].
  eexists. split; vm_compute; reflexivity.
Qed.

(* ================================================================== *)
(** * Metadata that cannot be used, and the dry run                    *)
(* ================================================================== *)

Lemma manifest_of_unusable {P : Platform} (stellaris data output : Path) (w : World) :
  unusable (load_json (data // "technologies.json") w)
  \/ unusable (load_json (data // "technology_swaps.json") w) ->
  exists e, manifest_of stellaris data output w = Raise e.
Proof.
  unfold manifest_of. intros H.
  destruct (load_json (data // "technologies.json") w) as [techs | e]; cbn;
    [ | eauto].
  destruct (tech_icon_names techs) as [ti | e] eqn:Eti; cbn; [ | eauto].
  destruct H as [H | H].
  - destruct techs; cbn in H; try destruct H; cbn in Eti; discriminate.
  - destruct (load_json (data // "technology_swaps.json") w) as [swaps | e]; cbn;
      [ | eauto].
    destruct swaps; cbn in H; try destruct H; cbn; eauto.
Qed.

(** C5, as amended. When technologies.json or technology_swaps.json cannot be
    loaded (absent, unreadable, not JSON) or holds a top-level value that is
    not a mapping, the builder raises, and the run ends with exit status 1
    having created no directory and invoked no tool; when technologies.json
    is not a regular file, pre-flight validation already makes [main]
    return 1 (the check of the installation directory before it having
    returned). *)
Theorem bad_metadata_aborts_run {P : Platform} (args : Args) (s : State) :
  unusable (load_json (data_dir args // "technologies.json") (world s))
  \/ unusable (load_json (data_dir args // "technology_swaps.json") (world s)) ->
  (exists e, fst (build_asset_manifest (stellaris_path args) (data_dir args)
                    (output_dir args) s) = Raise e)
  /\ exit_status (fst (main args s)) = 1
  /\ world (snd (main args s)) = world s
  /\ trace (snd (main args s)) = trace s
  /\ (forall b,
        is_dir (stellaris_path args // "common" // "technology") (world s) = Ok b ->
        is_file (data_dir args // "technologies.json") (world s) = Ok false ->
        fst (main args s) = Ok 1).
Proof.
  intros H.
  destruct (manifest_of_unusable (stellaris_path args) (data_dir args)
              (output_dir args) (world s) H) as (e & He).
  split; [exists e; now rewrite build_asset_manifest_fst | ].
  assert (Hfile : forall b r,
             is_dir (stellaris_path args // "common" // "technology") (world s) = Ok b ->
             is_file (data_dir args // "technologies.json") (world s) = Ok false ->
             validated args (world s) = r -> r = Ok false).
  { intros b r Hd Hf <-. unfold validated. rewrite Hd. cbn [rbind].
    destruct b; cbn [negb]; [ | reflexivity]. now rewrite Hf. }
  destruct (validated args (world s)) as [[ | ] | x] eqn:Hv.
  - destruct (main_builds args s Hv) as (lg & Hm). rewrite He in Hm. rewrite Hm.
    cbn. repeat split; try reflexivity.
    intros b Hd Hf. specialize (Hfile b _ Hd Hf eq_refl). discriminate.
  - destruct (main_rejects args s Hv) as (lg & ->). cbn. repeat split; reflexivity.
  - destruct (main_raises args s x Hv) as (lg & ->). cbn. repeat split; try reflexivity.
    intros b Hd Hf. specialize (Hfile b _ Hd Hf eq_refl). discriminate.
Qed.

Lemma bad_metadata_aborts_run_witness :
  (exists e, fst (@build_asset_manifest Toy.platform "/game" "/data" "/out"
                    (Toy.start (Toy.install ex_techs (JList []) Toy.always_ok)))
             = Raise e)
  /\ exit_status (fst (main (Toy.args false false)
                         (Toy.start (Toy.install ex_techs (JList []) Toy.always_ok))))
     = 1
  /\ world (snd (main (Toy.args false false)
                   (Toy.start (Toy.install ex_techs (JList []) Toy.always_ok))))
     = Toy.install ex_techs (JList []) Toy.always_ok
  /\ trace (snd (main (Toy.args false false)
                   (Toy.start (Toy.install ex_techs (JList []) Toy.always_ok))))
     = []
  /\ (forall b,
        @is_dir Toy.platform "/game/common/technology"
          (Toy.install ex_techs (JList []) Toy.always_ok) = Ok b ->
        @is_file Toy.platform "/data/technologies.json"
          (Toy.install ex_techs (JList []) Toy.always_ok) = Ok false ->
        fst (main (Toy.args false false)
               (Toy.start (Toy.install ex_techs (JList []) Toy.always_ok))) = Ok 1).
Proof.
  apply (@bad_metadata_aborts_run Toy.platform (Toy.args false false)
           (Toy.start (Toy.install ex_techs (JList []) Toy.always_ok))).
  right. vm_compute. exact I.
Defined.

(** C5, refuted as stated. A swap mapping whose group lists plain strings
    is not of the expected shape, yet the manifest is built, the converters
    are invoked and the run exits with status 0. *)
Lemma misshapen_swaps_accepted :
  techs_shape_ok ex_techs = true
  /\ swaps_shape_ok Toy.misshapen_swaps = false
  /\ exit_status
       (fst (main (Toy.args false false)
               (Toy.start (Toy.install ex_techs Toy.misshapen_swaps Toy.always_ok))))
     = 0
  /\ existsb is_run
       (trace (snd (main (Toy.args false false)
                      (Toy.start (Toy.install ex_techs Toy.misshapen_swaps
                                    Toy.always_ok)))))
     = true.
Proof. repeat split; vm_compute; reflexivity. Qed.

(** C9, as amended. In dry-run mode, when pre-flight validation passes and
    the manifest is built, the world is as it was (nothing is written under
    the output root or anywhere else) and the trace is as it was (no
    directory created, no tool invoked), whichever source files exist and
    however the run ends.  [main] returns 0 exactly when every existence
    check of a listed source (the first five of each category) returns, a
    missing file included; it returns nothing else, and what it raises
    otherwise is what the check of a listed source raises. *)
Theorem dry_run_is_pure {P : Platform} (args : Args) (s : State)
    (manifest : list AssetEntry) :
  dry_run args = true ->
  validated args (world s) = Ok true ->
  fst (build_asset_manifest (stellaris_path args) (data_dir args)
         (output_dir args) s) = Ok manifest ->
  world (snd (main args s)) = world s
  /\ trace (snd (main args s)) = trace s
  /\ (fst (main args s) = Ok 0 <->
      forall e, In e (listed manifest) ->
                exists b, is_file (src_dds e) (world s) = Ok b)
  /\ (forall code, fst (main args s) = Ok code -> code = 0)
  /\ (forall x, fst (main args s) = Raise x ->
                exit_status (fst (main args s)) = 1
                /\ exists e, In e (listed manifest)
                             /\ is_file (src_dds e) (world s) = Raise x).
Proof.
  intros Hdry Hv Hm. rewrite build_asset_manifest_fst in Hm.
  destruct (main_builds args s Hv) as (lg & E). rewrite Hm, Hdry in E.
  destruct (dry_run_listing_logs_only manifest (logged s lg)) as (lg' & E').
  rewrite E' in E. rewrite E. cbn [fst snd logged world trace].
  pose proof (checked_ok (listed manifest) (world s)) as Hok.
  pose proof (checked_raise (listed manifest) (world s)) as Hraise.
  destruct (checked (listed manifest) (world s)) as [[] | y]; cbn [rbind].
  - split; [reflexivity | ]. split; [reflexivity | ]. split.
    + split; [intros _; now apply Hok | reflexivity].
    + split.
      * intros code Hc. now injection Hc.
      * intros x Hx. discriminate.
  - split; [reflexivity | ]. split; [reflexivity | ]. split.
    + split; [discriminate | intros H; apply Hok in H; discriminate].
    + split.
      * intros code Hc. discriminate.
      * intros x Hx. injection Hx as <-. split; [reflexivity | now apply Hraise].
Qed.

Lemma dry_run_is_pure_witness :
  fst (main (Toy.args true false)
         (Toy.start (Toy.install ex_techs ex_swaps Toy.always_fails))) = Ok 0
  /\ world (snd (main (Toy.args true false)
                   (Toy.start (Toy.install ex_techs ex_swaps Toy.always_fails))))
     = Toy.install ex_techs ex_swaps Toy.always_fails
  /\ trace (snd (main (Toy.args true false)
                   (Toy.start (Toy.install ex_techs ex_swaps Toy.always_fails))))
     = [].
Proof.
  destruct (@dry_run_is_pure Toy.platform (Toy.args true false)
              (Toy.start (Toy.install ex_techs ex_swaps Toy.always_fails))
              Toy.ex_manifest)
    as (Hw & Ht & Hok & _); try (vm_compute; reflexivity).
  split; [ | split; [exact Hw | exact Ht]].
  apply Hok. intros e He. vm_compute in He.
  repeat (destruct He as [<- | He]; [eexists; vm_compute; reflexivity | ]).
  destruct He.
Defined.

(** C9, refuted as stated. The metadata name an icon of 252 characters, so
    the name of its source file has 256, more than the file system takes.
    Validation passes and the manifest is built; the existence check of the
    dry-run listing raises [OSError], and the process ends with status 1,
    not 0. *)
Lemma dry_run_stopped_by_file_check :
  dry_run (Toy.args true false) = true
  /\ validated (Toy.args true false)
       (Toy.install Toy.long_techs ex_swaps Toy.always_ok) = Ok true
  /\ (exists manifest,
        fst (@build_asset_manifest Toy.platform "/game" "/data" "/out"
               (Toy.start (Toy.install Toy.long_techs ex_swaps Toy.always_ok)))
        = Ok manifest)
  /\ fst (main (Toy.args true false)
             (Toy.start (Toy.install Toy.long_techs ex_swaps Toy.always_ok)))
     = Raise OSError
  /\ exit_status
       (fst (main (Toy.args true false)
               (Toy.start (Toy.install Toy.long_techs ex_swaps Toy.always_ok))))
     = 1.
Proof.
  split; [reflexivity | ]. split; [vm_compute; reflexivity | ].
  split; [eexists; vm_compute; reflexivity | ].
  split; vm_compute; reflexivity.
Qed.

(* ================================================================== *)
(** * The converters                                                   *)
(* ================================================================== *)

Lemma tool_call_reports {P : Platform} (dir : Path) (cmd : list string)
    (timeout : Z) (c : M bool) (s : State) :
  tool_call dir cmd timeout c ->
  fst (mkdir dir (world s)) = Ok tt ->
  returns_and_reports dir cmd timeout c s.
Proof.
  intros H E. specialize (H s). unfold returns_and_reports.
  destruct (mkdir dir (world s)) as [[[] | e] w1]; [ | discriminate].
  cbn [snd]. destruct (subprocess_run cmd timeout w1) as [o w2]. cbn [fst].
  destruct H as (lg & H & Hok & Hfail).
  exists lg. eexists. split; [exact H | ]. cbn. auto.
Qed.

Lemma tool_call_raises {P : Platform} (dir : Path) (cmd : list string)
    (timeout : Z) (c : M bool) (s : State) (e : exn) :
  tool_call dir cmd timeout c ->
  fst (mkdir dir (world s)) = Raise e ->
  fst (c s) = Raise e.
Proof.
  intros H E. specialize (H s).
  destruct (mkdir dir (world s)) as [[[] | e'] w1]; [discriminate | ].
  cbn in E. injection E as ->. now rewrite H.
Qed.

(** C6, as amended. From every state in which the parent directory of the
    destination can be created, both stage conversions return a boolean and
    do not raise: [True] for exit code 0; [False], with one ERROR record
    carrying the captured stderr, the command or the exception text, for a
    nonzero exit code, a timeout or an invocation exception.  An error
    raised by the creation of that directory reaches the caller. *)
Theorem converters_return_and_report {P : Platform} (src dst : Path)
    (lossless : bool) (jobs : Z) (s : State) :
  (fst (mkdir (parent dst) (world s)) = Ok tt ->
   returns_and_reports (parent dst) ["magick"; path_str src; path_str dst] 30
                       (dds_to_png src dst) s
   /\ returns_and_reports (parent dst) (avifenc_cmd src dst lossless jobs) 120
                          (png_to_avif src dst lossless jobs) s)
  /\ (forall e, fst (mkdir (parent dst) (world s)) = Raise e ->
                fst (dds_to_png src dst s) = Raise e
                /\ fst (png_to_avif src dst lossless jobs s) = Raise e).
Proof.
  split.
  - intros H. split.
    + apply tool_call_reports; [apply dds_to_png_call | exact H].
    + apply tool_call_reports; [apply png_to_avif_call | exact H].
  - intros e H. split.
    + eapply tool_call_raises; [apply dds_to_png_call | exact H].
    + eapply tool_call_raises; [apply png_to_avif_call | exact H].
Qed.

Lemma converters_return_and_report_witness :
  @returns_and_reports Toy.platform "/out/png/tech_icons"
    ["magick"; "/game/a.dds"; "/out/png/tech_icons/a.png"] 30
    (@dds_to_png Toy.platform "/game/a.dds" "/out/png/tech_icons/a.png")
    Toy.s_avifenc_fails
  /\ @returns_and_reports Toy.platform "/out/png/tech_icons"
       (@avifenc_cmd Toy.platform "/game/a.dds" "/out/png/tech_icons/a.png" true 4)
       120
       (@png_to_avif Toy.platform "/game/a.dds" "/out/png/tech_icons/a.png" true 4)
       Toy.s_avifenc_fails.
Proof.
  apply (proj1 (@converters_return_and_report Toy.platform "/game/a.dds"
                  "/out/png/tech_icons/a.png" true 4 Toy.s_avifenc_fails)).
  reflexivity.
Defined.

(** C6, refuted as stated. Where the destination's parent directory cannot
    be created, the stage-one conversion raises to its caller. *)
Lemma dds_to_png_raises_without_directory :
  fst (@dds_to_png Toy.read_only_platform "/game/a.dds" "/out/png/tech_icons/a.png"
         (@mkState Toy.read_only_platform
            (Toy.install ex_techs ex_swaps Toy.always_ok) [] []))
  = Raise OSError.
Proof. reflexivity. Qed.

(* ================================================================== *)
(** * The pipeline driver                                              *)
(* ================================================================== *)

Ltac run_step := rewrite bind_eq; cbn [query ask file_size log ret negb fst snd].

(** C7. An asset whose source file is absent is skipped: the skipped counter
    goes up by one and a warning is recorded, the failed and converted
    counters and the error list stay, no directory is created and no tool is
    invoked for it, and the loop goes on with the next asset. *)
Theorem missing_source_is_skipped {P : Platform} (args : Args) (i : Z)
    (e : AssetEntry) (rest : list AssetEntry) (st : Stats) (s : State) :
  is_file (src_dds e) (world s) = Ok false ->
  exists st' s',
    process_entry args i e st s = (Ok st', s')
    /\ skipped st' = skipped st + 1
    /\ warnings st' = (warnings st ++ [entry_msg e "DDS missing"])%list
    /\ failed st' = failed st
    /\ converted st' = converted st
    /\ errors st' = errors st
    /\ world s' = world s
    /\ trace s' = trace s
    /\ (exists r, logs s' = (logs s ++ [r])%list /\ lvl r = WARNING)
    /\ process_assets args i (e :: rest) st s
       = process_assets args (i + 1) rest st' s'.
Proof.
  intros H.
  assert (E : exists r, lvl r = WARNING /\
                process_entry args i e st s
                = (Ok (append_warning (incr_skipped st) (entry_msg e "DDS missing")),
                   logged s [r])).
  { unfold process_entry. rewrite bind_eq. cbn [ask]. rewrite H. cbn [negb].
    rewrite bind_eq. cbn [log ret]. eexists. split; [ | reflexivity]. reflexivity. }
  destruct E as (r & Hr & E).
  do 2 eexists. split; [exact E | ].
  cbn. repeat split; try reflexivity.
  - exists r. auto.
  - now apply process_assets_cons.
Qed.

Lemma missing_source_is_skipped_witness :
  exists st' s',
    process_entry (Toy.args false false) 1 Toy.physics_bg (new_stats 1)
                  Toy.s_avifenc_fails = (Ok st', s')
    /\ skipped st' = skipped (new_stats 1) + 1
    /\ warnings st' = (warnings (new_stats 1) ++ [entry_msg Toy.physics_bg "DDS missing"])%list
    /\ failed st' = failed (new_stats 1)
    /\ converted st' = converted (new_stats 1)
    /\ errors st' = errors (new_stats 1)
    /\ world s' = world Toy.s_avifenc_fails
    /\ trace s' = trace Toy.s_avifenc_fails
    /\ (exists r, logs s' = (logs Toy.s_avifenc_fails ++ [r])%list /\ lvl r = WARNING)
    /\ process_assets (Toy.args false false) 1 [Toy.physics_bg] (new_stats 1)
                      Toy.s_avifenc_fails
       = process_assets (Toy.args false false) (1 + 1) [] st' s'.
Proof.
  apply (@missing_source_is_skipped Toy.platform (Toy.args false false) 1
           Toy.physics_bg [] (new_stats 1) Toy.s_avifenc_fails).
  reflexivity.
Defined.

(** C8. When stage one succeeded and stage two then fails, the driver does
    nothing more to the world: the state is the one the encoder invocation
    left, so the intermediate PNG is where stage one put it (the trace of
    the asset holds two directory creations and two tool runs, no removal);
    only the failed counter goes up, an error is recorded, and the loop goes
    on with the next asset. *)
Theorem stage_two_failure_keeps_png {P : Platform} (args : Args) (i : Z)
    (e : AssetEntry) (rest : list AssetEntry) (st : Stats) (s s1 s2 : State) :
  is_file (src_dds e) (world s) = Ok true ->
  dds_to_png (src_dds e) (dst_png e) s = (Ok true, s1) ->
  no_avif args = false ->
  png_to_avif (dst_png e) (dst_avif e) (lossless e) (jobs args) s1 = (Ok false, s2) ->
  exists st' s',
    process_entry args i e st s = (Ok st', s')
    /\ world s' = world s2
    /\ is_file (dst_png e) (world s') = is_file (dst_png e) (world s2)
    /\ (exists o1 o2,
          trace s' = (trace s ++
                      [EvMkdir (parent (dst_png e));
                       EvRun ["magick"; path_str (src_dds e); path_str (dst_png e)]
                             30 o1;
                       EvMkdir (parent (dst_avif e));
                       EvRun (avifenc_cmd (dst_png e) (dst_avif e) (lossless e)
                                          (jobs args)) 120 o2])%list)
    /\ failed st' = failed st + 1
    /\ skipped st' = skipped st
    /\ converted st' = converted st
    /\ errors st' = (errors st ++ [entry_msg e "PNG→AVIF failed"])%list
    /\ process_assets args i (e :: rest) st s
       = process_assets args (i + 1) rest st' s'.
Proof.
  intros Hsrc H1 Hno H2.
  assert (E : exists lg,
             process_entry args i e st s
             = (Ok (append_error
                      (incr_failed
                         (add_png_bytes
                            (add_dds_bytes st (size_in (src_dds e) (world s)))
                            (size_in (dst_png e) (world s1))))
                      (entry_msg e "PNG→AVIF failed")),
                logged s2 lg)).
  { unfold process_entry. run_step. rewrite Hsrc. cbn [negb].
    run_step. run_step. rewrite H1. cbn [negb].
    run_step. rewrite Hno. cbn [negb].
    run_step. rewrite H2. cbn [negb]. run_step.
    eexists [_]. reflexivity. }
  destruct E as (lg & E).
  destruct (tool_call_returns _ _ _ _ _ _ _ (dds_to_png_call _ _) H1) as (o1 & T1 & _).
  destruct (tool_call_returns _ _ _ _ _ _ _ (png_to_avif_call _ _ _ _) H2)
    as (o2 & T2 & _).
  do 2 eexists. split; [exact E | ].
  cbn. repeat split; try reflexivity.
  - exists o1, o2. rewrite T2, T1. now rewrite <- app_assoc.
  - now apply process_assets_cons.
Qed.

Lemma stage_two_failure_keeps_png_witness :
  exists st' s',
    process_entry (Toy.args false false) 1 Toy.laser_entry (new_stats 1)
                  Toy.s_avifenc_fails = (Ok st', s')
    /\ @is_file Toy.platform "/out/png/tech_icons/laser_1.png" (world s') = Ok true
    /\ failed st' = 1 /\ skipped st' = 0 /\ converted st' = 0.
Proof.
  destruct (@stage_two_failure_keeps_png Toy.platform (Toy.args false false) 1
              Toy.laser_entry [] (new_stats 1) Toy.s_avifenc_fails
              (snd (@dds_to_png Toy.platform (src_dds Toy.laser_entry)
                      (dst_png Toy.laser_entry) Toy.s_avifenc_fails))
              (snd (@png_to_avif Toy.platform (dst_png Toy.laser_entry)
                      (dst_avif Toy.laser_entry) true 0
                      (snd (@dds_to_png Toy.platform (src_dds Toy.laser_entry)
                              (dst_png Toy.laser_entry) Toy.s_avifenc_fails)))))
    as (st' & s' & E & _ & Hpng & _ & Hf & Hs & Hc & _);
    try (vm_compute; reflexivity).
  exists st', s'. split; [exact E | ]. split; [ | auto].
  refine (eq_trans Hpng _). vm_compute. reflexivity.
Defined.

(** C2, as amended. A crop that returns leaves the four counters, the
    source byte total and the warnings alone.  When cropping fails, or when
    the stage-two conversion of the crop fails, an error message is appended
    to the error list as in the main pass, and the failed counter is not
    incremented.  When cropping succeeds the size of the cropped PNG is
    added to the PNG byte total, and when stage two is enabled and succeeds
    the size of the AVIF is added to the AVIF byte total, as in the main
    pass, and the converted counter is not incremented. *)
Theorem crop_pass_accounting {P : Platform} (args : Args) (cb : Path)
    (nm : string) (region : Z * Z * Z * Z) (st st' : Stats) (s s' : State) :
  process_crop args cb (nm, region) st s = (Ok st', s') ->
  let crop_png := output_dir args // "png" // "sprites" // (nm ++ ".png") in
  let crop_avif := output_dir args // "avif" // "sprites" // (nm ++ ".avif") in
  (total st' = total st /\ converted st' = converted st
   /\ skipped st' = skipped st /\ failed st' = failed st
   /\ dds_bytes st' = dds_bytes st /\ warnings st' = warnings st)
  /\ match crop_sprite cb region crop_png s with
     | (Ok false, _) => st' = append_error st ("sprites/" ++ nm ++ ": crop failed")
     | (Ok true, s1) =>
         let st1 := add_png_bytes st (size_in crop_png (world s1)) in
         if no_avif args then st' = st1
         else
           match png_to_avif crop_png crop_avif true (jobs args) s1 with
           | (Ok false, _) =>
               st' = append_error st1 ("sprites/" ++ nm ++ ": PNG→AVIF failed")
           | (Ok true, s2) => st' = add_avif_bytes st1 (size_in crop_avif (world s2))
           | (Raise _, _) => False
           end
     | (Raise _, _) => False
     end.
Proof.
  intros H crop_png crop_avif.
  pose proof (process_crop_outcome args cb nm region st s) as Ho.
  rewrite H in Ho. cbn [fst snd] in Ho.
  fold (crop_png_path args nm) in crop_png.
  fold (crop_avif_path args nm) in crop_avif.
  subst crop_png crop_avif.
  inversion Ho as [ | s1 lg E1 | s1 lg E1 Eno | | s1 s2 lg E1 Eno E2
                    | s1 s2 lg E1 Eno E2 ]; subst; clear Ho;
    rewrite E1; cbn -[crop_png_path crop_avif_path];
    rewrite ?Eno, ?E2; repeat split; reflexivity.
Qed.

Lemma crop_pass_accounting_witness :
  exists st' s',
    @process_crop Toy.platform (Toy.args false false) Toy.checkbox_png
      ("checkbox_normal", (11, 11, 26, 26)) (new_stats 21) Toy.s_sheet_ready
    = (Ok st', s')
    /\ failed st' = 0 /\ converted st' = 0.
Proof.
  exists (fst (fst (Toy.crop_run))), (snd Toy.crop_run).
  split; [vm_compute; reflexivity | ].
  destruct (@crop_pass_accounting Toy.platform (Toy.args false false)
              Toy.checkbox_png "checkbox_normal" (11, 11, 26, 26) (new_stats 21)
              (fst (fst Toy.crop_run)) Toy.s_sheet_ready (snd Toy.crop_run))
    as ((_ & Hc & _ & Hf & _) & _).
  - vm_compute. reflexivity.
  - split; [exact Hf | exact Hc].
Defined.

(** C2, refuted as stated. The crop of [checkbox_normal] fails, an error
    message is recorded, and the failed counter is still 0, not 1. *)
Lemma crop_failure_not_counted :
  fst (@crop_sprite Toy.platform Toy.checkbox_png (11, 11, 26, 26)
         "/out/png/sprites/checkbox_normal.png" Toy.s_sheet_ready) = Ok false
  /\ exists st' s',
       @process_crop Toy.platform (Toy.args false false) Toy.checkbox_png
         ("checkbox_normal", (11, 11, 26, 26)) (new_stats 21) Toy.s_sheet_ready
       = (Ok st', s')
       /\ errors st' = ["sprites/checkbox_normal: crop failed"]
       /\ failed st' = 0
       /\ failed st' <> failed (new_stats 21) + 1.
Proof.
  split; [vm_compute; reflexivity | ].
  do 2 eexists. split; [vm_compute; reflexivity | ].
  cbn. repeat split. discriminate.
Qed.

(** C10. Each iteration of the main loop that returns leaves the total alone
    and raises exactly one of the skipped, failed and converted counters by
    one; so after the main pass the total is the length of the manifest and
    skipped + failed + converted equals it; the pass returns unless the
    platform stops it, by an exception from the check of a source file or
    from the creation of a destination directory.  The sprite-crop pass
    changes none of the total, skipped, failed and converted counters. *)
Theorem counters_partition_manifest {P : Platform} (args : Args) :
  (forall i e st s st' s',
      process_entry args i e st s = (Ok st', s') ->
      total st' = total st /\ one_counted st st')
  /\ (forall manifest s st' s',
         process_assets args 1 manifest (new_stats (len manifest)) s = (Ok st', s') ->
         total st' = len manifest
         /\ skipped st' + failed st' + converted st' = total st')
  /\ (forall manifest s,
         (exists st' s',
            process_assets args 1 manifest (new_stats (len manifest)) s = (Ok st', s'))
         \/ (exists x s',
               process_assets args 1 manifest (new_stats (len manifest)) s
               = (Raise x, s')
               /\ refused x s'))
  /\ (forall st s st' s',
         process_crops args st s = (Ok st', s') ->
         total st' = total st /\ skipped st' = skipped st
         /\ failed st' = failed st /\ converted st' = converted st).
Proof.
  repeat split.
  - pose proof (process_entry_outcome args i e st s) as Ho.
    rewrite H in Ho. now apply entry_outcome_ok in Ho.
  - pose proof (process_entry_outcome args i e st s) as Ho.
    rewrite H in Ho. now apply entry_outcome_ok in Ho.
  - apply process_assets_ok in H as (Ht & _). exact Ht.
  - apply process_assets_ok in H as (Ht & Hp & _).
    unfold processed in Hp. cbn in Hp. rewrite Ht. cbn. lia.
  - intros manifest s.
    destruct (process_assets args 1 manifest (new_stats (len manifest)) s)
      as [[st' | x] s'] eqn:E.
    + left. eauto.
    + right. exists x, s'. split; [reflexivity | ].
      exact (process_assets_refused args manifest _ _ _ _ _ E).
  - apply process_crops_ok in H. unfold same_counters in H. tauto.
  - apply process_crops_ok in H. unfold same_counters in H. tauto.
  - apply process_crops_ok in H. unfold same_counters in H. tauto.
  - apply process_crops_ok in H. unfold same_counters in H. tauto.
Qed.

Lemma counters_partition_manifest_witness :
  total (fst Toy.main_pass_run) = 24
  /\ skipped (fst Toy.main_pass_run) + failed (fst Toy.main_pass_run)
     + converted (fst Toy.main_pass_run) = total (fst Toy.main_pass_run).
Proof.
  apply (proj1 (proj2 (@counters_partition_manifest Toy.platform
                         (Toy.args false false)))
               Toy.ex_manifest Toy.s_avifenc_fails
               (fst Toy.main_pass_run) (snd Toy.main_pass_run)).
  vm_compute. reflexivity.
Defined.

(* ================================================================== *)
(** * Exit status                                                      *)
(* ================================================================== *)

(** C1, as amended. Take a run that is past validation, manifest building
    and the dry-run test.  If [main] returns, it has created the output
    directories, completed the main pass and the crop pass, and the code it
    returns is 1 when at least one tool invocation of the main pass failed,
    that is when the stage-one or stage-two conversion of at least one
    manifest asset failed, and 0 otherwise: the failed counter is the
    number of those failed invocations and the crop pass does not change
    it, so neither skipped assets, nor warnings, nor failed crops bear on
    the code.  If [main] does not return, the platform has stopped the run,
    by an exception from a file check or from a directory creation, and
    the process status is 1. *)
Theorem exit_status_counts_manifest_failures {P : Platform} (args : Args)
    (s : State) (manifest : list AssetEntry) (r : result Z) (s' : State) :
  validated args (world s) = Ok true ->
  fst (build_asset_manifest (stellaris_path args) (data_dir args)
         (output_dir args) s) = Ok manifest ->
  dry_run args = false ->
  main args s = (r, s') ->
  match r with
  | Ok code =>
      exists lg s0 st1 s1 evs st2 s2,
        create_output_dirs args SUBDIRS (logged s lg) = (Ok tt, s0)
        /\ process_assets args 1 manifest (new_stats (len manifest)) s0 = (Ok st1, s1)
        /\ trace s1 = (trace s0 ++ evs)%list
        /\ failed st1 = failed_runs evs
        /\ process_crops args st1 s1 = (Ok st2, s2)
        /\ failed st2 = failed st1
        /\ code = (if 0 <? failed_runs evs then 1 else 0)
  | Raise x => refused x s' /\ exit_status r = 1
  end.
Proof.
  intros Hv Hm Hdry Hrun. rewrite build_asset_manifest_fst in Hm.
  destruct (main_builds args s Hv) as (lg & E). rewrite Hm, Hdry in E.
  rewrite E in Hrun. clear E.
  destruct r as [code | x].
  - unfold convert_all in Hrun. rewrite bind_eq in Hrun.
    destruct (create_output_dirs args SUBDIRS (logged s lg)) as [[[] | y] s0] eqn:E0;
      [ | discriminate].
    rewrite bind_eq in Hrun.
    destruct (process_assets args 1 manifest (new_stats (len manifest)) s0)
      as [[st1 | y] s1] eqn:E1; [ | discriminate].
    rewrite bind_eq in Hrun.
    destruct (process_crops args st1 s1) as [[st2 | y] s2] eqn:E2; [ | discriminate].
    destruct (process_assets_ok args manifest _ _ _ _ _ E1)
      as (_ & _ & evs & Htr & Hf).
    pose proof (process_crops_ok args _ _ _ _ E2) as (_ & _ & _ & Hf2).
    destruct (log_summary_logs_only args st2 s2) as (lg' & E3).
    rewrite bind_eq, E3 in Hrun. cbn [ret] in Hrun. injection Hrun as <- _.
    exists lg, s0, st1, s1, evs, st2, s2.
    cbn in Hf.
    repeat split; try assumption.
    unfold exit_code. now rewrite Hf2, Hf.
  - split; [ | reflexivity].
    exact (convert_all_refused args manifest _ _ _ Hrun).
Qed.

Lemma exit_status_counts_manifest_failures_witness :
  exists (s0 s1 : @State Toy.platform) (st1 : Stats) (evs : list (@event Toy.platform)),
    process_assets (Toy.args false false) 1 Toy.ex_manifest (new_stats 24) s0
    = (Ok st1, s1)
    /\ trace s1 = (trace s0 ++ evs)%list
    /\ failed st1 = failed_runs evs
    /\ 0 < failed_runs evs
    /\ fst (main (Toy.args false false) Toy.s_avifenc_fails) = Ok 1.
Proof.
  assert (Hrun : main (Toy.args false false) Toy.s_avifenc_fails
                 = (Ok 1, snd (main (Toy.args false false) Toy.s_avifenc_fails))).
  { rewrite (surjective_pairing (main (Toy.args false false) Toy.s_avifenc_fails))
      at 1.
    apply (f_equal2 pair); [vm_compute; reflexivity | reflexivity]. }
  destruct (@exit_status_counts_manifest_failures Toy.platform
              (Toy.args false false) Toy.s_avifenc_fails Toy.ex_manifest
              (Ok 1) (snd (main (Toy.args false false) Toy.s_avifenc_fails)))
    as (lg & s0 & st1 & s1 & evs & st2 & s2 & _ & E1 & Ht & Hf & _ & _ & Hc);
    [vm_compute; reflexivity | vm_compute; reflexivity | reflexivity | exact Hrun | ].
  exists s0, s1, st1, evs.
  split; [exact E1 | ]. split; [exact Ht | ]. split; [exact Hf | ].
  split; [ | vm_compute; reflexivity].
  destruct (0 <? failed_runs evs) eqn:L; [now apply Z.ltb_lt | discriminate].
Defined.

(** C1, refuted as stated. All three sprite crops fail (ImageMagick exits
    with code 1 on each), no manifest asset fails, and the run exits with
    status 0. *)
Lemma failed_crops_exit_zero :
  exit_status (fst (main (Toy.args false false) Toy.s_crop_fails)) = 0
  /\ In (@EvRun Toy.platform
           ["magick"; "/out/png/sprites/button_24_24_checkbox.png"; "-crop";
            "26x26+11+11"; "+repage"; "/out/png/sprites/checkbox_normal.png"]
           30 (Completed 1 "bad geometry"))
        (trace (snd (main (Toy.args false false) Toy.s_crop_fails)))
  /\ failed_runs (trace (snd (main (Toy.args false false) Toy.s_crop_fails))) = 3.
Proof.
  split; [vm_compute; reflexivity | split; [ | vm_compute; reflexivity]].
  vm_compute. do 21 right. left. reflexivity.
Qed.

(* ================================================================== *)
(** * Further properties of the builder                                *)
(* ================================================================== *)

Lemma py_eqb_sym (a b : pyval) : py_eqb a b = py_eqb b a.
Proof.
  destruct a as [ | x | x | x], b as [ | y | y | y]; cbn; try reflexivity;
    try apply Z.eqb_sym; apply String.eqb_sym.
Qed.

Lemma set_mem_app (x : pyval) (l l' : list pyval) :
  set_mem x (l ++ l') = set_mem x l || set_mem x l'.
Proof. unfold set_mem. apply existsb_app. Qed.

Lemma set_mem_perm (x : pyval) (l l' : list pyval) :
  Permutation l l' -> set_mem x l = set_mem x l'.
Proof.
  unfold set_mem. intros H. induction H; cbn.
  - reflexivity.
  - now rewrite IHPermutation.
  - destruct (py_eqb x y), (py_eqb x x0); reflexivity.
  - congruence.
Qed.

Lemma set_add_distinct (h : pyval) (s : list pyval) :
  py_distinct s -> py_distinct (set_add h s).
Proof.
  unfold set_add. destruct (set_mem h s) eqn:E; [auto | ].
  induction s as [ | x s IH]; intros H.
  - cbn. auto.
  - cbn in E. apply orb_false_elim in E as (Ex & Es).
    destruct H as (Hx & Hs). cbn [app py_distinct]. split.
    + rewrite set_mem_app, Hx. cbn. rewrite py_eqb_sym, Ex. reflexivity.
    + now apply IH.
Qed.

Lemma set_mem_filter (x : pyval) (f : pyval -> bool) (l : list pyval) :
  set_mem x l = false -> set_mem x (filter f l) = false.
Proof.
  induction l as [ | y l IH]; cbn; [auto | ].
  intros H. apply orb_false_elim in H as (Hy & Hl).
  destruct (f y); cbn; [rewrite Hy | ]; now apply IH.
Qed.

Lemma filter_distinct (f : pyval -> bool) (l : list pyval) :
  py_distinct l -> py_distinct (filter f l).
Proof.
  induction l as [ | y l IH]; cbn; [auto | ].
  intros (Hy & Hl). destruct (f y); cbn; [ | now apply IH].
  split; [now apply set_mem_filter | now apply IH].
Qed.

Lemma ltb_lt (s t : string) : String.ltb s t = true <-> String_as_OT.lt s t.
Proof.
  unfold String.ltb. rewrite <- String_as_OT.cmp_lt.
  change String_as_OT.cmp with String.compare.
  destruct (String.compare s t); split; intros H; congruence.
Qed.

Lemma py_less_cases (a b : pyval) :
  py_less a b <->
  (exists s t, a = VStr s /\ b = VStr t /\ String.ltb s t = true)
  \/ (exists x y, py_num a = Some x /\ py_num b = Some y /\ x < y).
Proof.
  unfold py_less. split.
  - destruct a as [ | x | x | x], b as [ | y | y | y]; cbn; intros H;
      try discriminate; injection H as H;
      try (right; do 2 eexists; split; [reflexivity | split; [reflexivity | ]];
           now apply Z.ltb_lt).
    left. now exists x, y.
  - intros [(s & t & -> & -> & H) | (x & y & Hx & Hy & H)].
    + cbn. now rewrite H.
    + apply Z.ltb_lt in H.
      destruct a as [ | u | u | u], b as [ | v | v | v]; cbn in *;
        try discriminate; injection Hx as <-; injection Hy as <-; now rewrite H.
Qed.

Lemma py_less_trans (a b c : pyval) : py_less a b -> py_less b c -> py_less a c.
Proof.
  rewrite !py_less_cases.
  intros [(s & t & -> & -> & H1) | (x & y & Hx & Hy & H1)]
         [(t' & u & Et & -> & H2) | (y' & z & Hy' & Hz & H2)].
  - injection Et as <-. left. exists s, u. repeat split.
    apply ltb_lt. apply ltb_lt in H1. apply ltb_lt in H2.
    exact (String_as_OT.lt_trans _ _ _ H1 H2).
  - discriminate.
  - subst b. discriminate.
  - right. exists x, z. rewrite Hy in Hy'. injection Hy' as <-.
    repeat split; try assumption. lia.
Qed.

Lemma py_lt_total (a b : pyval) :
  py_lt a b = Ok false -> py_eqb a b = false -> py_less b a.
Proof.
  unfold py_less.
  destruct a as [ | x | x | x], b as [ | y | y | y]; cbn; intros H E;
    try discriminate; injection H as H;
    try (f_equal; apply Z.ltb_lt; apply Z.ltb_ge in H; apply Z.eqb_neq in E; lia).
  f_equal. apply ltb_lt. apply String_as_OT.cmp_lt.
  change String_as_OT.cmp with String.compare.
  rewrite String.compare_antisym. unfold String.ltb in H.
  destruct (String.compare x y) eqn:C; cbn; try discriminate; [ | reflexivity].
  apply String.compare_eq_iff in C. subst. rewrite String.eqb_refl in E. discriminate.
Qed.

Lemma py_insert_sorted (x : pyval) (l r : list pyval) :
  StronglySorted py_less l -> set_mem x l = false ->
  py_insert x l = Ok r -> StronglySorted py_less r.
Proof.
  revert r. induction l as [ | y l IH]; cbn; intros r Hs Hm H.
  - injection H as <-. repeat constructor.
  - apply orb_false_elim in Hm as (Exy & Hm).
    apply StronglySorted_inv in Hs as (Hs & Hy).
    destruct (py_lt x y) as [[ | ] | e] eqn:L; cbn in H; try discriminate.
    + injection H as <-. constructor; [now constructor | ].
      constructor; [exact L | ].
      apply Forall_forall. intros z Hz. rewrite Forall_forall in Hy.
      exact (py_less_trans _ _ _ L (Hy z Hz)).
    + destruct (py_insert x l) as [r' | e] eqn:E; cbn in H; try discriminate.
      injection H as <-. constructor; [now apply IH | ].
      apply py_insert_perm in E.
      apply Forall_forall. intros z Hz.
      apply (Permutation_in _ (Permutation_sym E)) in Hz as [<- | Hz].
      * now apply py_lt_total.
      * rewrite Forall_forall in Hy. now apply Hy.
Qed.

Lemma py_sorted_sorted (l r : list pyval) :
  py_distinct l -> py_sorted l = Ok r -> StronglySorted py_less r.
Proof.
  revert r. induction l as [ | x l IH]; cbn; intros r Hd H.
  - injection H as <-. constructor.
  - destruct Hd as (Hx & Hd).
    destruct (py_sorted l) as [r' | e] eqn:E; cbn in H; try discriminate.
    apply (py_insert_sorted x r'); [now apply IH | | exact H].
    rewrite <- (set_mem_perm x _ _ (py_sorted_perm _ _ E)). exact Hx.
Qed.

Lemma icon_set_distinct (ts : list json) (acc s : list pyval) :
  icon_set ts acc = Ok s -> py_distinct acc -> py_distinct s.
Proof.
  revert acc. induction ts as [ | t ts IH]; cbn; intros acc H Hacc.
  - now injection H as <-.
  - destruct (py_getitem t "icon") as [v | e]; cbn in H; try discriminate.
    destruct (py_hashable v) as [h | e]; cbn in H; try discriminate.
    apply (IH _ H). now apply set_add_distinct.
Qed.

Lemma swap_names_of_distinct (l : list json) (acc s : list pyval) :
  swap_names_of l acc = Ok s -> py_distinct acc -> py_distinct s.
Proof.
  revert acc. induction l as [ | swap l IH]; cbn; intros acc H Hacc.
  - now injection H as <-.
  - destruct (py_contains "name" swap) as [[ | ] | e]; cbn in H; try discriminate.
    + destruct (py_getitem swap "name") as [v | e]; cbn in H; try discriminate.
      destruct (py_hashable v) as [h | e]; cbn in H; try discriminate.
      apply (IH _ H). now apply set_add_distinct.
    + now apply (IH _ H).
Qed.

Lemma swap_name_set_distinct (lists : list json) (acc s : list pyval) :
  swap_name_set lists acc = Ok s -> py_distinct acc -> py_distinct s.
Proof.
  revert acc. induction lists as [ | sl lists IH]; cbn; intros acc H Hacc.
  - now injection H as <-.
  - destruct (py_iter sl) as [items | e]; cbn in H; try discriminate.
    destruct (swap_names_of items acc) as [acc' | e] eqn:E; cbn in H; try discriminate.
    apply (IH _ H). now apply (swap_names_of_distinct _ _ _ E).
Qed.

Lemma tech_icon_names_sorted (techs : json) (ti : list pyval) :
  tech_icon_names techs = Ok ti -> StronglySorted py_less ti.
Proof.
  unfold tech_icon_names. intros H.
  destruct (py_values techs) as [ts | e]; cbn in H; try discriminate.
  destruct (icon_set ts []) as [s | e] eqn:Es; cbn in H; try discriminate.
  apply (py_sorted_sorted s); [ | exact H].
  now apply (icon_set_distinct _ _ _ Es).
Qed.

Lemma swap_icon_names_sorted (swaps : json) (ti si : list pyval) :
  swap_icon_names swaps ti = Ok si -> StronglySorted py_less si.
Proof.
  unfold swap_icon_names. intros H.
  destruct (py_values swaps) as [ls | e]; cbn in H; try discriminate.
  destruct (swap_name_set ls []) as [s | e] eqn:Es; cbn in H; try discriminate.
  apply (py_sorted_sorted (set_diff s ti)); [ | exact H].
  apply filter_distinct. now apply (swap_name_set_distinct _ _ _ Es).
Qed.

Lemma names_in_tech {P : Platform} (st pb ab : Path) (ti si : list pyval) :
  names_in "tech_icons" (assemble st pb ab ti si) = ti.
Proof.
  unfold names_in. rewrite by_category_tech, map_map. cbn. apply map_id.
Qed.

Lemma names_in_swap {P : Platform} (st pb ab : Path) (ti si : list pyval) :
  names_in "swap_icons" (assemble st pb ab ti si) = si.
Proof.
  unfold names_in. rewrite by_category_swap, map_map. cbn. apply map_id.
Qed.

(** X1. In a built manifest the technology icon names, when they are all
    strings, are strictly ascending in the order of [str] (each name is less
    than every name after it), and so are the swap icon names when they are
    all strings. *)
Theorem icon_names_sorted {P : Platform} (stellaris data output : Path)
    (s : State) (manifest : list AssetEntry) (cat : string) :
  fst (build_asset_manifest stellaris data output s) = Ok manifest ->
  cat = "tech_icons" \/ cat = "swap_icons" ->
  all_str (names_in cat manifest) ->
  StronglySorted py_less (names_in cat manifest).
Proof.
  rewrite build_asset_manifest_fst. intros H Hcat _.
  apply manifest_of_inv in H as (techs & ti & swaps & si & _ & Hti & _ & Hsi & ->).
  destruct Hcat as [-> | ->].
  - rewrite names_in_tech. now apply (tech_icon_names_sorted techs).
  - rewrite names_in_swap. now apply (swap_icon_names_sorted swaps ti).
Qed.

Lemma icon_names_sorted_witness :
  StronglySorted py_less [VStr "armor_1"; VStr "laser_1"].
Proof.
  apply (@icon_names_sorted Toy.platform "/game" "/data" "/out"
           (Toy.start (Toy.install ex_techs ex_swaps Toy.always_ok))
           Toy.ex_manifest "tech_icons").
  - vm_compute. reflexivity.
  - left. reflexivity.
  - intros v Hv. vm_compute in Hv.
    destruct Hv as [<- | [<- | []]]; eexists; reflexivity.
Defined.

Lemma py_less_irrefl (a : pyval) : ~ py_less a a.
Proof.
  rewrite py_less_cases.
  intros [(s & t & -> & E & H) | (x & y & Hx & Hy & H)].
  - injection E as <-. apply ltb_lt in H.
    exact (String_as_OT.lt_not_eq _ _ H eq_refl).
  - rewrite Hx in Hy. injection Hy as <-. lia.
Qed.

Lemma sorted_NoDup (l : list pyval) : StronglySorted py_less l -> NoDup l.
Proof.
  induction 1 as [ | x l Hs IH Hx]; constructor; [ | exact IH].
  intros Hin. rewrite Forall_forall in Hx.
  exact (py_less_irrefl x (Hx x Hin)).
Qed.

Lemma fixed_keys_NoDup {P : Platform} (st pb ab : Path) :
  NoDup (map entry_key (fixed_entries st pb ab)).
Proof.
  unfold fixed_entries. rewrite !map_app, !map_map. cbn.
  repeat (constructor; [cbn; intuition discriminate | ]). constructor.
Qed.

Lemma fixed_keys_category {P : Platform} (st pb ab : Path) (e : AssetEntry) :
  In e (fixed_entries st pb ab) ->
  category e <> "tech_icons" /\ category e <> "swap_icons".
Proof.
  intros He. unfold fixed_entries in He. rewrite !in_app_iff in He.
  destruct He as [He | [He | [He | He]]];
    apply in_map_iff in He as (x & <- & _); try destruct x;
    cbn; split; discriminate.
Qed.

(** X2. In a built manifest no two descriptors share both category and
    name. *)
Theorem manifest_keys_unique {P : Platform} (stellaris data output : Path)
    (s : State) (manifest : list AssetEntry) :
  fst (build_asset_manifest stellaris data output s) = Ok manifest ->
  NoDup (map entry_key manifest).
Proof.
  rewrite build_asset_manifest_fst. intros H.
  apply manifest_of_inv in H as (techs & ti & swaps & si & _ & Hti & _ & Hsi & ->).
  apply tech_icon_names_sorted, sorted_NoDup in Hti.
  apply swap_icon_names_sorted, sorted_NoDup in Hsi.
  unfold assemble. rewrite !map_app, !map_map.
  apply NoDup_app; [ | apply NoDup_app | ].
  - apply Injective_map_NoDup; [ | exact Hti]. intros x y E. now injection E.
  - apply Injective_map_NoDup; [ | exact Hsi]. intros x y E. now injection E.
  - rewrite <- map_map. apply fixed_keys_NoDup.
  - intros k Hk Hk'. apply in_map_iff in Hk as (v & <- & _).
    apply in_map_iff in Hk' as (e & E & He).
    apply fixed_keys_category in He as (_ & He). apply He.
    unfold entry_key in E. cbn in E. now injection E.
  - intros k Hk Hk'. apply in_map_iff in Hk as (v & <- & _).
    apply in_app_or in Hk' as [Hk' | Hk'].
    + apply in_map_iff in Hk' as (v' & E & _). discriminate.
    + apply in_map_iff in Hk' as (e & E & He).
      apply fixed_keys_category in He as (He & _). apply He.
      unfold entry_key in E. cbn in E. now injection E.
Qed.

Lemma manifest_keys_unique_witness : NoDup (map entry_key Toy.ex_manifest).
Proof.
  apply (@manifest_keys_unique Toy.platform "/game" "/data" "/out"
           (Toy.start (Toy.install ex_techs ex_swaps Toy.always_ok))).
  vm_compute. reflexivity.
Defined.

(** X3. Every descriptor of a built manifest has a category that is one of
    the output subdirectories, and its two destinations are derived from
    category and name alone: <output>/png/<category>/<name>.png and
    <output>/avif/<category>/<name>.avif. *)
Theorem destinations_derived_from_key {P : Platform} (stellaris data output : Path)
    (s : State) (manifest : list AssetEntry) :
  fst (build_asset_manifest stellaris data output s) = Ok manifest ->
  forall e, In e manifest ->
    In (category e) SUBDIRS
    /\ dst_png e = output // "png" // category e // (py_str (name e) ++ ".png")
    /\ dst_avif e = output // "avif" // category e // (py_str (name e) ++ ".avif").
Proof.
  rewrite build_asset_manifest_fst. intros H e He.
  apply manifest_of_inv in H as (techs & ti & swaps & si & _ & _ & _ & _ & ->).
  unfold assemble, fixed_entries in He. rewrite !in_app_iff in He.
  destruct He as [He | [He | [He | [He | [He | He]]]]];
    apply in_map_iff in He as (x & <- & _); try destruct x;
    cbn; repeat split; auto 10.
Qed.

Lemma destinations_derived_from_key_witness :
  In (category Toy.laser_entry) SUBDIRS
  /\ dst_png Toy.laser_entry = "/out/png/tech_icons/laser_1.png"
  /\ dst_avif Toy.laser_entry = "/out/avif/tech_icons/laser_1.avif".
Proof.
  apply (@destinations_derived_from_key Toy.platform "/game" "/data" "/out"
           (Toy.start (Toy.install ex_techs ex_swaps Toy.always_ok))
           Toy.ex_manifest).
  - vm_compute. reflexivity.
  - vm_compute. right. left. reflexivity.
Defined.

Lemma by_category_fixed {P : Platform} (st pb ab : Path) (ti si : list pyval)
    (cat : string) :
  cat <> "tech_icons" -> cat <> "swap_icons" ->
  by_category (assemble st pb ab ti si) cat
  = by_category (fixed_entries st pb ab) cat.
Proof.
  intros H1 H2. unfold by_category, assemble. rewrite !filter_app.
  rewrite (filter_map_const _ _ false), (filter_map_const _ _ false); [reflexivity | | ].
  - intros x. change (String.eqb "swap_icons" cat = false).
    apply String.eqb_neq. congruence.
  - intros x. change (String.eqb "tech_icons" cat = false).
    apply String.eqb_neq. congruence.
Qed.

(** X4. A built manifest is grouped by category in the order of the output
    subdirectories: listing it category by category, as the dry run does,
    gives back the manifest itself, every descriptor once; and it has 21
    descriptors besides the technology and swap icons. *)
Theorem manifest_grouped_by_category {P : Platform} (stellaris data output : Path)
    (s : State) (manifest : list AssetEntry) :
  fst (build_asset_manifest stellaris data output s) = Ok manifest ->
  concat (map (by_category manifest) SUBDIRS) = manifest
  /\ len manifest = len (by_category manifest "tech_icons")
                    + len (by_category manifest "swap_icons") + 21.
Proof.
  rewrite build_asset_manifest_fst. intros H.
  apply manifest_of_inv in H as (techs & ti & swaps & si & _ & _ & _ & _ & ->).
  split.
  - unfold SUBDIRS. cbn [map concat].
    rewrite by_category_tech, by_category_swap.
    rewrite !by_category_fixed by discriminate.
    unfold assemble. do 2 f_equal.
  - rewrite by_category_tech, by_category_swap.
    unfold assemble, len. rewrite !length_app, !length_map. cbn. lia.
Qed.

Lemma manifest_grouped_by_category_witness :
  concat (map (by_category Toy.ex_manifest) SUBDIRS) = Toy.ex_manifest
  /\ len Toy.ex_manifest = len (by_category Toy.ex_manifest "tech_icons")
                           + len (by_category Toy.ex_manifest "swap_icons") + 21.
Proof.
  apply (@manifest_grouped_by_category Toy.platform "/game" "/data" "/out"
           (Toy.start (Toy.install ex_techs ex_swaps Toy.always_ok))).
  vm_compute. reflexivity.
Defined.

(** X5. The builder creates no directory and runs no tool, whatever it
    returns or raises: world and trace stay as they were; and what it
    returns or raises depends on the world alone, not on the log or the
    trace so far. *)
Theorem builder_only_reads {P : Platform} (stellaris data output : Path)
    (s : State) :
  world (snd (build_asset_manifest stellaris data output s)) = world s
  /\ trace (snd (build_asset_manifest stellaris data output s)) = trace s
  /\ forall s', world s' = world s ->
       fst (build_asset_manifest stellaris data output s')
       = fst (build_asset_manifest stellaris data output s).
Proof.
  split; [ | split].
  - destruct (build_asset_manifest_run stellaris data output s) as (lg & ->).
    reflexivity.
  - destruct (build_asset_manifest_run stellaris data output s) as (lg & ->).
    reflexivity.
  - intros s' Hw. rewrite !build_asset_manifest_fst. now rewrite Hw.
Qed.

Lemma icon_set_raises (ts : list json) (acc : list pyval) (e : exn) :
  icon_set ts acc = Raise e -> e = KeyError \/ e = TypeError.
Proof.
  revert acc. induction ts as [ | t ts IH]; cbn; intros acc H; [discriminate | ].
  destruct (py_getitem t "icon") as [v | x] eqn:Eg; cbn in H.
  - destruct (py_hashable v) as [h | x] eqn:Eh; cbn in H.
    + now apply (IH _ H).
    + injection H as <-. destruct v; cbn in Eh; try discriminate;
        injection Eh as <-; auto.
  - injection H as <-. unfold py_getitem in Eg.
    destruct t as [ | | | | | rec]; try (injection Eg as <-; auto).
    destruct (dict_get "icon" rec); [discriminate | injection Eg as <-; auto].
Qed.

Lemma icon_set_bad (ts : list json) (acc : list pyval) (t : json) :
  In t ts -> has_icon t = false -> exists e, icon_set ts acc = Raise e.
Proof.
  revert acc. induction ts as [ | t' ts IH]; intros acc Hin Hbad;
    [destruct Hin | ].
  destruct Hin as [<- | Hin]; cbn.
  - unfold has_icon in Hbad.
    destruct (py_getitem t' "icon") as [v | x]; cbn; [ | eauto].
    destruct (py_hashable v) as [h | x]; cbn; [discriminate | eauto].
  - destruct (py_getitem t' "icon") as [v | x]; cbn; [ | eauto].
    destruct (py_hashable v) as [h | x]; cbn; [ | eauto].
    now apply IH.
Qed.

(** X6. If some value of the technology mapping is not a record, has no
    ["icon"] entry, or has a list or mapping as icon, the builder raises
    [KeyError] or [TypeError], wherever in the mapping that value stands. *)
Theorem bad_technology_record_raises {P : Platform} (stellaris data output : Path)
    (s : State) (items : list (string * json)) (k : string) (t : json) :
  load_json (data // "technologies.json") (world s) = Ok (JDict items) ->
  In (k, t) items ->
  has_icon t = false ->
  exists e, fst (build_asset_manifest stellaris data output s) = Raise e
            /\ (e = KeyError \/ e = TypeError).
Proof.
  intros Hl Hin Hbad. rewrite build_asset_manifest_fst. unfold manifest_of.
  rewrite Hl. cbn.
  destruct (icon_set_bad (map snd items) [] t) as (e & He); [ | exact Hbad | ].
  { apply in_map_iff. now exists (k, t). }
  unfold tech_icon_names. cbn. rewrite He. cbn.
  exists e. split; [reflexivity | now apply (icon_set_raises _ _ _ He)].
Qed.

Lemma bad_technology_record_raises_witness :
  exists e,
    fst (@build_asset_manifest Toy.platform "/game" "/data" "/out"
           (Toy.start (Toy.install Toy.iconless_techs ex_swaps Toy.always_ok)))
    = Raise e
    /\ (e = KeyError \/ e = TypeError).
Proof.
  apply (@bad_technology_record_raises Toy.platform "/game" "/data" "/out"
           (Toy.start (Toy.install Toy.iconless_techs ex_swaps Toy.always_ok))
           [ ("tech_lasers", JDict [("icon", JStr "laser_1")]);
             ("tech_armor", JDict [("area", JStr "engineering")]) ]
           "tech_armor" (JDict [("area", JStr "engineering")])).
  - reflexivity.
  - right. left. reflexivity.
  - reflexivity.
Defined.

(** Where the members of the icon sets come from. *)

Lemma icon_set_from (ts : list json) (acc s : list pyval) (v : pyval) :
  icon_set ts acc = Ok s -> In v s ->
  In v acc
  \/ exists t j, In t ts /\ py_getitem t "icon" = Ok j /\ py_hashable j = Ok v.
Proof.
  revert acc. induction ts as [ | t ts IH]; cbn; intros acc H Hv.
  - injection H as <-. now left.
  - destruct (py_getitem t "icon") as [j | e] eqn:Ej; cbn in H; try discriminate.
    destruct (py_hashable j) as [h | e] eqn:Eh; cbn in H; try discriminate.
    destruct (IH _ H Hv) as [Hacc | (t' & j' & Ht' & Hj' & Hh')].
    + apply set_add_In in Hacc as [Hacc | ->]; [now left | ].
      right. exists t, j. auto.
    + right. exists t', j'. auto.
Qed.

Lemma hashable_str (j : json) (n : string) :
  py_hashable j = Ok (VStr n) -> j = JStr n.
Proof. destruct j; cbn; intros H; try discriminate. now injection H as ->. Qed.

Lemma tech_icon_names_from (techs : json) (ti : list pyval) (n : string) :
  tech_icon_names techs = Ok ti -> In (VStr n) ti -> tech_icon_inb n techs = true.
Proof.
  unfold tech_icon_names. intros H Hin.
  destruct techs as [ | | | | | items]; cbn in H; try discriminate.
  destruct (icon_set (map snd items) []) as [s | e] eqn:Es; cbn in H; try discriminate.
  apply py_sorted_perm in H. apply (Permutation_in _ (Permutation_sym H)) in Hin.
  destruct (icon_set_from _ _ _ _ Es Hin) as [[] | (t & j & Ht & Hj & Hh)].
  apply hashable_str in Hh. subst j.
  apply in_map_iff in Ht as ((k & t') & <- & Hkt).
  cbn. apply existsb_exists. exists (k, t'). split; [exact Hkt | ].
  cbn in *. rewrite Hj. apply String.eqb_refl.
Qed.

Lemma swap_names_of_from (l : list json) (acc s : list pyval) (v : pyval) :
  swap_names_of l acc = Ok s -> In v s ->
  In v acc
  \/ exists swap j, In swap l /\ py_getitem swap "name" = Ok j
                    /\ py_hashable j = Ok v.
Proof.
  revert acc. induction l as [ | swap l IH]; cbn; intros acc H Hv.
  - injection H as <-. now left.
  - destruct (py_contains "name" swap) as [[ | ] | e]; cbn in H; try discriminate.
    + destruct (py_getitem swap "name") as [j | e] eqn:Ej; cbn in H; try discriminate.
      destruct (py_hashable j) as [h | e] eqn:Eh; cbn in H; try discriminate.
      destruct (IH _ H Hv) as [Hacc | (sw & j' & Hsw & Hj' & Hh')].
      * apply set_add_In in Hacc as [Hacc | ->]; [now left | ].
        right. exists swap, j. auto.
      * right. exists sw, j'. auto.
    + destruct (IH _ H Hv) as [Hacc | (sw & j' & Hsw & Hj' & Hh')]; [now left | ].
      right. exists sw, j'. auto.
Qed.

Lemma swap_names_of_has (l : list json) (acc s : list pyval) :
  swap_names_of l acc = Ok s ->
  (forall x, In x acc -> In x s)
  /\ (forall rec n, In (JDict rec) l -> dict_get "name" rec = Some (JStr n) ->
                    In (VStr n) s).
Proof.
  revert acc. induction l as [ | swap l IH]; cbn; intros acc H.
  - injection H as <-. split; [auto | intros rec n []].
  - destruct (py_contains "name" swap) as [[ | ] | e] eqn:Ec; cbn in H;
      try discriminate.
    + destruct (py_getitem swap "name") as [j | e] eqn:Ej; cbn in H; try discriminate.
      destruct (py_hashable j) as [h | e] eqn:Eh; cbn in H; try discriminate.
      destruct (IH _ H) as (Hkeep & Hhas). split.
      * intros x Hx. apply Hkeep. now apply set_add_keeps.
      * intros rec n [-> | Hin] Hn; [ | now apply (Hhas rec n)].
        cbn in Ej. rewrite Hn in Ej. injection Ej as <-.
        cbn in Eh. injection Eh as <-. apply Hkeep. apply set_add_str.
    + destruct (IH _ H) as (Hkeep & Hhas). split; [exact Hkeep | ].
      intros rec n [-> | Hin] Hn; [ | now apply (Hhas rec n)].
      cbn in Ec. injection Ec as Ec.
      rewrite (dict_get_absent _ _ Ec) in Hn. discriminate.
Qed.

Lemma swap_name_set_from (lists : list json) (acc s : list pyval) (v : pyval) :
  swap_name_set lists acc = Ok s -> In v s ->
  In v acc
  \/ exists sl items swap j,
       In sl lists /\ py_iter sl = Ok items /\ In swap items
       /\ py_getitem swap "name" = Ok j /\ py_hashable j = Ok v.
Proof.
  revert acc. induction lists as [ | sl lists IH]; cbn; intros acc H Hv.
  - injection H as <-. now left.
  - destruct (py_iter sl) as [items | e] eqn:Ei; cbn in H; try discriminate.
    destruct (swap_names_of items acc) as [acc' | e] eqn:Es; cbn in H;
      try discriminate.
    destruct (IH _ H Hv) as [Hacc | (sl' & it' & sw & j & H1 & H2 & H3 & H4 & H5)].
    + destruct (swap_names_of_from _ _ _ _ Es Hacc) as [Ha | (sw & j & H3 & H4 & H5)];
        [now left | ].
      right. exists sl, items, sw, j. auto.
    + right. exists sl', it', sw, j. auto 6.
Qed.

Lemma swap_name_set_has (lists : list json) (acc s : list pyval) :
  swap_name_set lists acc = Ok s ->
  (forall x, In x acc -> In x s)
  /\ (forall l rec n, In (JList l) lists -> In (JDict rec) l ->
                      dict_get "name" rec = Some (JStr n) -> In (VStr n) s).
Proof.
  revert acc. induction lists as [ | sl lists IH]; cbn; intros acc H.
  - injection H as <-. split; [auto | intros l rec n []].
  - destruct (py_iter sl) as [items | e] eqn:Ei; cbn in H; try discriminate.
    destruct (swap_names_of items acc) as [acc' | e] eqn:Es; cbn in H;
      try discriminate.
    destruct (IH _ H) as (Hkeep & Hhas).
    destruct (swap_names_of_has _ _ _ Es) as (Hkeep' & Hhas').
    split; [auto | ].
    intros l rec n [-> | Hin] Hrec Hn; [ | now apply (Hhas l rec n)].
    cbn in Ei. injection Ei as <-. apply Hkeep. now apply (Hhas' rec n).
Qed.

Lemma swap_source (groups : list (string * json)) (sl : json)
    (items : list json) (swap : json) (n : string) :
  In sl (map snd groups) -> py_iter sl = Ok items -> In swap items ->
  py_getitem swap "name" = Ok (JStr n) ->
  swap_name_inb n (JDict groups) = true.
Proof.
  intros Hsl Hit Hsw Hg.
  destruct swap as [ | | | | | rec]; try discriminate.
  cbn in Hg. destruct (dict_get "name" rec) as [j | ] eqn:Ed; try discriminate.
  injection Hg as ->.
  assert (Hl : sl = JList items).
  { destruct sl as [ | | | str | l | its]; cbn in Hit; try discriminate.
    - injection Hit as <-. apply in_map_iff in Hsw as (c & E & _). discriminate.
    - now injection Hit as ->.
    - injection Hit as <-. apply in_map_iff in Hsw as (kv & E & _). discriminate. }
  subst sl. apply in_map_iff in Hsl as ((g & l) & E & Hgl). cbn in E. subst l.
  cbn. apply existsb_exists. exists (g, JList items). split; [exact Hgl | ].
  cbn. apply existsb_exists. exists (JDict rec). split; [exact Hsw | ].
  rewrite Ed. apply String.eqb_refl.
Qed.

Lemma swap_icon_names_iff (swaps : json) (ti si : list pyval) (n : string) :
  swap_icon_names swaps ti = Ok si ->
  In (VStr n) si <-> swap_name_inb n swaps = true /\ ~ In (VStr n) ti.
Proof.
  unfold swap_icon_names. intros H.
  destruct swaps as [ | | | | | groups]; cbn in H; try discriminate.
  destruct (swap_name_set (map snd groups) []) as [s | e] eqn:Es; cbn in H;
    try discriminate.
  apply py_sorted_perm in H. split.
  - intros Hin. apply (Permutation_in _ (Permutation_sym H)) in Hin.
    apply filter_In in Hin as (Hin & Hm). apply negb_true_iff in Hm. split.
    + destruct (swap_name_set_from _ _ _ _ Es Hin)
        as [[] | (sl & items & sw & j & H1 & H2 & H3 & H4 & H5)].
      apply hashable_str in H5. subst j. now apply (swap_source groups sl items sw).
    + intros Hti. rewrite (set_mem_In _ _ Hti) in Hm. discriminate.
  - intros (Hn & Hti). apply (Permutation_in _ H). apply filter_In. split.
    + destruct (swap_name_set_has _ _ _ Es) as (_ & Hhas).
      cbn in Hn. apply existsb_exists in Hn as ((g & sl) & Hg & Hn). cbn in Hn.
      destruct sl as [ | | | | l | ]; try discriminate.
      apply existsb_exists in Hn as (sw & Hsw & Hn).
      destruct sw as [ | | | | | rec]; try discriminate.
      destruct (dict_get "name" rec) as [[ | | | m | | ] | ] eqn:Ed; try discriminate.
      apply String.eqb_eq in Hn. subst m.
      apply (Hhas l rec n); [ | exact Hsw | exact Ed].
      apply in_map_iff. now exists (g, JList l).
    + apply negb_true_iff. destruct (set_mem (VStr n) ti) eqn:E; [ | reflexivity].
      apply set_mem_str in E. contradiction.
Qed.

(** X7. Which names a built manifest holds: a string is the name of a
    tech_icons descriptor exactly when some technology record carries it as
    icon, and the name of a swap_icons descriptor exactly when some swap
    record carries it as name and no technology record carries it as
    icon. *)
Theorem icon_names_come_from_metadata {P : Platform} (stellaris data output : Path)
    (s : State) (techs swaps : json) (manifest : list AssetEntry) (n : string) :
  load_json (data // "technologies.json") (world s) = Ok techs ->
  load_json (data // "technology_swaps.json") (world s) = Ok swaps ->
  fst (build_asset_manifest stellaris data output s) = Ok manifest ->
  (In (VStr n) (names_in "tech_icons" manifest) <-> tech_icon_inb n techs = true)
  /\ (In (VStr n) (names_in "swap_icons" manifest) <->
      swap_name_inb n swaps = true /\ tech_icon_inb n techs = false).
Proof.
  intros Ht Hs H. rewrite build_asset_manifest_fst in H.
  apply manifest_of_inv in H
    as (techs' & ti & swaps' & si & Ht' & Hti & Hs' & Hsi & ->).
  rewrite Ht in Ht'. injection Ht' as <-. rewrite Hs in Hs'. injection Hs' as <-.
  rewrite names_in_tech, names_in_swap.
  assert (Htech : In (VStr n) ti <-> tech_icon_inb n techs = true).
  { split; [now apply tech_icon_names_from | ].
    now apply (proj2 (tech_icon_names_inv _ _ Hti)). }
  split; [exact Htech | ].
  rewrite (swap_icon_names_iff _ _ _ n Hsi), Htech.
  destruct (tech_icon_inb n techs); intuition congruence.
Qed.

Lemma icon_names_come_from_metadata_witness :
  (In (VStr "special_swap") (names_in "tech_icons" Toy.ex_manifest) <->
   tech_icon_inb "special_swap" ex_techs = true)
  /\ (In (VStr "special_swap") (names_in "swap_icons" Toy.ex_manifest) <->
      swap_name_inb "special_swap" ex_swaps = true
      /\ tech_icon_inb "special_swap" ex_techs = false).
Proof.
  apply (@icon_names_come_from_metadata Toy.platform "/game" "/data" "/out"
           (Toy.start (Toy.install ex_techs ex_swaps Toy.always_ok))
           ex_techs ex_swaps Toy.ex_manifest "special_swap");
    vm_compute; reflexivity.
Defined.

(* ================================================================== *)
(** * Further properties of the driver                                 *)
(* ================================================================== *)

Section EmitFacts.

Context {P : Platform}.
Variable ok : event -> Prop.

Lemma emits_ret {A} (a : A) : emits ok (ret a).
Proof. intros s. exists []. cbn. now rewrite app_nil_r. Qed.

Lemma emits_logs_only {A} (c : M A) (f : World -> result A) :
  logs_only c f -> emits ok c.
Proof.
  intros H s. destruct (H s) as (lg & ->). exists []. cbn. now rewrite app_nil_r.
Qed.

Lemma emits_log (lv : level) (tpl : string) (a : list arg) : emits ok (log lv tpl a).
Proof. exact (emits_logs_only _ _ (logs_only_log lv tpl a)). Qed.

Lemma emits_query {A} (q : World -> A) : emits ok (query q).
Proof. exact (emits_logs_only _ _ (logs_only_query q)). Qed.

Lemma emits_ask {A} (q : World -> result A) : emits ok (ask q).
Proof. exact (emits_logs_only _ _ (logs_only_ask q)). Qed.

Lemma emits_bind {A B} (c : M A) (k : A -> M B) :
  emits ok c -> (forall a, emits ok (k a)) -> emits ok (bind c k).
Proof.
  intros Hc Hk s. unfold bind.
  destruct (Hc s) as (evs1 & T1 & F1).
  destruct (c s) as [[a | e] s1]; cbn [snd] in *.
  - destruct (Hk a s1) as (evs2 & T2 & F2).
    exists (evs1 ++ evs2)%list. rewrite T2, T1, app_assoc.
    split; [reflexivity | now apply Forall_app].
  - now exists evs1.
Qed.

Lemma emits_mkdir (p : Path) : ok (EvMkdir p) -> emits ok (do_mkdir p).
Proof.
  intros H s. unfold do_mkdir. destruct (mkdir p (world s)) as [r w].
  exists [EvMkdir p]. cbn. auto.
Qed.

Lemma emits_run (cmd : list string) (t : Z) :
  (forall o, ok (EvRun cmd t o)) -> emits ok (run cmd t).
Proof.
  intros H s. unfold run. destruct (subprocess_run cmd t (world s)) as [o w].
  exists [EvRun cmd t o]. cbn. auto.
Qed.

End EmitFacts.

Section AllowedEvents.

Context {P : Platform}.
Variable args : Args.

Ltac emit :=
  repeat match goal with
    | |- emits _ (ret _) => apply emits_ret
    | |- emits _ (log _ _ _) => apply emits_log
    | |- emits _ (query _) => apply emits_query
    | |- emits _ (ask _) => apply emits_ask
    | |- emits _ (file_size _) => apply emits_query
    | |- emits _ (do_mkdir _) => apply emits_mkdir; exact I
    | |- emits _ (bind _ _) => apply emits_bind; [ | intros ? ]
    | |- emits _ (if ?b then _ else _) => destruct b eqn:?
    | |- emits _ (match ?x with Completed _ _ => _ | _ => _ end) => destruct x
    end.

Lemma dds_to_png_emits (src dst : Path) :
  emits (allowed_event args) (dds_to_png src dst).
Proof.
  unfold dds_to_png. emit.
  apply emits_run. intros o. cbn. auto.
Qed.

Lemma crop_sprite_emits (src : Path) (region : Z * Z * Z * Z) (dst : Path) :
  emits (allowed_event args) (crop_sprite src region dst).
Proof.
  unfold crop_sprite. emit.
  apply emits_run. intros o. destruct region as [[[x y] w] h]. cbn. auto.
Qed.

Lemma png_to_avif_emits (src dst : Path) (lossless : bool) (jobs : Z) :
  negb (no_avif args) = true ->
  emits (allowed_event args) (png_to_avif src dst lossless jobs).
Proof.
  intros Hno. apply negb_true_iff in Hno. unfold png_to_avif. emit.
  apply emits_run. intros o. destruct lossless; cbn; auto.
Qed.

Lemma process_entry_emits (i : Z) (e : AssetEntry) (st : Stats) :
  emits (allowed_event args) (process_entry args i e st).
Proof.
  unfold process_entry. emit.
  - apply dds_to_png_emits.
  - now apply png_to_avif_emits.
Qed.

Lemma process_assets_emits (manifest : list AssetEntry) :
  forall i st, emits (allowed_event args) (process_assets args i manifest st).
Proof.
  induction manifest as [ | e rest IH]; intros i st; cbn [process_assets].
  - apply emits_ret.
  - apply emits_bind; [apply process_entry_emits | intros st'; apply IH].
Qed.

Lemma process_crop_emits (cb : Path) (crop : string * (Z * Z * Z * Z)) (st : Stats) :
  emits (allowed_event args) (process_crop args cb crop st).
Proof.
  destruct crop as [nm region]. unfold process_crop. emit.
  - apply crop_sprite_emits.
  - now apply png_to_avif_emits.
Qed.

Lemma process_crop_regions_emits (cb : Path)
    (regions : list (string * (Z * Z * Z * Z))) :
  forall st, emits (allowed_event args) (process_crop_regions args cb regions st).
Proof.
  induction regions as [ | crop rest IH]; intros st; cbn [process_crop_regions].
  - apply emits_ret.
  - apply emits_bind; [apply process_crop_emits | intros st'; apply IH].
Qed.

Lemma process_crops_emits (st : Stats) :
  emits (allowed_event args) (process_crops args st).
Proof.
  unfold process_crops. emit. apply process_crop_regions_emits.
Qed.

Lemma create_output_dirs_emits (subdirs : list string) :
  emits (allowed_event args) (create_output_dirs args subdirs).
Proof.
  induction subdirs as [ | d rest IH]; cbn [create_output_dirs]; emit.
  exact IH.
Qed.

Lemma convert_all_emits (manifest : list AssetEntry) :
  emits (allowed_event args) (convert_all args manifest).
Proof.
  unfold convert_all. emit.
  - apply create_output_dirs_emits.
  - apply process_assets_emits.
  - apply process_crops_emits.
  - eapply emits_logs_only. apply log_summary_logs_only.
Qed.

Lemma main_emits : emits (allowed_event args) (main args).
Proof.
  unfold main. emit.
  - eapply emits_logs_only. apply check_tool_logs_only.
  - eapply emits_logs_only. apply check_tool_logs_only.
  - eapply emits_logs_only. apply build_asset_manifest_run.
  - eapply emits_logs_only. apply dry_run_listing_logs_only.
  - apply convert_all_emits.
Qed.

End AllowedEvents.

(** X8. Whatever the arguments, the world and the outcome, a run leaves in
    the trace only directory creations, invocations of [magick] with a
    timeout of 30 and invocations of [avifenc] with a timeout of 120; with
    AVIF disabled it never invokes [avifenc]. *)
Theorem only_magick_and_avifenc_run {P : Platform} (args : Args) (s : State) :
  exists evs,
    trace (snd (main args s)) = (trace s ++ evs)%list
    /\ forall cmd timeout o, In (EvRun cmd timeout o) evs ->
         (hd "" cmd = "magick" /\ timeout = 30)
         \/ (no_avif args = false /\ hd "" cmd = "avifenc" /\ timeout = 120).
Proof.
  destruct (main_emits args s) as (evs & T & F).
  exists evs. split; [exact T | ].
  intros cmd timeout o Hin. rewrite Forall_forall in F.
  exact (F _ Hin).
Qed.

(** X9. Cropping has the converters' contract.  Where the parent directory
    of the destination can be created, [crop_sprite] returns a boolean and
    does not raise: [True] for exit code 0, [False] with one ERROR record
    for a nonzero exit code, a timeout or an invocation exception; an error
    raised by the creation of that directory reaches the caller. *)
Theorem crop_sprite_returns_and_reports {P : Platform} (src : Path)
    (region : Z * Z * Z * Z) (dst : Path) (s : State) :
  (fst (mkdir (parent dst) (world s)) = Ok tt ->
   returns_and_reports (parent dst) (crop_cmd src region dst) 30
                       (crop_sprite src region dst) s)
  /\ (forall e, fst (mkdir (parent dst) (world s)) = Raise e ->
                fst (crop_sprite src region dst s) = Raise e).
Proof.
  split.
  - intros H. apply tool_call_reports; [apply crop_sprite_call | exact H].
  - intros e H. eapply tool_call_raises; [apply crop_sprite_call | exact H].
Qed.

Lemma crop_sprite_returns_and_reports_witness :
  @returns_and_reports Toy.platform "/out/png/sprites"
    (@crop_cmd Toy.platform Toy.checkbox_png (11, 11, 26, 26)
       "/out/png/sprites/checkbox_normal.png") 30
    (@crop_sprite Toy.platform Toy.checkbox_png (11, 11, 26, 26)
       "/out/png/sprites/checkbox_normal.png")
    Toy.s_sheet_ready.
Proof.
  apply (proj1 (@crop_sprite_returns_and_reports Toy.platform Toy.checkbox_png
                  (11, 11, 26, 26) "/out/png/sprites/checkbox_normal.png"
                  Toy.s_sheet_ready)).
  reflexivity.
Defined.

Lemma create_output_dirs_trace {P : Platform} (args : Args) (subdirs : list string) :
  forall s s',
    create_output_dirs args subdirs s = (Ok tt, s') ->
    trace s' = (trace s ++ output_dir_events args subdirs)%list
    /\ logs s' = logs s.
Proof.
  induction subdirs as [ | d rest IH]; intros s s' H.
  - cbn in H. injection H as <-. cbn. now rewrite app_nil_r.
  - cbn [create_output_dirs] in H. rewrite bind_eq in H.
    unfold do_mkdir at 1 in H.
    destruct (mkdir (output_dir args // "png" // d) (world s)) as [[[] | e] w1];
      [ | discriminate].
    rewrite bind_eq in H.
    change (output_dir_events args (d :: rest))
      with ((EvMkdir (output_dir args // "png" // d)
             :: (if no_avif args then []
                 else [EvMkdir (output_dir args // "avif" // d)]))
            ++ output_dir_events args rest)%list.
    destruct (no_avif args); cbn [negb] in H.
    + cbn [ret] in H. apply IH in H as (Ht & Hl). cbn [trace logs] in Ht, Hl.
      rewrite Ht, Hl, <- app_assoc. auto.
    + unfold do_mkdir at 1 in H. cbn [world logs trace] in H.
      destruct (mkdir (output_dir args // "avif" // d) w1) as [[[] | e] w2];
        [ | discriminate].
      apply IH in H as (Ht & Hl). cbn [trace logs] in Ht, Hl.
      rewrite Ht, Hl, <- !app_assoc. auto.
Qed.

(** X10. When the output directories have been created, the trace shows
    exactly their creations, in the order of the subdirectories, png before
    avif, and no avif directory when AVIF is disabled; and for every
    descriptor of a manifest built for that output root, the directory
    <output>/png/<category> that holds its intermediate file is among them,
    and <output>/avif/<category> too unless AVIF is disabled. *)
Theorem output_dirs_cover_manifest {P : Platform} (args : Args)
    (s0 s s' : State) (manifest : list AssetEntry) :
  fst (build_asset_manifest (stellaris_path args) (data_dir args)
         (output_dir args) s0) = Ok manifest ->
  create_output_dirs args SUBDIRS s = (Ok tt, s') ->
  trace s' = (trace s ++ output_dir_events args SUBDIRS)%list
  /\ (no_avif args = true ->
      trace s' = (trace s ++ map (fun d => EvMkdir (output_dir args // "png" // d))
                                SUBDIRS)%list)
  /\ forall e, In e manifest ->
       In (EvMkdir (output_dir args // "png" // category e)) (trace s')
       /\ (no_avif args = false ->
           In (EvMkdir (output_dir args // "avif" // category e)) (trace s')).
Proof.
  intros Hm Hc. apply create_output_dirs_trace in Hc as (Ht & _).
  split; [exact Ht | ]. split.
  - intros Hno. rewrite Ht. unfold output_dir_events. rewrite Hno. reflexivity.
  - intros e He.
    rewrite build_asset_manifest_fst in Hm.
    apply manifest_of_inv in Hm as (techs & ti & swaps & si & _ & _ & _ & _ & ->).
    assert (Hcat : In (category e) SUBDIRS).
    { unfold assemble, fixed_entries in He. rewrite !in_app_iff in He.
      destruct He as [He | [He | [He | [He | [He | He]]]]];
        apply in_map_iff in He as (x & <- & _); try destruct x; cbn; auto 10. }
    rewrite Ht. split.
    + apply in_or_app. right. unfold output_dir_events.
      apply in_flat_map. exists (category e). split; [exact Hcat | now left].
    + intros Hno. apply in_or_app. right. unfold output_dir_events.
      apply in_flat_map. exists (category e). split; [exact Hcat | ].
      rewrite Hno. right. now left.
Qed.

Lemma output_dirs_cover_manifest_witness :
  In (@EvMkdir Toy.platform "/out/png/tech_icons")
     (trace (snd (create_output_dirs (Toy.args false false) SUBDIRS
                    Toy.s_avifenc_fails)))
  /\ (no_avif (Toy.args false false) = false ->
      In (@EvMkdir Toy.platform "/out/avif/tech_icons")
         (trace (snd (create_output_dirs (Toy.args false false) SUBDIRS
                        Toy.s_avifenc_fails)))).
Proof.
  refine (proj2 (proj2 (@output_dirs_cover_manifest Toy.platform
                          (Toy.args false false) Toy.s_avifenc_fails
                          Toy.s_avifenc_fails
                          (snd (create_output_dirs (Toy.args false false) SUBDIRS
                                  Toy.s_avifenc_fails))
                          Toy.ex_manifest _ _))
                Toy.laser_entry _).
  - vm_compute. reflexivity.
  - vm_compute. reflexivity.
  - vm_compute. right. left. reflexivity.
Defined.

(** X11. When the intermediate PNG of the checkbox sprite sheet is absent,
    the crop pass records one warning and does nothing else: no directory is
    created, no tool is invoked, and counters, byte totals and errors are as
    they were. *)
Theorem missing_sheet_skips_crops {P : Platform} (args : Args) (st : Stats)
    (s : State) :
  is_file (output_dir args // "png" // "sprites" // "button_24_24_checkbox.png")
          (world s) = Ok false ->
  exists s',
    process_crops args st s
    = (Ok (append_warning st "Checkbox sprite sheet missing, crops skipped"), s')
    /\ world s' = world s
    /\ trace s' = trace s
    /\ exists lg r, logs s' = (logs s ++ lg ++ [r])%list /\ lvl r = WARNING.
Proof.
  intros H. unfold process_crops.
  rewrite bind_eq. cbn [log]. rewrite bind_eq. cbn [log]. rewrite bind_eq.
  cbn [ask world]. rewrite H. rewrite bind_eq. cbn [log ret].
  eexists. split; [reflexivity | ]. cbn. repeat split.
  eexists [_; _], _. rewrite <- !app_assoc. split; reflexivity.
Qed.

Lemma missing_sheet_skips_crops_witness :
  exists s',
    process_crops (Toy.args false false) (new_stats 0)
                  (Toy.start (Toy.install ex_techs ex_swaps Toy.always_ok))
    = (Ok (append_warning (new_stats 0)
             "Checkbox sprite sheet missing, crops skipped"), s')
    /\ world s' = Toy.install ex_techs ex_swaps Toy.always_ok
    /\ trace s' = []
    /\ exists lg r, logs s' = ([] ++ lg ++ [r])%list /\ lvl r = WARNING.
Proof.
  apply (@missing_sheet_skips_crops Toy.platform (Toy.args false false)
           (new_stats 0) (Toy.start (Toy.install ex_techs ex_swaps Toy.always_ok))).
  reflexivity.
Defined.

Lemma check_tool_missing {P : Platform} (tool : string) (s : State) :
  which tool (world s) = None ->
  exists r, lvl r = CRITICAL /\ check_tool tool s = (Ok false, logged s [r]).
Proof.
  intros H. unfold check_tool. rewrite bind_eq. cbn [query]. rewrite H.
  rewrite bind_eq. cbn [log ret]. eexists. split; [ | reflexivity]. reflexivity.
Qed.

Lemma check_tool_found {P : Platform} (tool : string) (s : State) :
  found (which tool (world s)) = true ->
  exists r, check_tool tool s = (Ok true, logged s [r]).
Proof.
  intros H. unfold check_tool. rewrite bind_eq. cbn [query].
  destruct (which tool (world s)); [ | discriminate].
  rewrite bind_eq. cbn [log ret]. eexists. reflexivity.
Qed.

(** X12. When pre-flight validation fails (the installation lacks
    common/technology, technologies.json is not a file, [magick] is not on
    the path, or [avifenc] is not on the path while AVIF is enabled), [main]
    returns 1, the last record it logs is CRITICAL, and nothing has been
    created or invoked. *)
Theorem validation_failure_returns_1 {P : Platform} (args : Args) (s : State) :
  validated args (world s) = Ok false ->
  fst (main args s) = Ok 1
  /\ world (snd (main args s)) = world s
  /\ trace (snd (main args s)) = trace s
  /\ lvl (last (logs (snd (main args s))) (LogRecord DEBUG "" [])) = CRITICAL.
Proof.
  unfold validated. intros Hv. unfold main.
  cbn [bind log query ask ret world logs trace negb].
  destruct (is_dir _ (world s)) as [[ | ] | x]; cbn [negb rbind] in Hv;
    try discriminate;
    cbn [bind log query ask ret world logs trace negb fst snd].
  2:{ rewrite last_last. auto. }
  destruct (is_file _ (world s)) as [[ | ] | x]; cbn [negb rbind] in Hv;
    try discriminate;
    cbn [bind log query ask ret world logs trace negb fst snd].
  2:{ rewrite last_last. auto. }
  injection Hv as Hv.
  rewrite bind_eq.
  match goal with
  | |- context [check_tool "magick" ?S] => set (S1 := S)
  end.
  destruct (which "magick" (world S1)) as [p | ] eqn:Em.
  2:{ destruct (check_tool_missing "magick" S1 Em) as (r & Hr & ->).
      cbn [negb ret fst snd logged world logs trace]. rewrite last_last. auto. }
  destruct (check_tool_found "magick" S1) as (r1 & ->); [now rewrite Em | ].
  change (world S1) with (world s) in Em.
  rewrite Em in Hv. cbn [found andb] in Hv. cbn [negb].
  rewrite bind_eq.
  destruct (no_avif args); cbn [negb orb] in *; [discriminate | ].
  match goal with
  | |- context [check_tool "avifenc" ?S] => set (S2 := S)
  end.
  destruct (which "avifenc" (world S2)) as [p' | ] eqn:Ea.
  - change (world S2) with (world s) in Ea. rewrite Ea in Hv. discriminate.
  - destruct (check_tool_missing "avifenc" S2 Ea) as (r & Hr & ->).
    cbn [negb ret fst snd logged world logs trace]. rewrite last_last. auto.
Qed.

Lemma validation_failure_returns_1_witness :
  fst (main (Toy.args false false) Toy.s_no_tools) = Ok 1
  /\ world (snd (main (Toy.args false false) Toy.s_no_tools)) = world Toy.s_no_tools
  /\ trace (snd (main (Toy.args false false) Toy.s_no_tools)) = trace Toy.s_no_tools
  /\ lvl (last (logs (snd (main (Toy.args false false) Toy.s_no_tools)))
               (LogRecord DEBUG "" [])) = CRITICAL.
Proof.
  apply (@validation_failure_returns_1 Toy.platform (Toy.args false false)
           Toy.s_no_tools).
  reflexivity.
Defined.

Section EntryCases.

Context {P : Platform}.
Variable args : Args.

Ltac entry_cases i e st s :=
  let Ho := fresh "Ho" in
  let r := fresh "r" in
  let s' := fresh "s'" in
  let E := fresh "E" in
  pose proof (process_entry_outcome args i e st s) as Ho;
  destruct (process_entry args i e st s) as [r s'] eqn:E;
  cbn [fst snd] in Ho;
  inversion Ho; subst; clear Ho; try congruence.

(** Stage one failed. *)
Lemma process_entry_stage_one_failed (i : Z) (e : AssetEntry) (st : Stats)
    (s s1 : State) :
  is_file (src_dds e) (world s) = Ok true ->
  dds_to_png (src_dds e) (dst_png e) s = (Ok false, s1) ->
  exists lg,
    process_entry args i e st s
    = (Ok (append_error
             (incr_failed (add_dds_bytes st (size_in (src_dds e) (world s))))
             (entry_msg e "DDS→PNG failed")),
       logged s1 lg).
Proof.
  intros Hsrc H1. entry_cases i e st s.
  match goal with
  | H : dds_to_png _ _ s = (Ok false, ?x) |- _ =>
      rewrite H1 in H; injection H as <-
  end.
  eauto.
Qed.

(** Both stages succeeded. *)
Lemma process_entry_converted (i : Z) (e : AssetEntry) (st : Stats)
    (s s1 s2 : State) :
  is_file (src_dds e) (world s) = Ok true ->
  dds_to_png (src_dds e) (dst_png e) s = (Ok true, s1) ->
  no_avif args = false ->
  png_to_avif (dst_png e) (dst_avif e) (lossless e) (jobs args) s1 = (Ok true, s2) ->
  exists lg,
    process_entry args i e st s
    = (Ok (incr_converted
             (add_avif_bytes
                (add_png_bytes (add_dds_bytes st (size_in (src_dds e) (world s)))
                               (size_in (dst_png e) (world s1)))
                (size_in (dst_avif e) (world s2)))),
       logged s2 lg).
Proof.
  intros Hsrc H1 Hno H2. entry_cases i e st s.
  match goal with
  | H : dds_to_png _ _ s = (Ok true, ?x) |- _ =>
      rewrite H1 in H; injection H as <-
  end.
  match goal with
  | H : png_to_avif _ _ _ _ s1 = (Ok true, ?x) |- _ =>
      rewrite H2 in H; injection H as <-
  end.
  eauto.
Qed.

(** Stage one succeeded and stage two is disabled. *)
Lemma process_entry_png_only (i : Z) (e : AssetEntry) (st : Stats) (s s1 : State) :
  is_file (src_dds e) (world s) = Ok true ->
  dds_to_png (src_dds e) (dst_png e) s = (Ok true, s1) ->
  no_avif args = true ->
  exists lg,
    process_entry args i e st s
    = (Ok (incr_converted
             (add_png_bytes (add_dds_bytes st (size_in (src_dds e) (world s)))
                            (size_in (dst_png e) (world s1)))),
       logged s1 lg).
Proof.
  intros Hsrc H1 Hno. entry_cases i e st s.
  match goal with
  | H : dds_to_png _ _ s = (Ok true, ?x) |- _ =>
      rewrite H1 in H; injection H as <-
  end.
  eauto.
Qed.

(** The source is missing. *)
Lemma process_entry_skipped (i : Z) (e : AssetEntry) (st : Stats) (s : State) :
  is_file (src_dds e) (world s) = Ok false ->
  exists lg,
    process_entry args i e st s
    = (Ok (append_warning (incr_skipped st) (entry_msg e "DDS missing")),
       logged s lg).
Proof.
  intros Hsrc. entry_cases i e st s. eauto.
Qed.

Lemma entry_outcome_messages (e : AssetEntry) (st st' : Stats) (s s' : State) :
  entry_outcome args e st s (Ok st') s' ->
  len (errors st') - len (errors st) = failed st' - failed st
  /\ len (warnings st') - len (warnings st) = skipped st' - skipped st.
Proof.
  intros H. inversion H; subst; clear H; cbn; unfold len;
    rewrite ?length_app; cbn; lia.
Qed.

Lemma entry_outcome_no_avif (e : AssetEntry) (st st' : Stats) (s s' : State) :
  no_avif args = true ->
  entry_outcome args e st s (Ok st') s' -> avif_bytes st' = avif_bytes st.
Proof.
  intros Hno H. inversion H; subst; clear H; cbn; congruence.
Qed.

Lemma process_assets_messages (manifest : list AssetEntry) :
  forall i st s st' s',
    process_assets args i manifest st s = (Ok st', s') ->
    len (errors st') - len (errors st) = failed st' - failed st
    /\ len (warnings st') - len (warnings st) = skipped st' - skipped st
    /\ (no_avif args = true -> avif_bytes st' = avif_bytes st).
Proof.
  induction manifest as [ | e rest IH]; intros i st s st' s' H.
  - cbn in H. injection H as <- <-. repeat split; lia.
  - cbn [process_assets] in H. rewrite bind_eq in H.
    pose proof (process_entry_outcome args i e st s) as Ho.
    destruct (process_entry args i e st s) as [[st1 | x] s1]; [ | discriminate].
    cbn [fst snd] in Ho.
    pose proof (entry_outcome_messages _ _ _ _ _ Ho) as (He & Hw).
    apply IH in H as (He2 & Hw2 & Ha2).
    repeat split; try lia.
    intros Hno. rewrite (Ha2 Hno). now apply (entry_outcome_no_avif e st st1 s s1).
Qed.

Lemma process_assets_all_skipped (manifest : list AssetEntry) :
  forall i st s,
    (forall e, In e manifest -> is_file (src_dds e) (world s) = Ok false) ->
    exists st' lg,
      process_assets args i manifest st s = (Ok st', logged s lg)
      /\ skipped st' = skipped st + len manifest
      /\ len (warnings st') = len (warnings st) + len manifest
      /\ failed st' = failed st /\ converted st' = converted st
      /\ errors st' = errors st
      /\ dds_bytes st' = dds_bytes st /\ png_bytes st' = png_bytes st
      /\ avif_bytes st' = avif_bytes st.
Proof.
  induction manifest as [ | e rest IH]; intros i st s Hall.
  - exists st, []. rewrite logged_nil. unfold len. cbn. repeat split; lia.
  - destruct (process_entry_skipped i e st s (Hall e (or_introl eq_refl)))
      as (lg & E).
    rewrite (process_assets_cons _ _ _ _ _ _ _ _ E).
    destruct (IH (i + 1) (append_warning (incr_skipped st) (entry_msg e "DDS missing"))
                 (logged s lg))
      as (st' & lg' & E' & Hs & Hw & Hf & Hc & He & Hd & Hp & Ha).
    { intros e' He'. cbn. apply Hall. now right. }
    exists st', (lg ++ lg')%list. rewrite E', logged_app.
    cbn in *. unfold len in *. rewrite length_app in Hw. cbn in *.
    repeat split; try congruence; lia.
Qed.

End EntryCases.

(** X13. When the source exists and stage one fails, only the failed counter
    goes up, the error "<category>/<name>: DDS→PNG failed" is recorded, the
    source size has been added to the DDS byte total while the PNG and AVIF
    totals stay, stage two is not invoked (the asset's trace is one directory
    creation and one ImageMagick run), and the loop goes on with the next
    asset. *)
Theorem stage_one_failure_is_counted {P : Platform} (args : Args) (i : Z)
    (e : AssetEntry) (rest : list AssetEntry) (st : Stats) (s s1 : State) :
  is_file (src_dds e) (world s) = Ok true ->
  dds_to_png (src_dds e) (dst_png e) s = (Ok false, s1) ->
  exists st' s',
    process_entry args i e st s = (Ok st', s')
    /\ world s' = world s1
    /\ (exists o,
          trace s' = (trace s ++
                      [EvMkdir (parent (dst_png e));
                       EvRun ["magick"; path_str (src_dds e); path_str (dst_png e)]
                             30 o])%list)
    /\ failed st' = failed st + 1
    /\ skipped st' = skipped st
    /\ converted st' = converted st
    /\ errors st' = (errors st ++ [entry_msg e "DDS→PNG failed"])%list
    /\ dds_bytes st' = dds_bytes st + size_in (src_dds e) (world s)
    /\ png_bytes st' = png_bytes st
    /\ avif_bytes st' = avif_bytes st
    /\ process_assets args i (e :: rest) st s
       = process_assets args (i + 1) rest st' s'.
Proof.
  intros Hsrc H1.
  destruct (process_entry_stage_one_failed args i e st s s1 Hsrc H1) as (lg & E).
  destruct (tool_call_returns _ _ _ _ _ _ _ (dds_to_png_call _ _) H1) as (o & T & _).
  do 2 eexists. split; [exact E | ].
  cbn. repeat split; try reflexivity.
  - exists o. exact T.
  - now apply process_assets_cons.
Qed.

Lemma stage_one_failure_is_counted_witness :
  exists st' s',
    process_entry (Toy.args false false) 1 Toy.laser_entry (new_stats 1)
                  Toy.s_all_fail = (Ok st', s')
    /\ failed st' = 1 /\ dds_bytes st' = 2000 /\ png_bytes st' = 0.
Proof.
  destruct (@stage_one_failure_is_counted Toy.platform (Toy.args false false) 1
              Toy.laser_entry [] (new_stats 1) Toy.s_all_fail
              (snd (@dds_to_png Toy.platform (src_dds Toy.laser_entry)
                      (dst_png Toy.laser_entry) Toy.s_all_fail)))
    as (st' & s' & E & _ & _ & Hf & _ & _ & _ & Hd & Hp & _);
    try (vm_compute; reflexivity).
  exists st', s'. split; [exact E | ]. split; [exact Hf | ].
  split; [ | exact Hp]. refine (eq_trans Hd _). vm_compute. reflexivity.
Defined.

(** X14. An asset whose conversions succeed counts as converted and nothing
    else: with both stages, the sizes of the source, of the PNG as stage one
    left it and of the AVIF as stage two left it are added to the three byte
    totals; with AVIF disabled the AVIF total stays and the state is the one
    stage one left.  Errors, warnings and the other counters are
    unchanged. *)
Theorem converted_asset_accounting {P : Platform} (args : Args) (i : Z)
    (e : AssetEntry) (st : Stats) (s s1 : State) :
  is_file (src_dds e) (world s) = Ok true ->
  dds_to_png (src_dds e) (dst_png e) s = (Ok true, s1) ->
  (forall s2,
      no_avif args = false ->
      png_to_avif (dst_png e) (dst_avif e) (lossless e) (jobs args) s1
      = (Ok true, s2) ->
      exists st' s',
        process_entry args i e st s = (Ok st', s')
        /\ world s' = world s2 /\ trace s' = trace s2
        /\ converted st' = converted st + 1
        /\ failed st' = failed st /\ skipped st' = skipped st
        /\ errors st' = errors st /\ warnings st' = warnings st
        /\ dds_bytes st' = dds_bytes st + size_in (src_dds e) (world s)
        /\ png_bytes st' = png_bytes st + size_in (dst_png e) (world s1)
        /\ avif_bytes st' = avif_bytes st + size_in (dst_avif e) (world s2))
  /\ (no_avif args = true ->
      exists st' s',
        process_entry args i e st s = (Ok st', s')
        /\ world s' = world s1 /\ trace s' = trace s1
        /\ converted st' = converted st + 1
        /\ failed st' = failed st /\ skipped st' = skipped st
        /\ errors st' = errors st /\ warnings st' = warnings st
        /\ dds_bytes st' = dds_bytes st + size_in (src_dds e) (world s)
        /\ png_bytes st' = png_bytes st + size_in (dst_png e) (world s1)
        /\ avif_bytes st' = avif_bytes st).
Proof.
  intros Hsrc H1. split.
  - intros s2 Hno H2.
    destruct (process_entry_converted args i e st s s1 s2 Hsrc H1 Hno H2) as (lg & E).
    do 2 eexists. split; [exact E | ]. cbn. repeat split.
  - intros Hno.
    destruct (process_entry_png_only args i e st s s1 Hsrc H1 Hno) as (lg & E).
    do 2 eexists. split; [exact E | ]. cbn. repeat split.
Qed.

Lemma converted_asset_accounting_witness :
  exists st' s',
    process_entry (Toy.args false true) 1 Toy.laser_entry (new_stats 1)
                  Toy.s_avifenc_fails = (Ok st', s')
    /\ converted st' = 1 /\ png_bytes st' = 10 /\ avif_bytes st' = 0.
Proof.
  destruct (proj2 (@converted_asset_accounting Toy.platform (Toy.args false true) 1
                     Toy.laser_entry (new_stats 1) Toy.s_avifenc_fails
                     (snd (@dds_to_png Toy.platform (src_dds Toy.laser_entry)
                             (dst_png Toy.laser_entry) Toy.s_avifenc_fails))
                     eq_refl eq_refl) eq_refl)
    as (st' & s' & E & _ & _ & Hc & _ & _ & _ & _ & _ & Hp & Ha).
  exists st', s'. split; [exact E | ]. split; [exact Hc | ].
  split; [ | exact Ha]. refine (eq_trans Hp _). vm_compute. reflexivity.
Defined.

(** X15. When no source file of the manifest exists, the main pass skips
    every asset: the skipped counter and the warnings grow by the length of
    the manifest, nothing else in the statistics changes, and the pass
    creates no directory and invokes no tool. *)
Theorem missing_sources_skip_everything {P : Platform} (args : Args) (i : Z)
    (manifest : list AssetEntry) (st : Stats) (s : State) :
  (forall e, In e manifest -> is_file (src_dds e) (world s) = Ok false) ->
  exists st' s',
    process_assets args i manifest st s = (Ok st', s')
    /\ world s' = world s /\ trace s' = trace s
    /\ skipped st' = skipped st + len manifest
    /\ len (warnings st') = len (warnings st) + len manifest
    /\ failed st' = failed st /\ converted st' = converted st
    /\ errors st' = errors st
    /\ dds_bytes st' = dds_bytes st /\ png_bytes st' = png_bytes st
    /\ avif_bytes st' = avif_bytes st.
Proof.
  intros Hall.
  destruct (process_assets_all_skipped args manifest i st s Hall)
    as (st' & lg & E & H).
  exists st', (logged s lg). split; [exact E | ]. cbn. auto.
Qed.

Lemma missing_sources_skip_everything_witness :
  exists st' s',
    process_assets (Toy.args false false) 1 [Toy.physics_bg] (new_stats 1)
                   Toy.s_avifenc_fails = (Ok st', s')
    /\ skipped st' = 1 /\ failed st' = 0 /\ trace s' = [].
Proof.
  destruct (@missing_sources_skip_everything Toy.platform (Toy.args false false) 1
              [Toy.physics_bg] (new_stats 1) Toy.s_avifenc_fails)
    as (st' & s' & E & _ & Ht & Hs & _ & Hf & _).
  - intros e [<- | []]. reflexivity.
  - exists st', s'. auto.
Defined.

Section CropCases.

Context {P : Platform}.
Variable args : Args.

Lemma magick_runs_app (a b : list event) :
  magick_runs (a ++ b) = magick_runs a + magick_runs b.
Proof. unfold magick_runs, len. rewrite filter_app, length_app. lia. Qed.

Lemma magick_runs_crop (dir src : Path) (region : Z * Z * Z * Z) (dst : Path)
    (o : run_outcome) :
  magick_runs [EvMkdir dir; EvRun (crop_cmd src region dst) 30 o] = 1.
Proof. destruct region as [[[x y] w] h]. reflexivity. Qed.

Lemma magick_runs_avifenc (dir src dst : Path) (lossless : bool) (jobs : Z)
    (o : run_outcome) :
  magick_runs [EvMkdir dir; EvRun (avifenc_cmd src dst lossless jobs) 120 o] = 0.
Proof. destruct lossless; reflexivity. Qed.

Ltac crop_traces :=
  repeat match goal with
    | H : crop_sprite ?a ?r ?b ?s = (Ok _, _) |- _ =>
        destruct (tool_call_returns _ _ _ _ _ _ _ (crop_sprite_call a r b) H)
          as (? & ? & _); clear H
    | H : png_to_avif ?a ?b ?l ?j ?s = (Ok _, _) |- _ =>
        destruct (tool_call_returns _ _ _ _ _ _ _ (png_to_avif_call a b l j) H)
          as (? & ? & _); clear H
    end;
  cbn [logged trace];
  repeat match goal with
    | H : trace _ = _ |- _ => rewrite H; clear H
    end;
  rewrite <- ?app_assoc;
  eexists; split; [reflexivity | ];
  rewrite ?magick_runs_app, ?magick_runs_crop, ?magick_runs_avifenc; reflexivity.

Lemma crop_outcome_facts (cb : Path) (nm : string) (region : Z * Z * Z * Z)
    (st st' : Stats) (s s' : State) :
  crop_outcome args cb nm region st s (Ok st') s' ->
  warnings st' = warnings st
  /\ len (errors st) <= len (errors st') <= len (errors st) + 1
  /\ (no_avif args = true -> avif_bytes st' = avif_bytes st)
  /\ exists evs, trace s' = (trace s ++ evs)%list /\ magick_runs evs = 1.
Proof.
  intros H. inversion H; subst; clear H; cbn [warnings errors avif_bytes
    append_error add_png_bytes add_avif_bytes];
    (split; [reflexivity | ]);
    (split; [unfold len; rewrite ?length_app; cbn; lia | ]);
    (split; [congruence | ]);
    crop_traces.
Qed.

Lemma process_crop_regions_facts (cb : Path)
    (regions : list (string * (Z * Z * Z * Z))) :
  forall st s st' s',
    process_crop_regions args cb regions st s = (Ok st', s') ->
    warnings st' = warnings st
    /\ len (errors st) <= len (errors st') <= len (errors st) + len regions
    /\ (no_avif args = true -> avif_bytes st' = avif_bytes st)
    /\ exists evs, trace s' = (trace s ++ evs)%list
                   /\ magick_runs evs = len regions.
Proof.
  induction regions as [ | [nm region] rest IH]; intros st s st' s' H.
  - cbn in H. injection H as <- <-. unfold len. cbn.
    repeat split; try lia. exists []. now rewrite app_nil_r.
  - cbn [process_crop_regions] in H. rewrite bind_eq in H.
    pose proof (process_crop_outcome args cb nm region st s) as Ho.
    destruct (process_crop args cb (nm, region) st s) as [[st1 | x] s1];
      [ | discriminate].
    cbn [fst snd] in Ho.
    apply crop_outcome_facts in Ho as (Hw & He & Ha & evs1 & T1 & M1).
    apply IH in H as (Hw2 & He2 & Ha2 & evs2 & T2 & M2).
    split; [congruence | ]. split.
    { unfold len in *. cbn [length]. rewrite Nat2Z.inj_succ. lia. }
    split.
    { intros Hno. rewrite (Ha2 Hno). now apply Ha. }
    exists (evs1 ++ evs2)%list. split.
    + rewrite T2, T1. now rewrite app_assoc.
    + rewrite magick_runs_app, M1, M2. unfold len. cbn [length].
      rewrite Nat2Z.inj_succ. lia.
Qed.

Lemma process_crops_facts (st st' : Stats) (s s' : State) :
  process_crops args st s = (Ok st', s') ->
  len (warnings st) <= len (warnings st') <= len (warnings st) + 1
  /\ len (errors st) <= len (errors st') <= len (errors st) + 3
  /\ (no_avif args = true -> avif_bytes st' = avif_bytes st).
Proof.
  unfold process_crops.
  rewrite bind_eq. cbn [log]. rewrite bind_eq. cbn [log]. rewrite bind_eq.
  cbn [ask]. destruct (is_file _ _) as [[ | ] | x]; [ | | discriminate].
  - intros H. apply process_crop_regions_facts in H as (Hw & He & Ha & _).
    rewrite Hw. change (len CHECKBOX_REGIONS) with 3 in He. repeat split; try lia.
    exact Ha.
  - rewrite bind_eq. cbn [log ret]. intros H. injection H as <- _.
    cbn. unfold len. rewrite length_app. cbn. repeat split; lia.
Qed.

Lemma process_crops_present (st : Stats) (s : State) :
  is_file (output_dir args // "png" // "sprites" // "button_24_24_checkbox.png")
          (world s) = Ok true ->
  exists lg,
    process_crops args st s
    = process_crop_regions args
        (output_dir args // "png" // "sprites" // "button_24_24_checkbox.png")
        CHECKBOX_REGIONS st (logged s lg).
Proof.
  intros H. unfold process_crops.
  rewrite bind_eq. cbn [log]. rewrite bind_eq. cbn [log]. rewrite bind_eq.
  cbn [ask world]. rewrite H. eexists [_; _]. unfold logged. cbn.
  rewrite <- app_assoc. reflexivity.
Qed.

End CropCases.



(** X17. With AVIF disabled the AVIF byte total is never touched, neither
    by the main pass nor by the crop pass. *)
Theorem no_avif_leaves_avif_total {P : Platform} (args : Args) :
  no_avif args = true ->
  (forall i manifest st s st' s',
      process_assets args i manifest st s = (Ok st', s') ->
      avif_bytes st' = avif_bytes st)
  /\ (forall st s st' s',
         process_crops args st s = (Ok st', s') ->
         avif_bytes st' = avif_bytes st).
Proof.
  intros Hno. split.
  - intros i manifest st s st' s' H.
    apply process_assets_messages in H as (_ & _ & Ha). now apply Ha.
  - intros st s st' s' H.
    apply process_crops_facts in H as (_ & _ & Ha). now apply Ha.
Qed.

Lemma no_avif_leaves_avif_total_witness :
  avif_bytes (fst Toy.png_only_run) = avif_bytes (new_stats 24).
Proof.
  apply (proj1 (@no_avif_leaves_avif_total Toy.platform (Toy.args false true)
                  eq_refl)
               1 Toy.ex_manifest (new_stats 24) Toy.s_avifenc_fails
               (fst Toy.png_only_run) (snd Toy.png_only_run)).
  vm_compute. reflexivity.
Defined.

(** X18. Once the sprite sheet's PNG is found, a crop pass that returns has
    attempted every crop: its stretch of the trace holds exactly three
    ImageMagick runs, whether they or the encoder runs after them succeed or
    fail.  A crop pass that does not return was stopped by the platform:
    the exception is what the creation of a directory raised, and that
    creation is the last event of the trace. *)
Theorem every_crop_is_attempted {P : Platform} (args : Args) (st : Stats)
    (s : State) (r : result Stats) (s' : State) :
  is_file (output_dir args // "png" // "sprites" // "button_24_24_checkbox.png")
          (world s) = Ok true ->
  process_crops args st s = (r, s') ->
  match r with
  | Ok _ =>
      exists evs, trace s' = (trace s ++ evs)%list
                  /\ len (filter is_magick_run evs) = 3
  | Raise x => mkdir_refused x s'
  end.
Proof.
  intros Hf Hrun.
  destruct (process_crops_present args st s Hf) as (lg & E).
  rewrite E in Hrun. clear E.
  destruct r as [st' | x].
  - destruct (process_crop_regions_facts args _ _ _ _ _ _ Hrun)
      as (_ & _ & _ & evs & T & M).
    exists evs. split; [exact T | exact M].
  - exact (process_crop_regions_stopped args _ _ _ _ _ _ Hrun).
Qed.

Lemma every_crop_is_attempted_witness :
  exists evs,
    trace (snd Toy.sheet_crops_run) = (trace Toy.s_sheet_ready ++ evs)%list
    /\ len (filter is_magick_run evs) = 3.
Proof.
  apply (@every_crop_is_attempted Toy.platform (Toy.args false false)
           (new_stats 21) Toy.s_sheet_ready
           (Ok (fst Toy.sheet_crops_run)) (snd Toy.sheet_crops_run));
    vm_compute; reflexivity.
Defined.

Lemma build_asset_manifest_total_witness :
  exists manifest,
    fst (@build_asset_manifest Toy.platform "/game" "/data" "/out"
           (Toy.start (Toy.install ex_techs ex_swaps Toy.always_ok)))
    = Ok manifest.
Proof.
  apply (@build_asset_manifest_total Toy.platform "/game" "/data" "/out"
           (Toy.start (Toy.install ex_techs ex_swaps Toy.always_ok))
           ex_techs ex_swaps);
    reflexivity.
Defined.
